(** * RTI response analysis: classifier, fact anchors and action rules

    A shallow embedding of the three decision components of the RTI
    response summarizer:

    - [modules/rti_semantic.py]   sentence segmentation, statutory section
      detection and the keyword classifier;
    - [modules/fact_extractor.py] the fact-density scorer and the selection
      of fact anchors;
    - [modules/actionability.py]  the rule table producing suggestions, the
      appeal verdict, flags and the overall assessment;
    - [config.py]                 the keyword lists and section patterns.

    Conventions of the embedding.

    - Python [str] values are [string]s; a character is a code point below
      256 (Latin-1), which covers everything the patterns of the program can
      match except the three-character rupee mojibake of [FACT_KEYWORDS],
      whose middle character (U+201A) lies outside that range.
    - Python [float] values are exact rationals ([Q]).  The fact-density
      scores are sums of multiples of 0.25 and are represented exactly by
      binary64.  The ratios and classifier scores are quotients of small
      naturals compared against the literals 0.1, 0.3, 0.4, 0.6 and among
      themselves: two such values are either equal as rationals (and then
      round to the same double) or differ by far more than a unit in the
      last place, so every comparison made by the program has the same
      outcome on [Q].  the lemmas on [float_ratio] replay the decisive
      comparisons on binary64 itself.
    - Python true division raises [ZeroDivisionError] on a zero divisor:
      [py_truediv] returns [None] there and the functions that divide live
      in the [option] monad.
    - A [dict] is an association list in insertion order, because the
      program iterates dictionaries and relies on that order. *)

From Stdlib Require Import List String Ascii Bool Arith ZArith QArith Qminmax.
From Stdlib Require Import Lia Permutation Sorted PrimFloat Uint63 DecimalString.
Import ListNotations.

Close Scope Q_scope.
Open Scope string_scope.
Open Scope list_scope.
Open Scope nat_scope.

(* ================================================================== *)
(** ** Error monad for fallible arithmetic *)

Module Err.

Definition ret {A} (a : A) : option A := Some a.

Definition bind {A B} (m : option A) (f : A -> option B) : option B :=
  match m with
  | Some a => f a
  | None => None
  end.

End Err.

Notation "x <- m ;; k" := (Err.bind m (fun x => k))
  (at level 61, m at next level, right associativity).
Notation "' p <- m ;; k" := (Err.bind m (fun x => let p := x in k))
  (at level 61, p pattern, m at next level, right associativity).

(** [a / b] on Python ints: a float, or [ZeroDivisionError]. *)
Definition py_truediv (a b : nat) : option Q :=
  match b with
  | O => None
  | S _ => Some (Z.of_nat a # Pos.of_nat b)%Q
  end.

(** Boolean comparisons on scores. *)
Definition Qgtb (x y : Q) : bool := negb (Qle_bool x y).
Definition Qltb (x y : Q) : bool := negb (Qle_bool y x).
Definition Qgeb (x y : Q) : bool := Qle_bool y x.

(* ================================================================== *)
(** ** Python string operations *)

Module PyStr.

(** [str.isspace] on one character, which is also the class [\s] of [re]
    on [str] patterns: TAB..CR, FS..US, space, NEL and NBSP. *)
Definition is_space (c : ascii) : bool :=
  let n := nat_of_ascii c in
  ((9 <=? n) && (n <=? 13)) || ((28 <=? n) && (n <=? 32))
  || (n =? 133) || (n =? 160).

(** The class [\d]. *)
Definition is_digit (c : ascii) : bool :=
  let n := nat_of_ascii c in (48 <=? n) && (n <=? 57).

(** [str.lower] on one character. *)
Definition lower_char (c : ascii) : ascii :=
  let n := nat_of_ascii c in
  if ((65 <=? n) && (n <=? 90))
     || ((192 <=? n) && (n <=? 222) && negb (n =? 215))
  then ascii_of_nat (n + 32) else c.

Fixpoint lower (s : string) : string :=
  match s with
  | EmptyString => EmptyString
  | String c s' => String (lower_char c) (lower s')
  end.

Fixpoint lstrip (s : string) : string :=
  match s with
  | EmptyString => EmptyString
  | String c s' => if is_space c then lstrip s' else s
  end.

Fixpoint rstrip (s : string) : string :=
  match s with
  | EmptyString => EmptyString
  | String c s' =>
      match rstrip s' with
      | EmptyString => if is_space c then EmptyString else String c EmptyString
      | r => String c r
      end
  end.

(** [s.strip()] *)
Definition strip (s : string) : string := rstrip (lstrip s).

(** [needle in hay] *)
Fixpoint contains (needle hay : string) : bool :=
  match hay with
  | EmptyString => prefix needle hay
  | String _ hay' => prefix needle hay || contains needle hay'
  end.

(** [s.replace(old, new)] for a non-empty [old]: occurrences are replaced
    from the left and do not overlap; [skip] counts the characters of the
    occurrence just replaced that are still to be passed over. *)
Fixpoint replace_from (old new : string) (skip : nat) (s : string) : string :=
  match s with
  | EmptyString => EmptyString
  | String c s' =>
      match skip with
      | S k => replace_from old new k s'
      | O =>
          if prefix old s
          then (new ++ replace_from old new (String.length old - 1) s')%string
          else String c (replace_from old new 0 s')
      end
  end.

Definition replace (old new s : string) : string := replace_from old new 0 s.

(** [len(s.split())]: the number of maximal runs of non-blank characters. *)
Fixpoint count_words (in_word : bool) (s : string) : nat :=
  match s with
  | EmptyString => 0
  | String c s' =>
      if is_space c then count_words false s'
      else if in_word then count_words true s'
      else S (count_words true s')
  end.

Definition word_count (s : string) : nat := count_words false s.

(** [sep.join(parts)] *)
Definition join (sep : string) (parts : list string) : string :=
  String.concat sep parts.

(** [s[start:stop]] for [0 <= start] and [0 <= stop]. *)
Definition slice (start stop : nat) (s : string) : string :=
  substring start (stop - start) s.

(** [bool(s)] *)
Definition truthy (s : string) : bool :=
  match s with
  | EmptyString => false
  | String _ _ => true
  end.

(** The line feed character, as a string. *)
Definition newline : string := String (ascii_of_nat 10) EmptyString.

(** [s.split(sep)] for a non-empty [sep]: the pieces between the
    occurrences of [sep], found from the left and not overlapping.  [cur]
    is the piece being read, reversed. *)
Fixpoint split_from (sep : string) (skip : nat) (cur : list ascii)
    (s : string) : list string :=
  match s with
  | EmptyString => [string_of_list_ascii (rev cur)]
  | String c s' =>
      match skip with
      | S k => split_from sep k cur s'
      | O =>
          if prefix sep s
          then string_of_list_ascii (rev cur)
               :: split_from sep (String.length sep - 1) [] s'
          else split_from sep 0 (c :: cur) s'
      end
  end.

Definition split (sep s : string) : list string := split_from sep 0 [] s.

(** [s[:n]] for a Python int [n]: a negative [n] counts from the end. *)
Definition slice_to (n : Z) (s : string) : string :=
  if (0 <=? n)%Z then substring 0 (Z.to_nat n) s
  else substring 0 (String.length s - Z.to_nat (- n)) s.

(** [s.rsplit(sep, 1)[0]] for a one-character [sep]: the text before the
    last occurrence of the separator, or all of [s] when there is none. *)
Fixpoint rsplit1_head (sep : ascii) (s : string) : option string :=
  match s with
  | EmptyString => None
  | String c s' =>
      match rsplit1_head sep s' with
      | Some h => Some (String c h)
      | None => if Ascii.eqb c sep then Some EmptyString else None
      end
  end.

Definition rsplit1 (sep : ascii) (s : string) : string :=
  match rsplit1_head sep s with
  | Some h => h
  | None => s
  end.

(** [str(n)] for a non-negative int. *)
Definition of_nat (n : nat) : string :=
  NilEmpty.string_of_uint (Nat.to_uint n).

End PyStr.

(* ================================================================== *)
(** ** The fragment of [re] the program uses *)

Module Re.

(** Patterns.  Repetition is only ever applied to a character class in the
    program's patterns ([\s*], [\s+], [\d+], [[\d,]+]); bounded repetitions
    such as [\d{1,2}] are written with [Opt]. *)
Inductive regex : Type :=
| Eps
| Chr (c : ascii)
| Cls (p : ascii -> bool)
| Seq (r1 r2 : regex)
| Alt (r1 r2 : regex)
| Opt (r : regex)
| Star (p : ascii -> bool).

Definition Plus (p : ascii -> bool) : regex := Seq (Cls p) (Star p).

(** A literal word. *)
Fixpoint Lit (s : string) : regex :=
  match s with
  | EmptyString => Eps
  | String c s' => Seq (Chr c) (Lit s')
  end.

(** An alternation of patterns, in the order written. *)
Fixpoint Alts (r : regex) (rs : list regex) : regex :=
  match rs with
  | [] => r
  | r' :: rs' => Alt r (Alts r' rs')
  end.

(** A sequence of patterns. *)
Fixpoint Seqs (rs : list regex) : regex :=
  match rs with
  | [] => Eps
  | r :: rs' => Seq r (Seqs rs')
  end.

Definition one_of (chars : string) (c : ascii) : bool :=
  existsb (Ascii.eqb c) (list_ascii_of_string chars).

Definition chr_matches (icase : bool) (c x : ascii) : bool :=
  if icase then Ascii.eqb (PyStr.lower_char c) (PyStr.lower_char x)
  else Ascii.eqb c x.

Section Matcher.

Context {A : Type}.

(** Greedy [p*]: the longest run first, then shorter ones on backtracking. *)
Fixpoint star_k (p : ascii -> bool) (s : string)
    (k : string -> option A) : option A :=
  match s with
  | EmptyString => k s
  | String c s' =>
      if p c
      then match star_k p s' k with
           | Some a => Some a
           | None => k s
           end
      else k s
  end.

(** Backtracking matcher in continuation-passing style: [match_k r s k]
    tries the ways [r] can match a prefix of [s] in the engine's priority
    order and returns the first one the continuation accepts. *)
Fixpoint match_k (icase : bool) (r : regex) (s : string)
    (k : string -> option A) : option A :=
  match r with
  | Eps => k s
  | Chr c =>
      match s with
      | String x s' => if chr_matches icase c x then k s' else None
      | EmptyString => None
      end
  | Cls p =>
      match s with
      | String x s' => if p x then k s' else None
      | EmptyString => None
      end
  | Seq r1 r2 => match_k icase r1 s (fun s1 => match_k icase r2 s1 k)
  | Alt r1 r2 =>
      match match_k icase r1 s k with
      | Some a => Some a
      | None => match_k icase r2 s k
      end
  | Opt r1 =>
      match match_k icase r1 s k with
      | Some a => Some a
      | None => k s
      end
  | Star p => star_k p s k
  end.

End Matcher.

(** A match anchored at the start of [s]: the unmatched remainder. *)
Definition match_at (icase : bool) (r : regex) (s : string) : option string :=
  match_k icase r s Some.

(** [re.finditer]: the spans [(start, end)] of the successive matches,
    found from the left and not overlapping.  None of the program's
    patterns matches the empty string. *)
Fixpoint finditer_from (icase : bool) (r : regex) (pos skip : nat)
    (s : string) : list (nat * nat) :=
  match s with
  | EmptyString => []
  | String _ s' =>
      match skip with
      | S k => finditer_from icase r (S pos) k s'
      | O =>
          match match_at icase r s with
          | Some rest =>
              let n := String.length s - String.length rest in
              (pos, pos + n) :: finditer_from icase r (S pos) (n - 1) s'
          | None => finditer_from icase r (S pos) 0 s'
          end
      end
  end.

Definition finditer (icase : bool) (r : regex) (s : string)
    : list (nat * nat) :=
  finditer_from icase r 0 0 s.

(** [re.findall] for a pattern without groups: the matched texts. *)
Definition findall (icase : bool) (r : regex) (s : string) : list string :=
  map (fun span => PyStr.slice (fst span) (snd span) s) (finditer icase r s).

(** [re.search(...)] used as a truth value. *)
Definition search (icase : bool) (r : regex) (s : string) : bool :=
  match finditer icase r s with
  | [] => false
  | _ :: _ => true
  end.

(** [re.sub] for a pattern of the shape [(group)tail]: every match is
    replaced by [repl] applied to the text of the group. *)
Fixpoint sub_from (group tail : regex) (repl : string -> string)
    (skip : nat) (s : string) : string :=
  match s with
  | EmptyString => EmptyString
  | String c s' =>
      match skip with
      | S k => sub_from group tail repl k s'
      | O =>
          match match_k false group s
                  (fun s1 => match_k false tail s1 (fun s2 => Some (s1, s2)))
          with
          | Some (s1, s2) =>
              let g := substring 0 (String.length s - String.length s1) s in
              (repl g ++ sub_from group tail repl
                          (String.length s - String.length s2 - 1) s')%string
          | None => String c (sub_from group tail repl 0 s')
          end
      end
  end.

Definition sub (group tail : regex) (repl : string -> string) (s : string)
    : string :=
  sub_from group tail repl 0 s.

(** [re.split] for a pattern of the shape [(?<=[term])sep+]: the text is cut
    at every maximal run of [sep] characters that directly follows a [term]
    character.  [cur] is the piece being read, reversed; [after_term] says
    that the previous character is a terminator belonging to the piece;
    [in_sep] says that the previous character belongs to a separator run. *)
Fixpoint split_from (term sep : ascii -> bool) (after_term in_sep : bool)
    (cur : list ascii) (s : string) : list string :=
  match s with
  | EmptyString => [string_of_list_ascii (rev cur)]
  | String c s' =>
      if sep c && in_sep then split_from term sep false true cur s'
      else if sep c && after_term
      then string_of_list_ascii (rev cur)
           :: split_from term sep false true [] s'
      else split_from term sep (term c) false (c :: cur) s'
  end.

Definition split_after (term sep : ascii -> bool) (s : string) : list string :=
  split_from term sep false false [] s.

End Re.

(* ================================================================== *)
(** ** Insertion-ordered dictionaries with string keys *)

Module Dict.

Definition t (V : Type) : Type := list (string * V).

Fixpoint mem {V} (key : string) (d : t V) : bool :=
  match d with
  | [] => false
  | (k, _) :: d' => String.eqb key k || mem key d'
  end.

(** [d[key] = v]: an existing key keeps its position. *)
Fixpoint set {V} (key : string) (v : V) (d : t V) : t V :=
  match d with
  | [] => [(key, v)]
  | (k, w) :: d' =>
      if String.eqb key k then (k, v) :: d' else (k, w) :: set key v d'
  end.

Definition keys {V} (d : t V) : list string := map fst d.

End Dict.

(* ================================================================== *)
(** ** config.py *)

Module Config.

Import Re.

(** [[Ss]ection\s*N|[Ss]ec\.\s*N], the explicit forms shared by the five
    entries of [RTI_SECTIONS]. *)
Definition section_form (n : string) : regex :=
  Seqs [Cls (one_of "Ss"); Lit "ection"; Star PyStr.is_space; Lit n].

Definition sec_form (n : string) : regex :=
  Seqs [Cls (one_of "Ss"); Lit "ec"; Chr "."; Star PyStr.is_space; Lit n].

Definition RTI_SECTIONS : list (string * regex) :=
  [ ("section_8",
     Alts (section_form "8") [sec_form "8"; Lit "exemption"; Lit "exempt"]);
    ("section_9",
     Alts (section_form "9") [sec_form "9"; Lit "reject"; Lit "rejection"]);
    ("section_11",
     Alts (section_form "11")
       [sec_form "11"; Seqs [Lit "third"; Star PyStr.is_space; Lit "party"]]);
    ("section_19",
     Alts (section_form "19") [sec_form "19"; Lit "appeal"]);
    ("section_7",
     Alts (section_form "7")
       [sec_form "7";
        Seqs [Lit "time"; Star PyStr.is_space; Lit "limit"];
        Seqs [Lit "30"; Star PyStr.is_space; Lit "days"]]) ].

Definition DENIAL_KEYWORDS : list string :=
  [ "cannot be provided"; "denied"; "rejected"; "exempt"; "exemption";
    "not available"; "refused"; "decline"; "not possible"; "section 8";
    "confidential"; "classified"; "sensitive"; "national security" ].

Definition INFORMATIVE_KEYWORDS : list string :=
  [ "information is"; "details are"; "as per records"; "enclosed";
    "attached"; "provided herewith"; "following information"; "data shows" ].

Definition PROCEDURAL_KEYWORDS : list string :=
  [ "transferred to"; "forwarded to"; "fee required"; "please deposit";
    "time extension"; "additional time"; "competent authority"; "CPIO" ].

Definition EVASIVE_KEYWORDS : list string :=
  [ "no such information"; "not maintained"; "not available";
    "beyond scope"; "voluminous"; "vague"; "clarify"; "resubmit" ].

End Config.

(* ================================================================== *)
(** ** modules/rti_semantic.py *)

Module RtiSemantic.

Inductive SentenceCategory : Type :=
| INFORMATIVE
| DENIAL
| PROCEDURAL
| EVASIVE
| NEUTRAL.

Definition SentenceCategory_eqb (a b : SentenceCategory) : bool :=
  match a, b with
  | INFORMATIVE, INFORMATIVE | DENIAL, DENIAL | PROCEDURAL, PROCEDURAL
  | EVASIVE, EVASIVE | NEUTRAL, NEUTRAL => true
  | _, _ => false
  end.

Record ClassifiedSentence : Type := mkClassifiedSentence {
  text : string;
  category : SentenceCategory;
  confidence : Q;
  section_references : list string;
  keywords_found : list string
}.

(** The field [section_references] of the source is [document_sections]
    here, the name being taken by [ClassifiedSentence]. *)
Record StructuredRTIResponse : Type := mkStructuredRTIResponse {
  original_text : string;
  informative_sentences : list ClassifiedSentence;
  denial_sentences : list ClassifiedSentence;
  procedural_sentences : list ClassifiedSentence;
  evasive_sentences : list ClassifiedSentence;
  neutral_sentences : list ClassifiedSentence;
  document_sections : Dict.t (list string)
}.

(** The dictionary returned by [get_stats]. *)
Record Stats : Type := mkStats {
  total_sentences : nat;
  informative_count : nat;
  denial_count : nat;
  procedural_count : nat;
  evasive_count : nat;
  neutral_count : nat;
  informative_ratio : Q;
  denial_ratio : Q
}.

(** [n / total if total > 0 else 0] *)
Definition ratio_or_zero (n total : nat) : option Q :=
  if 0 <? total then py_truediv n total else Err.ret 0%Q.

Definition get_stats (self : StructuredRTIResponse) : option Stats :=
  let total :=
    List.length (informative_sentences self) + List.length (denial_sentences self)
    + List.length (procedural_sentences self) + List.length (evasive_sentences self)
    + List.length (neutral_sentences self) in
  ir <- ratio_or_zero (List.length (informative_sentences self)) total ;;
  dr <- ratio_or_zero (List.length (denial_sentences self)) total ;;
  Err.ret {| total_sentences := total;
             informative_count := List.length (informative_sentences self);
             denial_count := List.length (denial_sentences self);
             procedural_count := List.length (procedural_sentences self);
             evasive_count := List.length (evasive_sentences self);
             neutral_count := List.length (neutral_sentences self);
             informative_ratio := ir;
             denial_ratio := dr |}.

(** The context of one match: 50 characters on either side, stripped. *)
Definition excerpt_of (text : string) (span : nat * nat) : string :=
  let start := Nat.max 0 (fst span - 50) in
  let stop := Nat.min (String.length text) (snd span + 50) in
  PyStr.strip (PyStr.slice start stop text).

Definition detect_rti_sections (text : string) : Dict.t (list string) :=
  fold_left
    (fun section_references entry =>
       let '(section_name, pattern) := entry in
       let excerpts := map (excerpt_of text) (Re.finditer true pattern text) in
       match excerpts with
       | [] => section_references
       | _ :: _ => Dict.set section_name excerpts section_references
       end)
    Config.RTI_SECTIONS [].

Definition keyword_score (text : string) (keywords : list string)
    : option (Q * list string) :=
  let text_lower := PyStr.lower text in
  let found_keywords :=
    filter (fun keyword => PyStr.contains (PyStr.lower keyword) text_lower)
           keywords in
  score <- match keywords with
           | [] => Err.ret 0%Q
           | _ :: _ => py_truediv (List.length found_keywords) (List.length keywords)
           end ;;
  Err.ret (score, found_keywords).

(** One step of the loop that looks for the best category. *)
Definition best_step (best : SentenceCategory * Q * list string)
    (entry : SentenceCategory * (Q * list string))
    : SentenceCategory * Q * list string :=
  let '(best_category, best_score, best_keywords) := best in
  let '(category, (score, keywords)) := entry in
  if Qgtb score best_score then (category, score, keywords) else best.

Definition find_best (scores : list (SentenceCategory * (Q * list string)))
    : SentenceCategory * Q * list string :=
  fold_left best_step scores (NEUTRAL, 0%Q, []).

Section Classifier.

(** The keyword lists the classifier reads from the configuration. *)
Variables DENIAL_KEYWORDS INFORMATIVE_KEYWORDS
          PROCEDURAL_KEYWORDS EVASIVE_KEYWORDS : list string.

(** The score table of [classify_sentence] for a stripped sentence: the
    keyword scores with the section bonuses added, in insertion order. *)
Definition adjusted_scores (sentence : string)
    : option (list (SentenceCategory * (Q * list string))) :=
  ' (denial_score, denial_keywords) <-
      keyword_score sentence DENIAL_KEYWORDS ;;
  ' (informative_score, informative_keywords) <-
      keyword_score sentence INFORMATIVE_KEYWORDS ;;
  ' (procedural_score, procedural_keywords) <-
      keyword_score sentence PROCEDURAL_KEYWORDS ;;
  ' (evasive_score, evasive_keywords) <-
      keyword_score sentence EVASIVE_KEYWORDS ;;
  let section_refs := detect_rti_sections sentence in
  let denial_score :=
    if Dict.mem "section_8" section_refs
    then (denial_score + 0.3)%Q else denial_score in
  let procedural_score :=
    if Dict.mem "section_7" section_refs
       || Re.search true (Re.Alt (Re.Lit "transfer") (Re.Lit "forward"))
                    sentence
    then (procedural_score + 0.2)%Q else procedural_score in
  Err.ret [ (DENIAL, (denial_score, denial_keywords));
            (INFORMATIVE, (informative_score, informative_keywords));
            (PROCEDURAL, (procedural_score, procedural_keywords));
            (EVASIVE, (evasive_score, evasive_keywords)) ].

Definition classify_sentence_with (sentence : string)
    : option ClassifiedSentence :=
  let sentence := PyStr.strip sentence in
  if negb (PyStr.truthy sentence)
  then Err.ret {| text := sentence; category := NEUTRAL;
                  confidence := 0%Q;
                  section_references := []; keywords_found := [] |}
  else
    scores <- adjusted_scores sentence ;;
    let section_list := Dict.keys (detect_rti_sections sentence) in
    let '(best_category, best_score, best_keywords) := find_best scores in
    let '(best_category, best_score) :=
      if Qltb best_score 0.1%Q then (NEUTRAL, 0.5%Q)
      else (best_category, best_score) in
    Err.ret {| text := sentence; category := best_category;
               confidence := Qmin best_score 1%Q;
               section_references := section_list;
               keywords_found := best_keywords |}.

End Classifier.

Definition classify_sentence : string -> option ClassifiedSentence :=
  classify_sentence_with Config.DENIAL_KEYWORDS Config.INFORMATIVE_KEYWORDS
                         Config.PROCEDURAL_KEYWORDS Config.EVASIVE_KEYWORDS.

(** [(Mr|Mrs|Dr|Prof|Sr|Jr|vs|etc|i\.e|e\.g)] *)
Definition title_abbreviations : Re.regex :=
  Re.Alts (Re.Lit "Mr")
    (map Re.Lit ["Mrs"; "Dr"; "Prof"; "Sr"; "Jr"; "vs"; "etc"; "i.e"; "e.g"]).

(** [([Ss]ec|[Nn]o)] *)
Definition sec_no_abbreviations : Re.regex :=
  Re.Alt (Re.Seq (Re.Cls (Re.one_of "Ss")) (Re.Lit "ec"))
         (Re.Seq (Re.Cls (Re.one_of "Nn")) (Re.Lit "o")).

Definition is_terminator : ascii -> bool := Re.one_of ".!?".

Definition split_into_sentences (text : string) : list string :=
  let dot_space := Re.Seq (Re.Chr ".") (Re.Cls PyStr.is_space) in
  let text :=
    Re.sub title_abbreviations dot_space (fun g => (g ++ "<DOT> ")%string)
           text in
  let text :=
    Re.sub sec_no_abbreviations dot_space (fun g => (g ++ "<DOT> ")%string)
           text in
  let sentences := Re.split_after is_terminator PyStr.is_space text in
  let sentences := map (PyStr.replace "<DOT>" ".") sentences in
  map PyStr.strip
      (filter (fun s => 10 <? String.length (PyStr.strip s)) sentences).

(** The bucket a classified sentence is appended to. *)
Definition add_classified (result : StructuredRTIResponse)
    (classified : ClassifiedSentence) : StructuredRTIResponse :=
  match category classified with
  | INFORMATIVE =>
      {| original_text := original_text result;
         informative_sentences := informative_sentences result ++ [classified];
         denial_sentences := denial_sentences result;
         procedural_sentences := procedural_sentences result;
         evasive_sentences := evasive_sentences result;
         neutral_sentences := neutral_sentences result;
         document_sections := document_sections result |}
  | DENIAL =>
      {| original_text := original_text result;
         informative_sentences := informative_sentences result;
         denial_sentences := denial_sentences result ++ [classified];
         procedural_sentences := procedural_sentences result;
         evasive_sentences := evasive_sentences result;
         neutral_sentences := neutral_sentences result;
         document_sections := document_sections result |}
  | PROCEDURAL =>
      {| original_text := original_text result;
         informative_sentences := informative_sentences result;
         denial_sentences := denial_sentences result;
         procedural_sentences := procedural_sentences result ++ [classified];
         evasive_sentences := evasive_sentences result;
         neutral_sentences := neutral_sentences result;
         document_sections := document_sections result |}
  | EVASIVE =>
      {| original_text := original_text result;
         informative_sentences := informative_sentences result;
         denial_sentences := denial_sentences result;
         procedural_sentences := procedural_sentences result;
         evasive_sentences := evasive_sentences result ++ [classified];
         neutral_sentences := neutral_sentences result;
         document_sections := document_sections result |}
  | NEUTRAL =>
      {| original_text := original_text result;
         informative_sentences := informative_sentences result;
         denial_sentences := denial_sentences result;
         procedural_sentences := procedural_sentences result;
         evasive_sentences := evasive_sentences result;
         neutral_sentences := neutral_sentences result ++ [classified];
         document_sections := document_sections result |}
  end.

Fixpoint classify_all (result : StructuredRTIResponse)
    (sentences : list string) : option StructuredRTIResponse :=
  match sentences with
  | [] => Err.ret result
  | sentence :: rest =>
      classified <- classify_sentence sentence ;;
      classify_all (add_classified result classified) rest
  end.

Definition extract_structured_response (text : string)
    : option StructuredRTIResponse :=
  let all_section_refs := detect_rti_sections text in
  let sentences := split_into_sentences text in
  let result :=
    {| original_text := text;
       informative_sentences := []; denial_sentences := [];
       procedural_sentences := []; evasive_sentences := [];
       neutral_sentences := [];
       document_sections := all_section_refs |} in
  classify_all result sentences.

End RtiSemantic.

(* ================================================================== *)
(** ** [list.sort] and slices *)

Module PyList.

Section Sort.

Context {A : Type}.

(** [before y x] says that the key of [y] sorts strictly before the key
    of [x]. *)
Variable before : A -> A -> bool.

(** Insertion that keeps [x] in front of every element it does not have to
    follow: with [x] taken from the left of its list this is the stable
    order that [list.sort] produces. *)
Fixpoint insert (x : A) (l : list A) : list A :=
  match l with
  | [] => [x]
  | y :: l' => if before y x then y :: insert x l' else x :: l
  end.

Fixpoint sort (l : list A) : list A :=
  match l with
  | [] => []
  | x :: l' => insert x (sort l')
  end.

(** No element sorts strictly before one that precedes it. *)
Definition in_order (a b : A) : Prop := before b a = false.

End Sort.

(** [l[:n]] for a Python int [n]: a negative [n] counts from the end. *)
Definition slice_to {A} (n : Z) (l : list A) : list A :=
  if (0 <=? n)%Z then firstn (Z.to_nat n) l
  else firstn (List.length l - Z.to_nat (- n)) l.

(** [bool(l)] *)
Definition truthy {A} (l : list A) : bool :=
  match l with
  | [] => false
  | _ :: _ => true
  end.

End PyList.

(* ================================================================== *)
(** ** modules/fact_extractor.py *)

Module FactExtractor.

Import Re.

Definition digit : regex := Cls PyStr.is_digit.
Definition digits_or_commas : regex :=
  Plus (fun c => PyStr.is_digit c || Ascii.eqb c ",").
Definition spaces0 : regex := Star PyStr.is_space.
Definition spaces1 : regex := Plus PyStr.is_space.

(** [\d{1,2}], [\d{2,4}] and [\d{4}] *)
Definition digits_1_2 : regex := Seq digit (Opt digit).
Definition digits_2_4 : regex := Seqs [digit; digit; Opt (Seq digit (Opt digit))].
Definition digits_4 : regex := Seqs [digit; digit; digit; digit].

(** [\d{1,2}[-/]\d{1,2}[-/]\d{2,4}] *)
Definition numeric_date : regex :=
  Seqs [digits_1_2; Cls (one_of "-/"); digits_1_2; Cls (one_of "-/");
        digits_2_4].

Definition month_name : regex :=
  Alts (Lit "January")
    (map Lit ["February"; "March"; "April"; "May"; "June"; "July"; "August";
              "September"; "October"; "November"; "December"]).

Definition FACT_KEYWORDS_actions : list string :=
  [ "provided"; "processed"; "credited"; "transferred"; "completed";
    "approved"; "sanctioned"; "issued"; "granted"; "received";
    "dispatched"; "forwarded"; "deposited"; "verified"; "confirmed" ].

Definition FACT_KEYWORDS_denials : list string :=
  [ "denied"; "rejected"; "cannot be provided"; "not available";
    "exemption"; "section 8"; "confidential"; "not maintained" ].

(** The second pattern is the source's mis-decoded rupee sign: U+00E2,
    U+201A, U+00B9.  No character below 256 is U+201A. *)
Definition FACT_KEYWORDS_amounts : list regex :=
  [ Seqs [Lit "Rs"; Opt (Chr "."); spaces0; digits_or_commas];
    Seqs [Chr (ascii_of_nat 226); Cls (fun _ => false);
          Chr (ascii_of_nat 185); spaces0; digits_or_commas];
    Seqs [Lit "INR"; spaces0; digits_or_commas];
    Seqs [Plus PyStr.is_digit; spaces0;
          Alts (Lit "lakh") [Lit "crore"; Lit "thousand"]];
    Seqs [Lit "amount"; Opt (Lit "ing"); spaces1;
          Alt (Lit "of") (Lit "to")] ].

Definition FACT_KEYWORDS_dates : list regex :=
  [ Seqs [digits_1_2;
          Opt (Alts (Lit "st") [Lit "nd"; Lit "rd"; Lit "th"]);
          spaces1; month_name; Opt (Chr ","); spaces1; digits_4];
    numeric_date;
    Seqs [Alt (Seq (Lit "date") (Opt (Chr "d"))) (Lit "on"); spaces1;
          numeric_date] ].

Definition FACT_KEYWORDS_authorities : list string :=
  [ "ministry"; "department"; "office"; "cpio"; "pio";
    "authority"; "commissioner"; "secretary"; "officer" ].

(** The [details] dictionary of [calculate_sentence_score]. *)
Record Details : Type := mkDetails {
  actions : list string;
  denials : list string;
  amounts : list string;
  dates : list string;
  authorities : list string
}.

(** [len(matches)] as a float. *)
Definition of_len {X} (l : list X) : Q := inject_Z (Z.of_nat (List.length l)).

(** A loop over a keyword list: every keyword found in the lower-cased
    sentence adds [weight] and is recorded. *)
Definition score_keywords (weight : Q) (keywords : list string)
    (sentence_lower : string) (score : Q) : Q * list string :=
  fold_left
    (fun acc keyword =>
       let '(score, found) := acc in
       if PyStr.contains keyword sentence_lower
       then ((score + weight)%Q, found ++ [keyword])
       else acc)
    keywords (score, []).

(** A loop over a pattern list: every match of every pattern adds [weight]
    and is recorded. *)
Definition score_patterns (weight : Q) (patterns : list regex)
    (sentence : string) (score : Q) : Q * list string :=
  fold_left
    (fun acc pattern =>
       let '(score, found) := acc in
       let matches := findall true pattern sentence in
       if PyList.truthy matches
       then ((score + weight * of_len matches)%Q, found ++ matches)
       else acc)
    patterns (score, []).

Definition calculate_sentence_score (sentence : string) : Q * Details :=
  let sentence_lower := PyStr.lower sentence in
  let score := 0.0%Q in
  let '(score, found_actions) :=
    score_keywords 2.0 FACT_KEYWORDS_actions sentence_lower score in
  let '(score, found_denials) :=
    score_keywords 2.5 FACT_KEYWORDS_denials sentence_lower score in
  let '(score, found_amounts) :=
    score_patterns 3.0 FACT_KEYWORDS_amounts sentence score in
  let '(score, found_dates) :=
    score_patterns 2.5 FACT_KEYWORDS_dates sentence score in
  let '(score, found_authorities) :=
    score_keywords 1.0 FACT_KEYWORDS_authorities sentence_lower score in
  let word_count := PyStr.word_count sentence in
  let score :=
    if (15 <=? word_count) && (word_count <=? 50) then (score + 1.0)%Q
    else if 50 <? word_count then (score + 0.5)%Q
    else score in
  let score := if word_count <? 5 then (score * 0.5)%Q else score in
  (score,
   {| actions := found_actions; denials := found_denials;
      amounts := found_amounts; dates := found_dates;
      authorities := found_authorities |}).

Definition split_into_sentences (text : string) : list string :=
  let text :=
    Re.sub RtiSemantic.title_abbreviations (Chr ".")
           (fun g => (g ++ "<DOT>")%string) text in
  let text :=
    Re.sub RtiSemantic.sec_no_abbreviations (Chr ".")
           (fun g => (g ++ "<DOT>")%string) text in
  let text := Re.sub Eps (Lit "Rs.") (fun _ => "Rs<DOT>") text in
  let sentences :=
    Re.split_after RtiSemantic.is_terminator PyStr.is_space text in
  let sentences := map (PyStr.replace "<DOT>" ".") sentences in
  map PyStr.strip
      (filter (fun s => 15 <? String.length (PyStr.strip s)) sentences).

(** An entry of [scored_sentences]. *)
Record Scored : Type := mkScored {
  sentence : string;
  score : Q;
  details : Details
}.

Definition score_sentence (sentence : string) : Scored :=
  let '(score, details) := calculate_sentence_score sentence in
  {| sentence := sentence; score := score; details := details |}.

(** [scored_sentences.sort(key=lambda x: x['score'], reverse=True)] *)
Definition sort_by_score_desc : list Scored -> list Scored :=
  PyList.sort (fun y x => Qgtb (score y) (score x)).

Definition extract_fact_anchors (text : string) (top_n : Z) : list string :=
  let sentences := split_into_sentences text in
  if negb (PyList.truthy sentences) then []
  else
    let scored_sentences := map score_sentence sentences in
    let scored_sentences := sort_by_score_desc scored_sentences in
    let min_score := 1.0%Q in
    let fact_anchors :=
      map sentence
          (filter (fun item => Qgeb (score item) min_score)
                  (PyList.slice_to top_n scored_sentences)) in
    if negb (PyList.truthy fact_anchors) && PyList.truthy scored_sentences
    then map sentence (PyList.slice_to 2 scored_sentences)
    else fact_anchors.

Definition extract_fact_anchors_with_scores (text : string) (top_n : Z)
    : list Scored :=
  let sentences := split_into_sentences text in
  if negb (PyList.truthy sentences) then []
  else
    let scored_sentences := map score_sentence sentences in
    let scored_sentences := sort_by_score_desc scored_sentences in
    PyList.slice_to top_n scored_sentences.

(** [f"{i}. {anchor}"] for [i, anchor in enumerate(fact_anchors, i)] *)
Fixpoint numbered_from (i : nat) (fact_anchors : list string) : list string :=
  match fact_anchors with
  | [] => []
  | anchor :: rest =>
      (PyStr.of_nat i ++ ". " ++ anchor)%string :: numbered_from (S i) rest
  end.

Definition format_fact_anchors (fact_anchors : list string) : string :=
  if negb (PyList.truthy fact_anchors) then "No specific facts extracted."
  else PyStr.join PyStr.newline (numbered_from 1 fact_anchors).

End FactExtractor.

(* ================================================================== *)
(** ** modules/actionability.py *)

Module Actionability.

Import RtiSemantic.

Inductive ActionType : Type :=
| FIRST_APPEAL
| SECOND_APPEAL
| CLARIFICATION
| COMPLAINT
| NO_ACTION
| WAIT
| PAY_FEE.

(** [action_type.value] *)
Definition ActionType_value (a : ActionType) : string :=
  match a with
  | FIRST_APPEAL => "first_appeal"
  | SECOND_APPEAL => "second_appeal"
  | CLARIFICATION => "clarification"
  | COMPLAINT => "complaint"
  | NO_ACTION => "no_action"
  | WAIT => "wait"
  | PAY_FEE => "pay_fee"
  end.

Record ActionSuggestion : Type := mkActionSuggestion {
  action_type : ActionType;
  priority : string;
  title : string;
  description : string;
  deadline : option string;
  reference : option string
}.

Definition first_appeal_suggestion : ActionSuggestion :=
  {| action_type := FIRST_APPEAL;
     priority := "high";
     title := "File First Appeal";
     description :=
       "Significant information has been denied. You can file a First Appeal with the First Appellate Authority within 30 days of receiving this response. Under Section 19(1) of RTI Act, you have the right to appeal against denial.";
     deadline := Some "30 days from receipt of response";
     reference := Some "Section 19(1) of RTI Act, 2005" |}.

Definition clarification_suggestion : ActionSuggestion :=
  {| action_type := CLARIFICATION;
     priority := "high";
     title := "Request Clarification";
     description :=
       "The response contains vague or evasive statements that don't adequately answer your query. You can write to the PIO requesting specific clarification or file an appeal citing inadequate response.";
     deadline := None;
     reference := Some "Section 7(8) of RTI Act, 2005" |}.

Definition challenge_exemption_suggestion : ActionSuggestion :=
  {| action_type := FIRST_APPEAL;
     priority := "high";
     title := "Challenge Exemption Claim";
     description :=
       "The PIO has cited Section 8 exemptions to deny information. You can file an appeal challenging whether the exemption genuinely applies. The burden is on the PIO to prove that the exemption is justified.";
     deadline := Some "30 days from receipt";
     reference := Some "Section 8, Section 19 of RTI Act, 2005" |}.

Definition pay_fee_suggestion : ActionSuggestion :=
  {| action_type := PAY_FEE;
     priority := "medium";
     title := "Pay Additional Fee";
     description :=
       "The PIO has requested additional fees. Pay the fee within the specified timeline to receive the information. Keep the receipt as proof.";
     deadline := None;
     reference := Some "Section 7 of RTI Act, 2005" |}.

Definition transferred_suggestion : ActionSuggestion :=
  {| action_type := WAIT;
     priority := "low";
     title := "Application Transferred";
     description :=
       "Your application has been transferred to another department. Wait for a response from the concerned PIO. The transfer should not reset your timeline.";
     deadline := None;
     reference := Some "Section 6(3) of RTI Act, 2005" |}.

Definition response_complete_suggestion : ActionSuggestion :=
  {| action_type := NO_ACTION;
     priority := "low";
     title := "Response Complete";
     description :=
       "The RTI response appears to adequately address your query. No further action is required unless you find the information incomplete.";
     deadline := None;
     reference := None |}.

Definition review_suggestion : ActionSuggestion :=
  {| action_type := NO_ACTION;
     priority := "low";
     title := "Review Response Carefully";
     description :=
       "Review the response to determine if all your queries have been addressed. If unsatisfied, you may file a First Appeal within 30 days.";
     deadline := Some "30 days if appeal needed";
     reference := Some "Section 19 of RTI Act, 2005" |}.

(** [' '.join([s.text.lower() for s in structured.procedural_sentences])] *)
Definition procedural_texts (structured : StructuredRTIResponse) : string :=
  PyStr.join " "
    (map (fun s => PyStr.lower (text s)) (procedural_sentences structured)).

(** The conditions of the rule table, one per [if] of
    [suggest_next_steps]. *)
Definition rule1_fires (stats : Stats) : bool :=
  Qgtb (denial_ratio stats) 0.3%Q || (2 <=? denial_count stats).

Definition rule2_fires (stats : Stats) : bool :=
  (2 <=? evasive_count stats)
  || ((0 <? evasive_count stats) && (informative_count stats =? 0)).

Definition rule3_fires (structured : StructuredRTIResponse) : bool :=
  Dict.mem "section_8" (document_sections structured).

Definition rule4_fee_fires (structured : StructuredRTIResponse)
    (stats : Stats) : bool :=
  (0 <? procedural_count stats)
  && (PyStr.contains "fee" (procedural_texts structured)
      || PyStr.contains "deposit" (procedural_texts structured)
      || PyStr.contains "payment" (procedural_texts structured)).

Definition rule4_transfer_fires (structured : StructuredRTIResponse)
    (stats : Stats) : bool :=
  (0 <? procedural_count stats)
  && (PyStr.contains "transfer" (procedural_texts structured)
      || PyStr.contains "forward" (procedural_texts structured)).

Definition rule5_fires (stats : Stats) : bool :=
  Qgtb (informative_ratio stats) 0.6%Q && (denial_count stats =? 0).

(** [if c: suggestions.append(x)] *)
Definition append_if {X} (c : bool) (x : X) (l : list X) : list X :=
  if c then l ++ [x] else l.

(** The suggestions appended by rules 1 to 5, in firing order. *)
Definition fired_suggestions (structured : StructuredRTIResponse)
    (stats : Stats) : list ActionSuggestion :=
  let suggestions := [] in
  let suggestions :=
    append_if (rule1_fires stats) first_appeal_suggestion suggestions in
  let suggestions :=
    append_if (rule2_fires stats) clarification_suggestion suggestions in
  let suggestions :=
    append_if (rule3_fires structured) challenge_exemption_suggestion
              suggestions in
  let suggestions :=
    append_if (rule4_fee_fires structured stats) pay_fee_suggestion
              suggestions in
  let suggestions :=
    append_if (rule4_transfer_fires structured stats) transferred_suggestion
              suggestions in
  append_if (rule5_fires stats) response_complete_suggestion suggestions.

(** [priority_order.get(x.priority, 3)] *)
Definition priority_order (p : string) : nat :=
  if String.eqb p "high" then 0
  else if String.eqb p "medium" then 1
  else if String.eqb p "low" then 2
  else 3.

(** [suggestions.sort(key=lambda x: priority_order.get(x.priority, 3))] *)
Definition sort_by_priority : list ActionSuggestion -> list ActionSuggestion :=
  PyList.sort
    (fun y x => priority_order (priority y) <? priority_order (priority x)).

(** The list as it stands before the final sort: the fired rules, or the
    catch-all of rule 6 when none fired. *)
Definition unsorted_suggestions (structured : StructuredRTIResponse)
    (stats : Stats) : list ActionSuggestion :=
  let suggestions := fired_suggestions structured stats in
  append_if (negb (PyList.truthy suggestions)) review_suggestion suggestions.

Definition suggest_next_steps (structured : StructuredRTIResponse)
    : option (list ActionSuggestion) :=
  stats <- get_stats structured ;;
  Err.ret (sort_by_priority (unsorted_suggestions structured stats)).

(** The dictionary returned by [check_appeal_eligibility]; its key
    [deadline] is [appeal_deadline] here. *)
Record AppealEligibility : Type := mkAppealEligibility {
  eligible : bool;
  reasons : list string;
  appeal_type : string;
  appeal_deadline : string;
  authority : string
}.

Definition check_appeal_eligibility (structured : StructuredRTIResponse)
    : option AppealEligibility :=
  stats <- get_stats structured ;;
  let reasons := [] in
  let reasons :=
    append_if (0 <? denial_count stats) "Information was denied" reasons in
  let reasons :=
    append_if (Dict.mem "section_8" (document_sections structured))
              "Section 8 exemptions were cited" reasons in
  let reasons :=
    append_if (0 <? evasive_count stats)
              "Response contains evasive/unclear statements" reasons in
  let reasons :=
    append_if ((informative_count stats =? 0) && (3 <? neutral_count stats))
              "Response does not adequately address the query" reasons in
  Err.ret {| eligible := 0 <? List.length reasons;
             reasons := reasons;
             appeal_type := "First Appeal under Section 19(1)";
             appeal_deadline := "30 days from receipt of response";
             authority := "First Appellate Authority (FAA)" |}.

(** An entry of the list returned by [flag_evasive_responses]; its keys
    [type] and [text] are [flag_type] and [flag_text] here. *)
Record Flag : Type := mkFlag {
  flag_type : string;
  severity : string;
  flag_text : string;
  reason : string
}.

Definition flag_evasive_responses (structured : StructuredRTIResponse)
    : list Flag :=
  map (fun sentence =>
         {| flag_type := "evasive"; severity := "medium";
            flag_text := text sentence;
            reason := "Response is vague or non-committal" |})
      (evasive_sentences structured)
  ++ map (fun sentence =>
            {| flag_type := "denial_without_reason"; severity := "high";
               flag_text := text sentence;
               reason := "Denial without citing specific exemption clause" |})
         (filter (fun sentence =>
                    negb (PyStr.contains "section" (PyStr.lower (text sentence))))
                 (denial_sentences structured)).

Definition SATISFACTORY : string :=
  "SATISFACTORY - Response adequately addresses most queries".
Definition UNSATISFACTORY : string :=
  "UNSATISFACTORY - Significant information denied, consider appeal".
Definition INADEQUATE : string :=
  "INADEQUATE - Response is vague and non-committal".
Definition PARTIAL : string :=
  "PARTIAL - Some information provided, review for completeness".

Definition _get_overall_assessment (structured : StructuredRTIResponse)
    : option string :=
  stats <- get_stats structured ;;
  Err.ret
    (if Qgtb (informative_ratio stats) 0.6%Q then SATISFACTORY
     else if Qgtb (denial_ratio stats) 0.4%Q then UNSATISFACTORY
     else if informative_count stats <? evasive_count stats then INADEQUATE
     else PARTIAL).

(** An entry of [report['suggestions']], with its keys prefixed by
    [entry_]. *)
Record SuggestionEntry : Type := mkSuggestionEntry {
  entry_action : string;
  entry_priority : string;
  entry_title : string;
  entry_description : string;
  entry_deadline : option string;
  entry_reference : option string
}.

Definition entry_of (s : ActionSuggestion) : SuggestionEntry :=
  {| entry_action := ActionType_value (action_type s);
     entry_priority := priority s;
     entry_title := title s;
     entry_description := description s;
     entry_deadline := deadline s;
     entry_reference := reference s |}.

Record ActionReport : Type := mkActionReport {
  suggestions : list SuggestionEntry;
  appeal_eligibility : AppealEligibility;
  flags : list Flag;
  overall_assessment : string
}.

Definition generate_action_report (structured : StructuredRTIResponse)
    : option ActionReport :=
  suggestions <- suggest_next_steps structured ;;
  appeal_check <- check_appeal_eligibility structured ;;
  let flags := flag_evasive_responses structured in
  assessment <- _get_overall_assessment structured ;;
  Err.ret {| suggestions := map entry_of suggestions;
             appeal_eligibility := appeal_check;
             flags := flags;
             overall_assessment := assessment |}.

End Actionability.

(* ================================================================== *)
(** ** modules/summarizer.py: chunking *)

Module Summarizer.

(** The state of the loop of [chunk_text]: the chunks closed so far and
    the chunk being filled. *)
Definition chunk_step (max_size : Z) (state : list string * string)
    (para : string) : list string * string :=
  let '(chunks, current_chunk) := state in
  if (Z.of_nat (String.length current_chunk)
      + Z.of_nat (String.length para) + 2 <=? max_size)%Z
  then (chunks, (current_chunk ++ para ++ PyStr.newline ++ PyStr.newline)%string)
  else
    let chunks :=
      if PyStr.truthy current_chunk
      then chunks ++ [PyStr.strip current_chunk] else chunks in
    (chunks, (para ++ PyStr.newline ++ PyStr.newline)%string).

Definition chunk_text (text : string) (max_size : Z) : list string :=
  if (Z.of_nat (String.length text) <=? max_size)%Z then [text]
  else
    let paragraphs := PyStr.split (PyStr.newline ++ PyStr.newline) text in
    let '(chunks, current_chunk) :=
      fold_left (chunk_step max_size) paragraphs ([], EmptyString) in
    if PyStr.truthy current_chunk
    then chunks ++ [PyStr.strip current_chunk] else chunks.

End Summarizer.

(* ================================================================== *)
(** ** utils/helpers.py *)

Module Helpers.

Definition split_into_sentences (text : string) : list string :=
  let sentences :=
    Re.split_after RtiSemantic.is_terminator PyStr.is_space text in
  map PyStr.strip (filter (fun s => PyStr.truthy (PyStr.strip s)) sentences).

Definition truncate_text (text : string) (max_length : Z) : string :=
  if (Z.of_nat (String.length text) <=? max_length)%Z then text
  else (PyStr.rsplit1 " " (PyStr.slice_to max_length text) ++ "...")%string.

End Helpers.

(* ================================================================== *)
(** ** Vocabulary of the properties, and sample inputs *)

Import RtiSemantic FactExtractor Actionability.

(** The fact-density score of a sentence. *)
Definition fact_density (s : string) : Q := fst (calculate_sentence_score s).

Definition nonincreasing (l : list Q) : Prop :=
  StronglySorted (fun a b => (b <= a)%Q) l.

(** An entry carries the score of its own sentence. *)
Definition well_scored (item : Scored) : Prop :=
  score item = fact_density (sentence item).

(** The score table the configured classifier builds for a sentence. *)
Definition score_table : string
    -> option (list (SentenceCategory * (Q * list string))) :=
  adjusted_scores Config.DENIAL_KEYWORDS Config.INFORMATIVE_KEYWORDS
                  Config.PROCEDURAL_KEYWORDS Config.EVASIVE_KEYWORDS.

(** The counts of [stats] are the sizes of the five buckets. *)
Definition counts_of (self : StructuredRTIResponse) (stats : Stats) : Prop :=
  informative_count stats = List.length (informative_sentences self)
  /\ denial_count stats = List.length (denial_sentences self)
  /\ procedural_count stats = List.length (procedural_sentences self)
  /\ evasive_count stats = List.length (evasive_sentences self)
  /\ neutral_count stats = List.length (neutral_sentences self)
  /\ total_sentences stats
     = informative_count stats + denial_count stats + procedural_count stats
       + evasive_count stats + neutral_count stats.

(** [n / total] on binary64, as Python computes it: both ints convert
    exactly and the quotient is rounded to nearest. *)
Definition float_ratio (n total : Z) : float :=
  PrimFloat.div (PrimFloat.of_uint63 (Uint63.of_Z n))
                (PrimFloat.of_uint63 (Uint63.of_Z total)).

(** A document of two sentences without any fact marker. *)
Definition plain_document : string :=
  "The sky was very blue today. The grass was very green today.".

(** The same sentence written twice. *)
Definition repeated_document : string :=
  "The amount of Rs. 500 was credited. The amount of Rs. 500 was credited.".

(** Informative and Evasive tied at the maximum 1/8, above the floor. *)
Definition tied_sentence : string := "The details are vague in this file.".

(** Sentences without any keyword, and with a single denial keyword. *)
Definition plain_sentence : string := "Good morning to everyone.".
Definition weak_denial_sentence : string := "The request was denied today.".

(** The sentence of scenario 1. *)
Definition exemption_sentence : string :=
  "Information cannot be provided as it is exempt under Section 8 of the Act.".

(** The example of the abbreviation rule, and the same amount inside a
    longer sentence. *)
Definition rupee_sentence : string := "Rs. 500 was credited.".
Definition refund_sentence : string := "The refund of Rs. 500 was credited.".

(** A response with 4 Denial and 6 Neutral sentences. *)
Definition denial_document : string :=
  "Your request was denied and rejected. The weather was pleasant today. The file was denied and refused. The weather was pleasant today. Access is denied and classified. The weather was pleasant today. It is confidential and sensitive. The weather was pleasant today. The weather was pleasant today. The weather was pleasant today.".

Definition denial_response : option StructuredRTIResponse :=
  extract_structured_response denial_document.

(** A string without leading or trailing blanks. *)
Definition stripped (s : string) : Prop := PyStr.strip s = s.

(** A string made of blanks only, the empty string included. *)
Fixpoint blank (s : string) : bool :=
  match s with
  | EmptyString => true
  | String c s' => PyStr.is_space c && blank s'
  end.

(** The test of one bucket of [extract_structured_response]. *)
Definition in_category (c : SentenceCategory) (s : ClassifiedSentence) : bool :=
  SentenceCategory_eqb (category s) c.

(** The five statutory section identifiers, in configuration order. *)
Definition section_ids : list string := map fst Config.RTI_SECTIONS.

(** [l1] is [l2] with some elements left out, the order kept. *)
Inductive subsequence {X : Type} : list X -> list X -> Prop :=
| subsequence_nil : subsequence [] []
| subsequence_skip x l1 l2 : subsequence l1 l2 -> subsequence l1 (x :: l2)
| subsequence_keep x l1 l2 : subsequence l1 l2 -> subsequence (x :: l1) (x :: l2).

(** What one entry of [RTI_SECTIONS] contributes to the result of
    [detect_rti_sections]: nothing, or its name with one excerpt per
    match. *)
Definition section_entry (text : string) (entry : string * Re.regex)
    : Dict.t (list string) :=
  match map (excerpt_of text) (Re.finditer true (snd entry) text) with
  | [] => []
  | excerpts => [(fst entry, excerpts)]
  end.

(** The length shaping of [calculate_sentence_score]: the bonus for the
    word count and the factor applied to short sentences. *)
Definition length_bonus (word_count : nat) : Q :=
  if (15 <=? word_count) && (word_count <=? 50) then 1.0%Q
  else if 50 <? word_count then 0.5%Q
  else 0%Q.

Definition short_factor (word_count : nat) : Q :=
  if word_count <? 5 then 0.5%Q else 1%Q.



(** Four paragraphs separated by blank lines. *)
Definition paragraphs_document : string :=
  String.concat (PyStr.newline ++ PyStr.newline) ["aaaa"; "bb"; "cccccc"; "d"].

(** A string without a line feed. *)
Fixpoint one_line (s : string) : bool :=
  match s with
  | EmptyString => true
  | String c s' => negb (Ascii.eqb c (ascii_of_nat 10)) && one_line s'
  end.

(* ================================================================== *)
(** * Properties *)

(** ** Worked examples of the string and pattern layer *)

Example strip_example : PyStr.strip "  a b.  " = "a b.".
Proof. reflexivity. Qed.

Example lower_example : PyStr.lower "CPIO, Sec. 8" = "cpio, sec. 8".
Proof. reflexivity. Qed.

Example word_count_example : PyStr.word_count " one  two three " = 3.
Proof. reflexivity. Qed.

Example replace_example :
  PyStr.replace "<DOT>" "." "Mr<DOT> Das, No<DOT> 5" = "Mr. Das, No. 5".
Proof. reflexivity. Qed.

(** [Rs\.?\s*[\d,]+], case-insensitive. *)
Example findall_amount_example :
  Re.findall true
    (Re.Seqs [Re.Lit "Rs"; Re.Opt (Re.Chr "."); spaces0; digits_or_commas])
    "Paid Rs. 45,678/- and rs 12 more"
  = ["Rs. 45,678"; "rs 12"].
Proof. vm_compute. reflexivity. Qed.

Example findall_date_example :
  Re.findall true numeric_date "on 12/10/2024 and 1-2-24, not 123"
  = ["12/10/2024"; "1-2-24"].
Proof. vm_compute. reflexivity. Qed.

Example split_after_example :
  Re.split_after is_terminator PyStr.is_space "One.  Two! Three? Four. "
  = ["One."; "Two!"; "Three?"; "Four."; ""].
Proof. vm_compute. reflexivity. Qed.

Example classification_segmenter_example :
  RtiSemantic.split_into_sentences
    "Dr. Rao met Mr. Das under Sec. 8 today.  The file No. 12 was sent! Was it? etc. and more things here."
  = [ "Dr. Rao met Mr. Das under Sec. 8 today.";
      "The file No. 12 was sent!";
      "etc. and more things here." ].
Proof. vm_compute. reflexivity. Qed.

(** One excerpt per match: "exempt" and "Section 8". *)
Example detect_rti_sections_example :
  detect_rti_sections exemption_sentence
  = [ ("section_8",
       [ "Information cannot be provided as it is exempt under Section 8 of the Act.";
         "ormation cannot be provided as it is exempt under Section 8 of the Act." ]) ].
Proof. vm_compute. reflexivity. Qed.

(** An amount (3.0), a date (2.5) and an action verb (2.0). *)
Example calculate_sentence_score_example :
  (fact_density "Rs. 45,678 was credited on 25th October, 2024" == 7.5)%Q.
Proof. vm_compute. reflexivity. Qed.

(** ** Comparisons on scores *)

Lemma Qgtb_true (x y : Q) : Qgtb x y = true <-> (y < x)%Q.
Proof.
  unfold Qgtb. rewrite negb_true_iff.
  split; intro H.
  - apply Qnot_le_lt. intro Hle. apply Qle_bool_iff in Hle. congruence.
  - destruct (Qle_bool x y) eqn:E; [|reflexivity].
    apply Qle_bool_iff in E. exfalso. exact (Qlt_not_le _ _ H E).
Qed.

Lemma Qgtb_false (x y : Q) : Qgtb x y = false <-> (x <= y)%Q.
Proof.
  unfold Qgtb. rewrite negb_false_iff. apply Qle_bool_iff.
Qed.

Lemma Qltb_true (x y : Q) : Qltb x y = true <-> (x < y)%Q.
Proof. exact (Qgtb_true y x). Qed.

Lemma Qltb_false (x y : Q) : Qltb x y = false <-> (y <= x)%Q.
Proof. exact (Qgtb_false y x). Qed.

(** ** The stable sort *)

Section SortFacts.

Context {A : Type}.
Variable before : A -> A -> bool.

(** [before] is the strict part of a total preorder on keys. *)
Hypothesis before_asym : forall x y, before x y = true -> before y x = false.
Hypothesis before_negtrans :
  forall x y z, before x y = false -> before y z = false -> before x z = false.

Lemma insert_perm (x : A) (l : list A) :
  Permutation (PyList.insert before x l) (x :: l).
Proof.
  induction l as [|y l IH]; simpl.
  - apply Permutation_refl.
  - destruct (before y x).
    + apply perm_trans with (y :: x :: l).
      * apply perm_skip. exact IH.
      * apply perm_swap.
    + apply Permutation_refl.
Qed.

Lemma sort_perm (l : list A) : Permutation (PyList.sort before l) l.
Proof.
  induction l as [|x l IH]; simpl.
  - apply perm_nil.
  - apply perm_trans with (x :: PyList.sort before l).
    + apply insert_perm.
    + apply perm_skip. exact IH.
Qed.

Lemma insert_sorted (x : A) (l : list A) :
  StronglySorted (PyList.in_order before) l ->
  StronglySorted (PyList.in_order before) (PyList.insert before x l).
Proof.
  induction 1 as [|y l Hl IH Hy]; simpl.
  - constructor; constructor.
  - destruct (before y x) eqn:E.
    + constructor; [exact IH|].
      apply (Permutation_Forall (Permutation_sym (insert_perm x l))).
      constructor; [|exact Hy].
      unfold PyList.in_order. apply before_asym. exact E.
    + constructor; [constructor; assumption|].
      constructor; [exact E|].
      rewrite Forall_forall in Hy |- *. intros z Hz.
      unfold PyList.in_order in *. apply before_negtrans with y; auto.
Qed.

Lemma sort_sorted (l : list A) : StronglySorted (PyList.in_order before) (PyList.sort before l).
Proof.
  induction l as [|x l IH]; simpl.
  - constructor.
  - apply insert_sorted. exact IH.
Qed.

(** Stability: elements that are never strictly ordered among themselves
    keep their relative order. *)
Lemma insert_filter (P : A -> bool) (x : A) (l : list A) :
  (forall a b, P a = true -> P b = true -> before a b = false) ->
  filter P (PyList.insert before x l) = filter P (x :: l).
Proof.
  intros HP. induction l as [|y l IH]; [reflexivity|].
  simpl PyList.insert. destruct (before y x) eqn:E; [|reflexivity].
  simpl in *. destruct (P y) eqn:Ey.
  - destruct (P x) eqn:Ex.
    + rewrite (HP y x Ey Ex) in E. discriminate.
    + rewrite IH. reflexivity.
  - exact IH.
Qed.

Lemma sort_filter (P : A -> bool) (l : list A) :
  (forall a b, P a = true -> P b = true -> before a b = false) ->
  filter P (PyList.sort before l) = filter P l.
Proof.
  intros HP. induction l as [|x l IH]; [reflexivity|].
  simpl PyList.sort. rewrite (insert_filter P x _ HP).
  simpl. rewrite IH. reflexivity.
Qed.

End SortFacts.

(** ** Order-preserving selections from a list *)

Section Selections.

Context {A : Type}.
Variable R : A -> A -> Prop.

Lemma Forall_firstn (P : A -> Prop) (n : nat) (l : list A) :
  Forall P l -> Forall P (firstn n l).
Proof.
  intros H. revert n. induction H as [|x l Hx Hl IH]; intros [|n]; simpl;
    constructor; auto.
Qed.

Lemma Forall_filter (P : A -> Prop) (p : A -> bool) (l : list A) :
  Forall P l -> Forall P (filter p l).
Proof.
  induction 1 as [|x l Hx Hl IH]; simpl; [constructor|].
  destruct (p x); [constructor|]; assumption.
Qed.

Lemma StronglySorted_firstn (n : nat) (l : list A) :
  StronglySorted R l -> StronglySorted R (firstn n l).
Proof.
  intros H. revert n. induction H as [|x l Hl IH Hx]; intros [|n]; simpl;
    try constructor; auto using Forall_firstn.
Qed.

Lemma StronglySorted_filter (p : A -> bool) (l : list A) :
  StronglySorted R l -> StronglySorted R (filter p l).
Proof.
  induction 1 as [|x l Hl IH Hx]; simpl; [constructor|].
  destruct (p x); [constructor|]; auto using Forall_filter.
Qed.

Lemma StronglySorted_slice_to (n : Z) (l : list A) :
  StronglySorted R l -> StronglySorted R (PyList.slice_to n l).
Proof.
  intros H. unfold PyList.slice_to.
  destruct (0 <=? n)%Z; apply StronglySorted_firstn; exact H.
Qed.

Lemma Forall_slice_to (P : A -> Prop) (n : Z) (l : list A) :
  Forall P l -> Forall P (PyList.slice_to n l).
Proof.
  intros H. unfold PyList.slice_to.
  destruct (0 <=? n)%Z; apply Forall_firstn; exact H.
Qed.

End Selections.

Lemma StronglySorted_map {A B} (R : A -> A -> Prop) (R' : B -> B -> Prop)
    (f : A -> B) (l : list A) :
  (forall a b, R a b -> R' (f a) (f b)) ->
  StronglySorted R l -> StronglySorted R' (map f l).
Proof.
  intros HR. induction 1 as [|x l Hl IH Hx]; simpl; constructor; auto.
  rewrite Forall_forall in Hx |- *. intros y Hy.
  apply in_map_iff in Hy. destruct Hy as [a [<- Ha]]. auto.
Qed.

Lemma StronglySorted_weaken {A} (R R' : A -> A -> Prop) (l : list A) :
  (forall a b, R a b -> R' a b) ->
  StronglySorted R l -> StronglySorted R' l.
Proof.
  intros HR H. rewrite <- (map_id l).
  apply (StronglySorted_map R R' (fun a => a)); assumption.
Qed.

(** Distinct keys stay distinct in a prefix and in a selection. *)
Section DistinctKeys.

Context {X K : Type}.
Variable key : X -> K.

Lemma In_firstn_In (n : nat) (items : list X) (x : X) :
  In x (firstn n items) -> In x items.
Proof.
  revert items. induction n as [|n IHn]; intros [|y items]; simpl; try tauto.
  intros [->|H]; auto.
Qed.

Lemma distinct_keys_firstn (n : nat) (items : list X)
    (Hkeys : NoDup (map key items)) :
  NoDup (map key (firstn n items)).
Proof.
  revert n. induction items as [|x items IH]; intros [|n]; simpl;
    try constructor.
  - inversion Hkeys as [|? ? Hx Hl]; subst. intro Hin. apply Hx.
    apply in_map_iff in Hin. destruct Hin as [a [Ha Hin]].
    apply in_map_iff. exists a. split; [exact Ha|].
    eapply In_firstn_In; eassumption.
  - inversion Hkeys; subst. auto.
Qed.

Lemma distinct_keys_filter (keep : X -> bool) (items : list X)
    (Hkeys : NoDup (map key items)) :
  NoDup (map key (filter keep items)).
Proof.
  induction items as [|x items IH]; simpl; [constructor|].
  inversion Hkeys as [|? ? Hx Hl]; subst.
  destruct (keep x); simpl; auto. constructor; auto.
  intro Hin. apply Hx. apply in_map_iff in Hin. destruct Hin as [a [Ha Hin]].
  apply in_map_iff. exists a. split; [exact Ha|].
  apply filter_In in Hin. tauto.
Qed.

Lemma distinct_keys_slice_to (n : Z) (items : list X)
    (Hkeys : NoDup (map key items)) :
  NoDup (map key (PyList.slice_to n items)).
Proof.
  unfold PyList.slice_to.
  destruct (0 <=? n)%Z; apply distinct_keys_firstn; exact Hkeys.
Qed.

End DistinctKeys.

(** ** Fact anchors *)

Lemma score_sentence_sentence (s : string) : sentence (score_sentence s) = s.
Proof.
  unfold score_sentence. destruct (calculate_sentence_score s). reflexivity.
Qed.

Lemma score_sentence_score (s : string) :
  score (score_sentence s) = fact_density s.
Proof.
  unfold score_sentence, fact_density.
  destruct (calculate_sentence_score s). reflexivity.
Qed.

Lemma map_sentence_score_sentence (l : list string) :
  map sentence (map score_sentence l) = l.
Proof.
  induction l as [|s l IH]; cbn [map]; [reflexivity|].
  rewrite score_sentence_sentence, IH. reflexivity.
Qed.

Lemma sorted_well_scored (l : list string) :
  Forall well_scored (sort_by_score_desc (map score_sentence l)).
Proof.
  apply (Permutation_Forall (Permutation_sym (sort_perm _ _))).
  apply Forall_forall. intros item Hin.
  apply in_map_iff in Hin. destruct Hin as [s [<- _]].
  unfold well_scored. rewrite score_sentence_sentence.
  apply score_sentence_score.
Qed.

Lemma sorted_by_score (l : list Scored) :
  StronglySorted (fun a b => (score b <= score a)%Q) (sort_by_score_desc l).
Proof.
  assert (H : StronglySorted
                (PyList.in_order (fun y x => Qgtb (score y) (score x)))
                (sort_by_score_desc l)).
  { apply sort_sorted.
    - intros x y H. apply Qgtb_true in H. apply Qgtb_false.
      apply Qlt_le_weak. exact H.
    - intros x y z H1 H2. apply Qgtb_false in H1, H2. apply Qgtb_false.
      eapply Qle_trans; eassumption. }
  revert H. apply StronglySorted_weaken.
  intros a b H. apply Qgtb_false. exact H.
Qed.

Lemma nonincreasing_anchors (l : list Scored) :
  Forall well_scored l ->
  StronglySorted (fun a b => (score b <= score a)%Q) l ->
  nonincreasing (map fact_density (map sentence l)).
Proof.
  intros Hw Hs. unfold nonincreasing.
  replace (map fact_density (map sentence l)) with (map score l).
  - revert Hs. apply StronglySorted_map. auto.
  - rewrite map_map. apply map_ext_in. intros a Ha.
    rewrite Forall_forall in Hw. apply Hw. exact Ha.
Qed.

Lemma filter_length_bound {A} (p : A -> bool) (l : list A) :
  List.length (filter p l) <= List.length l.
Proof.
  induction l as [|x l IH]; simpl; [lia|].
  destruct (p x); simpl; lia.
Qed.

(** The scores of the returned sentences never increase, whatever the
    requested count. *)
Lemma extract_fact_anchors_nonincreasing (text : string) (top_n : Z) :
  nonincreasing (map fact_density (extract_fact_anchors text top_n)).
Proof.
  unfold extract_fact_anchors.
  destruct (PyList.truthy (split_into_sentences text)); simpl negb; cbv iota;
    [|constructor].
  set (scored := sort_by_score_desc
                   (map score_sentence (split_into_sentences text))).
  assert (Hw : Forall well_scored scored) by apply sorted_well_scored.
  assert (Hs : StronglySorted (fun a b => (score b <= score a)%Q) scored)
    by apply sorted_by_score.
  match goal with |- context [if ?c then _ else _] => destruct c end.
  - apply nonincreasing_anchors.
    + apply Forall_slice_to. exact Hw.
    + apply StronglySorted_slice_to. exact Hs.
  - apply nonincreasing_anchors.
    + apply Forall_filter. apply Forall_slice_to. exact Hw.
    + apply StronglySorted_filter. apply StronglySorted_slice_to. exact Hs.
Qed.

(** C2 (as amended).  For a non-negative [top_n], [extract_fact_anchors]
    returns at most [max top_n 2] sentences -- the fallback to the two best
    sentences applies when none of the first [top_n] reaches the threshold
    -- and the fact-density scores of the returned sentences are
    non-increasing along the returned sequence. *)
Theorem extract_fact_anchors_bounded_and_sorted (text : string) (top_n : Z) :
  (0 <= top_n)%Z ->
  (Z.of_nat (List.length (extract_fact_anchors text top_n)) <= Z.max top_n 2)%Z
  /\ nonincreasing (map fact_density (extract_fact_anchors text top_n)).
Proof.
  intros Hn. split; [|apply extract_fact_anchors_nonincreasing].
  unfold extract_fact_anchors.
  destruct (PyList.truthy (split_into_sentences text)); simpl negb; cbv iota;
    [|simpl; lia].
  match goal with |- context [if ?c then _ else _] => destruct c end.
  - rewrite length_map. unfold PyList.slice_to.
    change (0 <=? 2)%Z with true. cbv iota.
    match goal with |- context [firstn ?n ?l] =>
      pose proof (firstn_le_length n l) end.
    lia.
  - rewrite length_map.
    match goal with |- context [filter ?p ?l] =>
      pose proof (filter_length_bound p l) as Hf end.
    unfold PyList.slice_to in *.
    destruct (0 <=? top_n)%Z eqn:E; [|apply Z.leb_gt in E; lia].
    match type of Hf with context [firstn ?n ?l] =>
      pose proof (firstn_le_length n l) end.
    lia.
Qed.

Lemma extract_fact_anchors_bounded_and_sorted_witness :
  (0 <= 1)%Z
  /\ (Z.of_nat (List.length (extract_fact_anchors plain_document 1))
      <= Z.max 1 2)%Z
  /\ nonincreasing (map fact_density (extract_fact_anchors plain_document 1)).
Proof.
  split; [lia|].
  apply (extract_fact_anchors_bounded_and_sorted plain_document 1). lia.
Defined.

(** C2 (as stated) fails: with [top_n = 1] and no sentence reaching the
    threshold, the fallback returns two sentences. *)
Lemma extract_fact_anchors_exceeds_top_n :
  extract_fact_anchors plain_document 1
  = ["The sky was very blue today."; "The grass was very green today."]
  /\ ~ (Z.of_nat (List.length (extract_fact_anchors plain_document 1)) <= 1)%Z.
Proof.
  assert (E : extract_fact_anchors plain_document 1
              = ["The sky was very blue today.";
                 "The grass was very green today."])
    by (vm_compute; reflexivity).
  split; [exact E|]. rewrite E. simpl. lia.
Qed.

(** C3 (as amended).  The returned anchors repeat a sentence only if the
    segmenter produced it more than once: when the sentences of the text
    are pairwise distinct, no sentence appears twice in the output. *)
Theorem extract_fact_anchors_NoDup (text : string) (top_n : Z) :
  NoDup (split_into_sentences text) ->
  NoDup (extract_fact_anchors text top_n).
Proof.
  intros Hnd. unfold extract_fact_anchors.
  destruct (PyList.truthy (split_into_sentences text)); simpl negb; cbv iota;
    [|constructor].
  set (scored := sort_by_score_desc
                   (map score_sentence (split_into_sentences text))).
  assert (Hs : NoDup (map sentence scored)).
  { apply (Permutation_NoDup (l := split_into_sentences text)); [|exact Hnd].
    rewrite <- (map_sentence_score_sentence (split_into_sentences text)) at 1.
    apply Permutation_map. apply Permutation_sym. apply sort_perm. }
  match goal with |- context [if ?c then _ else _] => destruct c end.
  - apply distinct_keys_slice_to. exact Hs.
  - apply distinct_keys_filter. apply distinct_keys_slice_to. exact Hs.
Qed.

Lemma extract_fact_anchors_NoDup_witness :
  NoDup (split_into_sentences plain_document)
  /\ NoDup (extract_fact_anchors plain_document 5).
Proof.
  assert (H : NoDup (split_into_sentences plain_document)).
  { vm_compute. constructor.
    - intros [H|[]]. discriminate H.
    - constructor; [intros []|constructor]. }
  split; [exact H|].
  apply (extract_fact_anchors_NoDup plain_document 5). exact H.
Defined.

(** C3 (as stated) fails: a sentence that occurs twice in the text is
    returned twice. *)
Lemma extract_fact_anchors_repeats :
  extract_fact_anchors repeated_document 5
  = ["The amount of Rs. 500 was credited.";
     "The amount of Rs. 500 was credited."]
  /\ ~ NoDup (extract_fact_anchors repeated_document 5).
Proof.
  assert (E : extract_fact_anchors repeated_document 5
              = ["The amount of Rs. 500 was credited.";
                 "The amount of Rs. 500 was credited."])
    by (vm_compute; reflexivity).
  split; [exact E|]. rewrite E. intro H.
  inversion H as [|? ? Hnotin _]; subst. apply Hnotin. left. reflexivity.
Qed.

(** ** The classifier *)

Lemma truthy_nonempty (s : string) : PyStr.truthy s = true <-> s <> "".
Proof.
  destruct s; simpl; split; intro H; congruence.
Qed.

Lemma keyword_score_total (text : string) (keywords : list string) :
  exists score found, keyword_score text keywords = Some (score, found).
Proof.
  unfold keyword_score. destruct keywords as [|k keywords].
  - simpl. eauto.
  - cbn [List.length py_truediv Err.bind Err.ret]. eauto.
Qed.

Section ClassifierFacts.

Variables DENIAL_KEYWORDS INFORMATIVE_KEYWORDS
          PROCEDURAL_KEYWORDS EVASIVE_KEYWORDS : list string.

Let table :=
  adjusted_scores DENIAL_KEYWORDS INFORMATIVE_KEYWORDS
                  PROCEDURAL_KEYWORDS EVASIVE_KEYWORDS.

Lemma adjusted_scores_total (sentence : string) :
  exists scores,
    table sentence = Some scores
    /\ map fst scores = [DENIAL; INFORMATIVE; PROCEDURAL; EVASIVE].
Proof.
  unfold table, adjusted_scores.
  destruct (keyword_score_total sentence DENIAL_KEYWORDS) as [s1 [k1 ->]].
  destruct (keyword_score_total sentence INFORMATIVE_KEYWORDS) as [s2 [k2 ->]].
  destruct (keyword_score_total sentence PROCEDURAL_KEYWORDS) as [s3 [k3 ->]].
  destruct (keyword_score_total sentence EVASIVE_KEYWORDS) as [s4 [k4 ->]].
  cbn [Err.bind Err.ret]. eexists. split; reflexivity.
Qed.

Lemma classify_sentence_with_total (sentence : string) :
  exists c,
    classify_sentence_with DENIAL_KEYWORDS INFORMATIVE_KEYWORDS
                           PROCEDURAL_KEYWORDS EVASIVE_KEYWORDS sentence
    = Some c.
Proof.
  unfold classify_sentence_with.
  destruct (negb (PyStr.truthy (PyStr.strip sentence))); [eexists; reflexivity|].
  destruct (adjusted_scores_total (PyStr.strip sentence)) as [scores [E _]].
  unfold table in E. rewrite E. cbn [Err.bind].
  destruct (find_best scores) as [[bc bs] bk].
  destruct (Qltb bs 0.1); eexists; reflexivity.
Qed.

End ClassifierFacts.

(** The loop keeps the first entry that beats everything before it and is
    not beaten by anything after it. *)
Lemma fold_best_keeps (post : list (SentenceCategory * (Q * list string)))
    (cat : SentenceCategory) (sc : Q) (kw : list string) :
  Forall (fun e => (fst (snd e) <= sc)%Q) post ->
  fold_left best_step post (cat, sc, kw) = (cat, sc, kw).
Proof.
  induction 1 as [|[c [s k]] post Hle _ IH]; [reflexivity|].
  simpl in *. apply Qgtb_false in Hle. rewrite Hle. exact IH.
Qed.

Lemma fold_best_first_max (pre post : list (SentenceCategory * (Q * list string)))
    (cat : SentenceCategory) (sc : Q) (kw : list string)
    (best : SentenceCategory * Q * list string) :
  (snd (fst best) < sc)%Q ->
  Forall (fun e => (fst (snd e) < sc)%Q) pre ->
  Forall (fun e => (fst (snd e) <= sc)%Q) post ->
  fold_left best_step (pre ++ (cat, (sc, kw)) :: post) best = (cat, sc, kw).
Proof.
  intros Hb Hpre Hpost. revert best Hb.
  induction Hpre as [|[c [s k]] pre Hlt _ IH]; intros [[bc bs] bk] Hb.
  - simpl in *. apply Qgtb_true in Hb. rewrite Hb.
    apply fold_best_keeps. exact Hpost.
  - cbn [app fold_left]. apply IH.
    unfold best_step. destruct (Qgtb s bs); simpl in *; assumption.
Qed.

Lemma fold_best_origin
    (scores : list (SentenceCategory * (Q * list string)))
    (best : SentenceCategory * Q * list string)
    (bc : SentenceCategory) (bs : Q) (bk : list string) :
  fold_left best_step scores best = (bc, bs, bk) ->
  (bc, bs, bk) = best \/ In (bc, (bs, bk)) scores.
Proof.
  revert best. induction scores as [|[c [s k]] scores IH]; intros best H.
  - simpl in H. left. congruence.
  - simpl in H. apply IH in H. destruct H as [H|H]; [|right; right; exact H].
    destruct best as [[c0 s0] k0]. unfold best_step in H.
    destruct (Qgtb s s0).
    + right. left. congruence.
    + left. exact H.
Qed.

Lemma classify_sentence_unfold (sentence : string)
    (scores : list (SentenceCategory * (Q * list string)))
    (bc : SentenceCategory) (bs : Q) (bk : list string) :
  PyStr.strip sentence <> "" ->
  score_table (PyStr.strip sentence) = Some scores ->
  find_best scores = (bc, bs, bk) ->
  classify_sentence sentence
  = Some {| text := PyStr.strip sentence;
            category := if Qltb bs 0.1 then NEUTRAL else bc;
            confidence := Qmin (if Qltb bs 0.1 then 0.5%Q else bs) 1;
            section_references :=
              Dict.keys (detect_rti_sections (PyStr.strip sentence));
            keywords_found := bk |}.
Proof.
  intros Hne Ht Hb. unfold classify_sentence, classify_sentence_with.
  apply truthy_nonempty in Hne. rewrite Hne. cbn [negb].
  unfold score_table in Ht. rewrite Ht. cbn [Err.bind]. rewrite Hb.
  destruct (Qltb bs 0.1); reflexivity.
Qed.

(** C4 (as amended).  The score table lists the categories in the order
    Denial, Informative, Procedural, Evasive.  For a sentence that is not
    blank, if an entry of the table scores strictly more than every entry
    before it, at least as much as every entry after it, and at least the
    0.1 floor, then [classify_sentence] returns that entry's category: the
    earliest of the categories that attain the maximum, and the strictly
    highest one when the maximum is unique. *)
Theorem classify_sentence_first_maximum (sentence : string)
    (scores pre post : list (SentenceCategory * (Q * list string)))
    (cat : SentenceCategory) (sc : Q) (kw : list string) :
  PyStr.strip sentence <> "" ->
  score_table (PyStr.strip sentence) = Some scores ->
  scores = pre ++ (cat, (sc, kw)) :: post ->
  Forall (fun e => (fst (snd e) < sc)%Q) pre ->
  Forall (fun e => (fst (snd e) <= sc)%Q) post ->
  (0.1 <= sc)%Q ->
  map fst scores = [DENIAL; INFORMATIVE; PROCEDURAL; EVASIVE]
  /\ exists c,
       classify_sentence sentence = Some c
       /\ category c = cat
       /\ confidence c = Qmin sc 1
       /\ keywords_found c = kw.
Proof.
  intros Hne Ht Hs Hpre Hpost Hfloor. split.
  - destruct (adjusted_scores_total Config.DENIAL_KEYWORDS
                Config.INFORMATIVE_KEYWORDS Config.PROCEDURAL_KEYWORDS
                Config.EVASIVE_KEYWORDS (PyStr.strip sentence))
      as [scores' [E Ho]].
    unfold score_table in Ht. rewrite Ht in E. congruence.
  - assert (Hb : find_best scores = (cat, sc, kw)).
    { unfold find_best. rewrite Hs. apply fold_best_first_max; auto.
      simpl. apply Qlt_le_trans with 0.1%Q; [reflexivity|exact Hfloor]. }
    rewrite (classify_sentence_unfold sentence scores cat sc kw Hne Ht Hb).
    apply Qltb_false in Hfloor. rewrite Hfloor.
    eexists. repeat split; reflexivity.
Qed.

Lemma classify_sentence_first_maximum_witness :
  map fst [ (DENIAL, (0 # 14, @nil string));
            (INFORMATIVE, (1 # 8, ["details are"]));
            (PROCEDURAL, (0 # 8, []));
            (EVASIVE, (1 # 8, ["vague"])) ]%Q
  = [DENIAL; INFORMATIVE; PROCEDURAL; EVASIVE]
  /\ exists c,
       classify_sentence tied_sentence = Some c
       /\ category c = INFORMATIVE
       /\ confidence c = Qmin (1 # 8) 1
       /\ keywords_found c = ["details are"].
Proof.
  apply (classify_sentence_first_maximum tied_sentence _
           [ (DENIAL, (0 # 14, @nil string)) ]%Q
           [ (PROCEDURAL, (0 # 8, @nil string));
             (EVASIVE, (1 # 8, ["vague"])) ]%Q).
  - vm_compute. discriminate.
  - vm_compute. reflexivity.
  - reflexivity.
  - repeat constructor.
  - repeat constructor; vm_compute; discriminate.
  - vm_compute. discriminate.
Defined.

(** C4 (as stated) fails below the floor: with all four categories tied at
    the maximal score 0 the result is Neutral, not Denial; and a unique
    maximum of 1/14 for Denial is overridden to Neutral as well. *)
Lemma classify_sentence_maximum_below_floor :
  (score_table plain_sentence
   = Some [ (DENIAL, (0 # 14, [])); (INFORMATIVE, (0 # 8, []));
            (PROCEDURAL, (0 # 8, [])); (EVASIVE, (0 # 8, [])) ]%Q
   /\ exists c, classify_sentence plain_sentence = Some c
                /\ category c = NEUTRAL /\ category c <> DENIAL)
  /\ (score_table weak_denial_sentence
      = Some [ (DENIAL, (1 # 14, ["denied"])); (INFORMATIVE, (0 # 8, []));
               (PROCEDURAL, (0 # 8, [])); (EVASIVE, (0 # 8, [])) ]%Q
      /\ exists c, classify_sentence weak_denial_sentence = Some c
                   /\ category c = NEUTRAL /\ category c <> DENIAL).
Proof.
  split; (split; [vm_compute; reflexivity|]);
    eexists; (split; [vm_compute; reflexivity|]);
    simpl; split; [reflexivity|discriminate|reflexivity|discriminate].
Qed.

(** C8.  The sentence of scenario 1 is classified Denial, its section
    references include [section_8], and its Denial score is the keyword
    score 3/14 with the 0.3 exemption bonus added. *)
Theorem classify_exemption_sentence :
  keyword_score exemption_sentence Config.DENIAL_KEYWORDS
  = Some ((3 # 14)%Q, ["cannot be provided"; "exempt"; "section 8"])
  /\ Dict.mem "section_8" (detect_rti_sections exemption_sentence) = true
  /\ (exists scores,
        score_table exemption_sentence
        = Some ((DENIAL, ((3 # 14) + 0.3,
                          ["cannot be provided"; "exempt"; "section 8"]))
                :: scores)%Q)
  /\ exists c,
       classify_sentence exemption_sentence = Some c
       /\ category c = DENIAL
       /\ In "section_8" (section_references c)
       /\ (confidence c == (3 # 14) + 0.3)%Q
       /\ keywords_found c = ["cannot be provided"; "exempt"; "section 8"].
Proof.
  split; [vm_compute; reflexivity|].
  split; [vm_compute; reflexivity|].
  split; [eexists; vm_compute; reflexivity|].
  eexists. split; [vm_compute; reflexivity|].
  simpl. repeat split; try reflexivity. left. reflexivity.
Qed.

(** C9.  For a sentence that is not blank and whose best adjusted score is
    positive but below the 0.1 floor, the result is Neutral with confidence
    0.5, while [keywords_found] is the matched-keyword list of the
    discarded best category, an entry of the score table, and
    [section_references] lists the sections detected in the sentence. *)
Theorem classify_sentence_below_floor (sentence : string)
    (scores : list (SentenceCategory * (Q * list string)))
    (best_category : SentenceCategory) (best_score : Q)
    (best_keywords : list string) :
  PyStr.strip sentence <> "" ->
  score_table (PyStr.strip sentence) = Some scores ->
  find_best scores = (best_category, best_score, best_keywords) ->
  (0 < best_score)%Q ->
  (best_score < 0.1)%Q ->
  classify_sentence sentence
  = Some {| text := PyStr.strip sentence;
            category := NEUTRAL;
            confidence := 0.5%Q;
            section_references :=
              Dict.keys (detect_rti_sections (PyStr.strip sentence));
            keywords_found := best_keywords |}
  /\ In (best_category, (best_score, best_keywords)) scores.
Proof.
  intros Hne Ht Hb Hpos Hlow. split.
  - rewrite (classify_sentence_unfold _ _ _ _ _ Hne Ht Hb).
    apply Qltb_true in Hlow. rewrite Hlow. reflexivity.
  - unfold find_best in Hb. apply fold_best_origin in Hb.
    destruct Hb as [Hb|Hb]; [|exact Hb].
    exfalso. inversion Hb; subst. revert Hpos. apply Qlt_irrefl.
Qed.

(** A Neutral sentence that carries a matched keyword. *)
Lemma classify_sentence_below_floor_witness :
  classify_sentence weak_denial_sentence
  = Some {| text := PyStr.strip weak_denial_sentence;
            category := NEUTRAL;
            confidence := 0.5%Q;
            section_references :=
              Dict.keys (detect_rti_sections
                           (PyStr.strip weak_denial_sentence));
            keywords_found := ["denied"] |}
  /\ In (DENIAL, ((1 # 14)%Q, ["denied"]))
        [ (DENIAL, (1 # 14, ["denied"])); (INFORMATIVE, (0 # 8, []));
          (PROCEDURAL, (0 # 8, [])); (EVASIVE, (0 # 8, [])) ]%Q.
Proof.
  apply (classify_sentence_below_floor weak_denial_sentence).
  - vm_compute. discriminate.
  - vm_compute. reflexivity.
  - vm_compute. reflexivity.
  - reflexivity.
  - reflexivity.
Defined.

(** C10.  With an empty keyword list [keyword_score] returns score 0 and no
    matched keyword: the division by the length of the list, which would
    fail, is not performed.  Hence [classify_sentence] returns a result for
    every sentence whatever keyword lists are configured, empty ones
    included. *)
Theorem keyword_score_empty_guarded :
  (forall text, keyword_score text [] = Some (0%Q, []))
  /\ (forall n, py_truediv n (List.length (@nil string)) = None)
  /\ (forall denial informative procedural evasive sentence,
        exists c,
          classify_sentence_with denial informative procedural evasive
                                 sentence = Some c).
Proof.
  split; [reflexivity|]. split; [reflexivity|].
  intros. apply classify_sentence_with_total.
Qed.

(** ** The segmenters *)

(** C5.  The fact-anchor segmenter keeps a sentence with [Rs.] whole; the
    classification segmenter, which has no rule for [Rs.], cuts after it
    (and then drops the short first piece).  Both protect [Sec.] and
    [No.]. *)
Theorem segmenters_on_abbreviations :
  FactExtractor.split_into_sentences rupee_sentence = [rupee_sentence]
  /\ RtiSemantic.split_into_sentences rupee_sentence = ["500 was credited."]
  /\ FactExtractor.split_into_sentences refund_sentence = [refund_sentence]
  /\ RtiSemantic.split_into_sentences refund_sentence
     = ["The refund of Rs."; "500 was credited."]
  /\ FactExtractor.split_into_sentences
       "Refer to Sec. 8 and file No. 12 of the register."
     = ["Refer to Sec. 8 and file No. 12 of the register."]
  /\ RtiSemantic.split_into_sentences
       "Refer to Sec. 8 and file No. 12 of the register."
     = ["Refer to Sec. 8 and file No. 12 of the register."].
Proof.
  repeat split; vm_compute; reflexivity.
Qed.

(** ** The action rule engine *)

Lemma ratio_or_zero_total (n total : nat) :
  exists q, ratio_or_zero n total = Some q.
Proof.
  unfold ratio_or_zero. destruct total as [|t]; simpl; eauto.
Qed.

Lemma get_stats_total (self : StructuredRTIResponse) :
  exists stats, get_stats self = Some stats /\ counts_of self stats.
Proof.
  unfold get_stats.
  match goal with |- context [ratio_or_zero ?n ?t] =>
    destruct (ratio_or_zero_total n t) as [ir ->] end.
  match goal with |- context [ratio_or_zero ?n ?t] =>
    destruct (ratio_or_zero_total n t) as [dr ->] end.
  cbn [Err.bind Err.ret]. eexists. unfold counts_of.
  repeat split; reflexivity.
Qed.

Lemma In_sort_by_priority (x : ActionSuggestion) (l : list ActionSuggestion) :
  In x (sort_by_priority l) <-> In x l.
Proof.
  split; apply Permutation_in;
    [|apply Permutation_sym]; apply sort_perm.
Qed.

Lemma In_append_if {X} (c : bool) (x y : X) (l : list X) :
  In y (append_if c x l) <-> In y l \/ (c = true /\ y = x).
Proof.
  unfold append_if. destruct c.
  - rewrite in_app_iff. simpl. intuition congruence.
  - intuition congruence.
Qed.

(** The suggestions that rules 1 to 5 appended: exactly those whose
    condition holds. *)
Lemma In_fired_suggestions (structured : StructuredRTIResponse) (stats : Stats)
    (x : ActionSuggestion) :
  In x (fired_suggestions structured stats) <->
  (rule1_fires stats = true /\ x = first_appeal_suggestion)
  \/ (rule2_fires stats = true /\ x = clarification_suggestion)
  \/ (rule3_fires structured = true /\ x = challenge_exemption_suggestion)
  \/ (rule4_fee_fires structured stats = true /\ x = pay_fee_suggestion)
  \/ (rule4_transfer_fires structured stats = true
      /\ x = transferred_suggestion)
  \/ (rule5_fires stats = true /\ x = response_complete_suggestion).
Proof.
  unfold fired_suggestions. rewrite !In_append_if. simpl. tauto.
Qed.

Lemma fired_suggestions_nil (structured : StructuredRTIResponse)
    (stats : Stats) :
  fired_suggestions structured stats = [] <->
  rule1_fires stats = false /\ rule2_fires stats = false
  /\ rule3_fires structured = false
  /\ rule4_fee_fires structured stats = false
  /\ rule4_transfer_fires structured stats = false
  /\ rule5_fires stats = false.
Proof.
  split.
  - intros H.
    assert (Hin : forall x, ~ In x (fired_suggestions structured stats))
      by (intros x; rewrite H; simpl; tauto).
    repeat split;
      match goal with |- ?c = false =>
        destruct c eqn:E; [exfalso|reflexivity] end;
      eapply Hin; apply In_fired_suggestions; eauto 10.
  - intros (H1 & H2 & H3 & H4 & H5 & H6). unfold fired_suggestions.
    rewrite H1, H2, H3, H4, H5, H6. reflexivity.
Qed.

Lemma review_not_fired (structured : StructuredRTIResponse) (stats : Stats) :
  ~ In review_suggestion (fired_suggestions structured stats).
Proof.
  rewrite In_fired_suggestions.
  intros [[_ H]|[[_ H]|[[_ H]|[[_ H]|[[_ H]|[_ H]]]]]]; discriminate H.
Qed.

Lemma fired_priorities (structured : StructuredRTIResponse) (stats : Stats) :
  Forall (fun s => In (priority s) ["high"; "medium"; "low"])
         (unsorted_suggestions structured stats).
Proof.
  apply Forall_forall. intros x Hx. unfold unsorted_suggestions in Hx.
  apply In_append_if in Hx. rewrite In_fired_suggestions in Hx.
  destruct Hx as [[[_ ->]|[[_ ->]|[[_ ->]|[[_ ->]|[[_ ->]|[_ ->]]]]]]|[_ ->]];
    simpl; tauto.
Qed.
Lemma sorted_by_priority (l : list ActionSuggestion) :
  StronglySorted
    (fun a b => priority_order (priority a) <= priority_order (priority b))
    (sort_by_priority l).
Proof.
  assert (H : StronglySorted
                (PyList.in_order (fun y x => priority_order (priority y)
                                      <? priority_order (priority x)))
                (sort_by_priority l)).
  { apply sort_sorted.
    - intros x y H. apply Nat.ltb_lt in H. apply Nat.ltb_ge. lia.
    - intros x y z H1 H2. apply Nat.ltb_ge in H1, H2. apply Nat.ltb_ge. lia. }
  revert H. apply StronglySorted_weaken.
  intros a b H. apply Nat.ltb_ge in H. exact H.
Qed.

Lemma sort_by_priority_stable (p : string) (l : list ActionSuggestion) :
  filter (fun s => String.eqb (priority s) p) (sort_by_priority l)
  = filter (fun s => String.eqb (priority s) p) l.
Proof.
  apply sort_filter. intros a b Ha Hb.
  apply String.eqb_eq in Ha, Hb. rewrite Ha, Hb. apply Nat.ltb_irrefl.
Qed.

(** C6.  [suggest_next_steps] returns a non-empty list, ordered by
    priority (every priority is high, medium or low, and no suggestion is
    followed by one of a more urgent priority); suggestions of equal
    priority stay in rule-firing order; and the catch-all "Review Response
    Carefully" is present exactly when none of the rules fired. *)
Theorem suggest_next_steps_sorted (structured : StructuredRTIResponse) :
  exists stats result,
    get_stats structured = Some stats
    /\ counts_of structured stats
    /\ suggest_next_steps structured = Some result
    /\ result <> []
    /\ Forall (fun s => In (priority s) ["high"; "medium"; "low"]) result
    /\ StronglySorted
         (fun a b => priority_order (priority a) <= priority_order (priority b))
         result
    /\ (forall p,
          filter (fun s => String.eqb (priority s) p) result
          = filter (fun s => String.eqb (priority s) p)
                   (unsorted_suggestions structured stats))
    /\ (In review_suggestion result <->
        rule1_fires stats = false /\ rule2_fires stats = false
        /\ rule3_fires structured = false
        /\ rule4_fee_fires structured stats = false
        /\ rule4_transfer_fires structured stats = false
        /\ rule5_fires stats = false).
Proof.
  destruct (get_stats_total structured) as [stats [Hs Hc]].
  exists stats, (sort_by_priority (unsorted_suggestions structured stats)).
  split; [exact Hs|]. split; [exact Hc|].
  split; [unfold suggest_next_steps; rewrite Hs; reflexivity|].
  split; [|split; [|split; [|split]]].
  - intro H.
    assert (Hl : List.length (unsorted_suggestions structured stats) = 0).
    { pose proof (Permutation_length
                    (sort_perm (fun y x => priority_order (priority y)
                                           <? priority_order (priority x))
                               (unsorted_suggestions structured stats)))
        as Hp.
      unfold sort_by_priority in H. rewrite H in Hp. symmetry. exact Hp. }
    unfold unsorted_suggestions, append_if in Hl.
    destruct (fired_suggestions structured stats); simpl in Hl; discriminate.
  - apply (Permutation_Forall (Permutation_sym (sort_perm _ _))).
    apply fired_priorities.
  - apply sorted_by_priority.
  - intro p. apply sort_by_priority_stable.
  - rewrite In_sort_by_priority, <- fired_suggestions_nil.
    unfold unsorted_suggestions. rewrite In_append_if. split.
    + intros [H|[H _]].
      * exfalso. exact (review_not_fired _ _ H).
      * destruct (fired_suggestions structured stats);
          [reflexivity|discriminate].
    + intros ->. right. split; reflexivity.
Qed.

(** C7.  [check_appeal_eligibility] reports [eligible] exactly when one of
    the four conditions holds; [reasons] has one entry per condition that
    holds, in the order of the checks; the appeal type, deadline and
    authority are fixed texts. *)
Theorem check_appeal_eligibility_conditions
    (structured : StructuredRTIResponse) :
  exists stats verdict,
    get_stats structured = Some stats
    /\ counts_of structured stats
    /\ check_appeal_eligibility structured = Some verdict
    /\ (eligible verdict = true <->
        0 < denial_count stats
        \/ Dict.mem "section_8" (document_sections structured) = true
        \/ 0 < evasive_count stats
        \/ (informative_count stats = 0 /\ 3 < neutral_count stats))
    /\ reasons verdict
       = (if 0 <? denial_count stats
          then ["Information was denied"] else [])
         ++ (if Dict.mem "section_8" (document_sections structured)
             then ["Section 8 exemptions were cited"] else [])
         ++ (if 0 <? evasive_count stats
             then ["Response contains evasive/unclear statements"] else [])
         ++ (if (informative_count stats =? 0) && (3 <? neutral_count stats)
             then ["Response does not adequately address the query"]
             else [])
    /\ List.length (reasons verdict)
       = Nat.b2n (0 <? denial_count stats)
         + Nat.b2n (Dict.mem "section_8" (document_sections structured))
         + Nat.b2n (0 <? evasive_count stats)
         + Nat.b2n ((informative_count stats =? 0)
                    && (3 <? neutral_count stats))
    /\ appeal_type verdict = "First Appeal under Section 19(1)"
    /\ appeal_deadline verdict = "30 days from receipt of response"
    /\ authority verdict = "First Appellate Authority (FAA)".
Proof.
  destruct (get_stats_total structured) as [stats [Hs Hc]].
  exists stats. unfold check_appeal_eligibility. rewrite Hs.
  cbn [Err.bind Err.ret]. eexists. split; [reflexivity|].
  split; [exact Hc|]. split; [reflexivity|]. cbn [eligible reasons appeal_type appeal_deadline
                               authority].
  rewrite <- Nat.ltb_lt, <- (Nat.ltb_lt 0 (evasive_count stats)),
    <- Nat.eqb_eq, <- (Nat.ltb_lt 3), <- andb_true_iff.
  destruct (0 <? denial_count stats),
           (Dict.mem "section_8" (document_sections structured)),
           (0 <? evasive_count stats),
           ((informative_count stats =? 0) && (3 <? neutral_count stats));
    simpl; repeat split; try reflexivity; intros; try tauto;
    intuition discriminate.
Qed.
(** C1 (as amended).  For a response of 10 sentences of which 4 are
    Denial and none Informative, the denial ratio is 0.4, which is not
    above 0.4: the overall assessment is INADEQUATE when some sentence is
    Evasive and PARTIAL otherwise, never UNSATISFACTORY; the suggestions
    contain the high-priority "File First Appeal". *)
Theorem report_for_four_denials_of_ten (structured : StructuredRTIResponse) :
  List.length (informative_sentences structured)
  + List.length (denial_sentences structured)
  + List.length (procedural_sentences structured)
  + List.length (evasive_sentences structured)
  + List.length (neutral_sentences structured) = 10 ->
  List.length (denial_sentences structured) = 4 ->
  List.length (informative_sentences structured) = 0 ->
  exists stats report,
    get_stats structured = Some stats
    /\ total_sentences stats = 10
    /\ (denial_ratio stats == 0.4)%Q
    /\ generate_action_report structured = Some report
    /\ overall_assessment report
       = (if 0 <? List.length (evasive_sentences structured)
          then INADEQUATE else PARTIAL)
    /\ overall_assessment report <> UNSATISFACTORY
    /\ In (entry_of first_appeal_suggestion) (suggestions report)
    /\ entry_title (entry_of first_appeal_suggestion) = "File First Appeal"
    /\ entry_priority (entry_of first_appeal_suggestion) = "high".
Proof.
  intros Htotal Hden Hinf.
  assert (Hs : get_stats structured
               = Some {| total_sentences := 10;
                         informative_count := 0;
                         denial_count := 4;
                         procedural_count :=
                           List.length (procedural_sentences structured);
                         evasive_count :=
                           List.length (evasive_sentences structured);
                         neutral_count :=
                           List.length (neutral_sentences structured);
                         informative_ratio := (0 # 10)%Q;
                         denial_ratio := (4 # 10)%Q |}).
  { unfold get_stats. rewrite Htotal, Hden, Hinf. reflexivity. }
  eexists. eexists. split; [exact Hs|].
  split; [reflexivity|]. split; [reflexivity|].
  unfold generate_action_report, suggest_next_steps,
    check_appeal_eligibility, _get_overall_assessment.
  rewrite Hs. cbn [Err.bind Err.ret]. split; [reflexivity|].
  cbn [overall_assessment suggestions informative_ratio denial_ratio
       informative_count evasive_count].
  change (Qgtb (0 # 10) 0.6) with false.
  change (Qgtb (4 # 10) 0.4) with false. cbv iota.
  split; [reflexivity|]. split.
  - destruct (0 <? List.length (evasive_sentences structured)); discriminate.
  - split; [|split; reflexivity].
    apply in_map. apply In_sort_by_priority.
    unfold unsorted_suggestions. apply In_append_if. left.
    apply In_fired_suggestions. left. split; reflexivity.
Qed.

Lemma report_for_four_denials_of_ten_witness :
  exists structured,
    denial_response = Some structured
    /\ exists stats report,
         get_stats structured = Some stats
         /\ total_sentences stats = 10
         /\ (denial_ratio stats == 0.4)%Q
         /\ generate_action_report structured = Some report
         /\ overall_assessment report
            = (if 0 <? List.length (evasive_sentences structured)
               then INADEQUATE else PARTIAL)
         /\ overall_assessment report <> UNSATISFACTORY
         /\ In (entry_of first_appeal_suggestion) (suggestions report)
         /\ entry_title (entry_of first_appeal_suggestion)
            = "File First Appeal"
         /\ entry_priority (entry_of first_appeal_suggestion) = "high".
Proof.
  eexists. split; [vm_compute; reflexivity|].
  apply report_for_four_denials_of_ten; reflexivity.
Defined.

(** C1 (as stated) fails: the document above has 10 sentences, 4 Denial and
    no Informative one, and its overall assessment is PARTIAL. *)
Lemma four_denials_of_ten_not_unsatisfactory :
  exists structured stats report,
    denial_response = Some structured
    /\ get_stats structured = Some stats
    /\ total_sentences stats = 10
    /\ denial_count stats = 4
    /\ informative_count stats = 0
    /\ (denial_ratio stats == 0.4)%Q
    /\ Qgtb (denial_ratio stats) 0.4 = false
    /\ generate_action_report structured = Some report
    /\ overall_assessment report = PARTIAL
    /\ overall_assessment report <> UNSATISFACTORY.
Proof.
  eexists. eexists. eexists.
  split; [vm_compute; reflexivity|].
  split; [vm_compute; reflexivity|].
  split; [reflexivity|]. split; [reflexivity|]. split; [reflexivity|].
  split; [reflexivity|]. split; [reflexivity|].
  split; [vm_compute; reflexivity|].
  split; [reflexivity|]. discriminate.
Qed.

(** ** The decisive comparisons on binary64 *)

(** On doubles, as on rationals, 4/10 is not above the literal 0.4 of
    [_get_overall_assessment] and is above the literal 0.3 of rule 1. *)
Lemma float_ratio_4_10_not_above_0_4 :
  PrimFloat.ltb 0x1.999999999999ap-2%float (float_ratio 4 10) = false.
Proof. vm_compute. reflexivity. Qed.

Lemma float_ratio_4_10_above_0_3 :
  PrimFloat.ltb 0x1.3333333333333p-2%float (float_ratio 4 10) = true.
Proof. vm_compute. reflexivity. Qed.

(** A single denial keyword, 1/14, is below the literal 0.1 of the floor. *)
Lemma float_ratio_1_14_below_floor :
  PrimFloat.ltb (float_ratio 1 14) 0x1.999999999999ap-4%float = true.
Proof. vm_compute. reflexivity. Qed.

(** With no Informative sentence among ten the informative ratio 0/10 is
    not above the literal 0.6. *)
Lemma float_ratio_0_10_not_above_0_6 :
  PrimFloat.ltb 0x1.3333333333333p-1%float (float_ratio 0 10) = false.
Proof. vm_compute. reflexivity. Qed.

(** The Denial score of scenario 1, 3/14 + 0.3, is not below the floor. *)
Lemma float_exemption_score_above_floor :
  PrimFloat.ltb
    (PrimFloat.add (float_ratio 3 14) 0x1.3333333333333p-2%float)
    0x1.999999999999ap-4%float = false.
Proof. vm_compute. reflexivity. Qed.

(* ================================================================== *)
(** * Further properties of the code *)

(** ** Strings *)





Lemma lstrip_shape (s : string) :
  PyStr.lstrip s = "" \/
  exists c s', PyStr.lstrip s = String c s' /\ PyStr.is_space c = false.
Proof.
  induction s as [|c s IH]; simpl; [left; reflexivity|].
  destruct (PyStr.is_space c) eqn:E; [exact IH|].
  right. exists c, s. split; [reflexivity|exact E].
Qed.

Lemma rstrip_idempotent (s : string) :
  PyStr.rstrip (PyStr.rstrip s) = PyStr.rstrip s.
Proof.
  induction s as [|c s IH]; [reflexivity|].
  simpl. destruct (PyStr.rstrip s) as [|d r] eqn:E.
  - destruct (PyStr.is_space c) eqn:Ec; [reflexivity|].
    simpl. rewrite Ec. reflexivity.
  - change (PyStr.rstrip (String c (String d r))) with
      (match PyStr.rstrip (String d r) with
       | EmptyString =>
           if PyStr.is_space c then EmptyString else String c EmptyString
       | r' => String c r'
       end).
    rewrite IH. reflexivity.
Qed.

Lemma rstrip_head (c : ascii) (s : string) :
  PyStr.is_space c = false ->
  exists r, PyStr.rstrip (String c s) = String c r.
Proof.
  intros Hc. simpl. destruct (PyStr.rstrip s) as [|d r].
  - rewrite Hc. eauto.
  - eauto.
Qed.

Lemma strip_idempotent (s : string) : PyStr.strip (PyStr.strip s) = PyStr.strip s.
Proof.
  unfold PyStr.strip.
  destruct (lstrip_shape s) as [E|[c [s' [E Hc]]]]; rewrite E.
  - reflexivity.
  - destruct (rstrip_head c s' Hc) as [r Hr]. rewrite Hr.
    simpl PyStr.lstrip. rewrite Hc. rewrite <- Hr. apply rstrip_idempotent.
Qed.

Lemma lstrip_length (s : string) :
  String.length (PyStr.lstrip s) <= String.length s.
Proof.
  induction s as [|c s IH]; simpl; [lia|].
  destruct (PyStr.is_space c); simpl; lia.
Qed.

Lemma rstrip_length (s : string) :
  String.length (PyStr.rstrip s) <= String.length s.
Proof.
  induction s as [|c s IH]; simpl; [lia|].
  destruct (PyStr.rstrip s); [destruct (PyStr.is_space c)|]; simpl in *; lia.
Qed.

Lemma strip_length (s : string) :
  String.length (PyStr.strip s) <= String.length s.
Proof.
  unfold PyStr.strip.
  pose proof (rstrip_length (PyStr.lstrip s)). pose proof (lstrip_length s). lia.
Qed.

Lemma strip_blank (s : string) : blank s = true -> PyStr.strip s = "".
Proof.
  unfold PyStr.strip. induction s as [|c s IH]; simpl; [reflexivity|].
  intros H. apply andb_true_iff in H. destruct H as [Hc Hs].
  rewrite Hc. auto.
Qed.

(** ** The segmenters return trimmed sentences above their minimum length *)

Lemma trimmed_filter_map (min_len : nat) (pieces : list string) :
  Forall (fun s => stripped s /\ min_len < String.length s)
         (map PyStr.strip
              (filter (fun s => min_len <? String.length (PyStr.strip s))
                      pieces)).
Proof.
  apply Forall_forall. intros s Hs.
  apply in_map_iff in Hs. destruct Hs as [p [<- Hp]].
  apply filter_In in Hp. destruct Hp as [_ Hp]. apply Nat.ltb_lt in Hp.
  split; [apply strip_idempotent|exact Hp].
Qed.

(** X1.  Every sentence returned by the classification segmenter is trimmed
    and longer than 10 characters; every sentence returned by the
    fact-anchor segmenter is trimmed and longer than 15 characters. *)
Theorem segmenters_trimmed_and_long (text : string) :
  Forall (fun s => stripped s /\ 10 < String.length s)
         (RtiSemantic.split_into_sentences text)
  /\ Forall (fun s => stripped s /\ 15 < String.length s)
            (FactExtractor.split_into_sentences text).
Proof.
  split; apply trimmed_filter_map.
Qed.

(** ** Keyword scores and classification results *)

Lemma Zpos_of_nat_S (n : nat) : Z.pos (Pos.of_nat (S n)) = Z.of_nat (S n).
Proof.
  rewrite <- Pos.of_nat_succ, Zpos_P_of_succ_nat. lia.
Qed.

Lemma ratio_bounds (a n : nat) :
  a <= S n ->
  (0 <= Z.of_nat a # Pos.of_nat (S n))%Q
  /\ (Z.of_nat a # Pos.of_nat (S n) <= 1)%Q
  /\ ((Z.of_nat a # Pos.of_nat (S n) == 0)%Q <-> a = 0).
Proof.
  intros Ha. unfold Qle, Qeq. cbn [Qnum Qden].
  rewrite Zpos_of_nat_S. repeat split; try lia.
Qed.



Lemma fold_best_score_ge
    (scores : list (SentenceCategory * (Q * list string)))
    (best : SentenceCategory * Q * list string) :
  (snd (fst best) <= snd (fst (fold_left best_step scores best)))%Q.
Proof.
  revert best. induction scores as [|[c [s k]] scores IH]; intros [[bc bs] bk].
  - simpl. apply Qle_refl.
  - cbn [fold_left]. eapply Qle_trans; [|apply IH].
    unfold best_step. destruct (Qgtb s bs) eqn:E; simpl.
    + apply Qgtb_true in E. apply Qlt_le_weak. exact E.
    + apply Qle_refl.
Qed.

(** X3.  The result of [classify_sentence] carries the trimmed sentence
    and a confidence between 0 and 1.  A blank sentence is Neutral with
    confidence 0 and no references or keywords; any other Neutral result
    has confidence 0.5; a result in one of the four other categories has a
    confidence of at least 0.1. *)
Theorem classify_sentence_result_shape (sentence : string) :
  exists c,
    classify_sentence sentence = Some c
    /\ text c = PyStr.strip sentence
    /\ (0 <= confidence c)%Q /\ (confidence c <= 1)%Q
    /\ (PyStr.strip sentence = "" ->
        category c = NEUTRAL /\ confidence c = 0%Q
        /\ section_references c = [] /\ keywords_found c = [])
    /\ (PyStr.strip sentence <> "" -> category c = NEUTRAL ->
        confidence c = 0.5%Q)
    /\ (category c <> NEUTRAL -> (0.1 <= confidence c)%Q).
Proof.
  destruct (PyStr.strip sentence) as [|c0 s0] eqn:Es.
  - eexists. split.
    + unfold classify_sentence, classify_sentence_with. rewrite Es. reflexivity.
    + cbn [text category confidence section_references keywords_found].
      split; [reflexivity|]. split; [discriminate|]. split; [discriminate|].
      split; [intros _; repeat split; reflexivity|].
      split; [intros H; exfalso; apply H; reflexivity|].
      intros H. exfalso. apply H. reflexivity.
  - assert (Hne : PyStr.strip sentence <> "") by (rewrite Es; discriminate).
    destruct (adjusted_scores_total Config.DENIAL_KEYWORDS
                Config.INFORMATIVE_KEYWORDS Config.PROCEDURAL_KEYWORDS
                Config.EVASIVE_KEYWORDS (PyStr.strip sentence))
      as [scores [Ht Ho]].
    destruct (find_best scores) as [[bc bs] bk] eqn:Hb.
    pose proof (classify_sentence_unfold sentence scores bc bs bk Hne Ht Hb)
      as Hc.
    rewrite Es in Hc. eexists. split; [exact Hc|].
    cbn [text category confidence section_references keywords_found].
    assert (Hge : (0 <= bs)%Q).
    { pose proof (fold_best_score_ge scores (NEUTRAL, 0%Q, [])) as H.
      unfold find_best in Hb. rewrite Hb in H. exact H. }
    split; [reflexivity|].
    destruct (Qltb bs 0.1) eqn:Ef.
    + split; [discriminate|]. split; [discriminate|].
      split; [intros H; discriminate H|].
      split; [intros _ _; reflexivity|].
      intros H. exfalso. apply H. reflexivity.
    + apply Qltb_false in Ef.
      assert (Hcat : bc <> NEUTRAL).
      { unfold find_best in Hb. apply fold_best_origin in Hb.
        destruct Hb as [Hb|Hb].
        - inversion Hb; subst. exfalso. revert Ef. apply Qlt_not_le.
          reflexivity.
        - apply (in_map fst) in Hb. rewrite Ho in Hb. simpl in Hb.
          intuition congruence. }
      split; [apply Q.min_glb; [exact Hge|discriminate]|].
      split; [apply Q.le_min_r|].
      split; [intros H; discriminate H|].
      split; [intros _ H; exfalso; exact (Hcat H)|].
      intros _. apply Q.min_glb; [exact Ef|discriminate].
Qed.

Lemma classify_sentence_keeps_text (sentence : string)
    (c : ClassifiedSentence) :
  classify_sentence sentence = Some c -> text c = PyStr.strip sentence.
Proof.
  unfold classify_sentence, classify_sentence_with.
  destruct (negb (PyStr.truthy (PyStr.strip sentence))).
  - intros H. inversion H. reflexivity.
  - destruct (adjusted_scores _ _ _ _ _) as [scores|]; [|discriminate].
    cbn [Err.bind]. destruct (find_best scores) as [[bc bs] bk].
    destruct (Qltb bs 0.1); intros H; inversion H; reflexivity.
Qed.

(** X4.  Classification looks at the trimmed sentence only, so classifying
    the text stored in a result gives that result again. *)
Theorem classify_sentence_of_stored_text (sentence : string)
    (c : ClassifiedSentence) :
  classify_sentence sentence = Some c ->
  classify_sentence (text c) = Some c.
Proof.
  intros H. rewrite (classify_sentence_keeps_text sentence c H).
  rewrite <- H. unfold classify_sentence, classify_sentence_with.
  rewrite strip_idempotent. reflexivity.
Qed.

Lemma classify_sentence_of_stored_text_witness :
  exists c,
    classify_sentence "  The details are vague in this file.  " = Some c
    /\ classify_sentence (text c) = Some c.
Proof.
  eexists. split; [vm_compute; reflexivity|].
  apply (classify_sentence_of_stored_text
           "  The details are vague in this file.  ").
  vm_compute. reflexivity.
Defined.

(** ** Section detection *)

Lemma dict_set_fresh {V} (key : string) (v : V) (d : Dict.t V) :
  Dict.mem key d = false -> Dict.set key v d = d ++ [(key, v)].
Proof.
  induction d as [|[k w] d IH]; simpl; [reflexivity|].
  intros H. apply orb_false_iff in H. destruct H as [Hk Hd].
  rewrite Hk, (IH Hd). reflexivity.
Qed.

Lemma dict_mem_app {V} (key : string) (d1 d2 : Dict.t V) :
  Dict.mem key (d1 ++ d2) = Dict.mem key d1 || Dict.mem key d2.
Proof.
  induction d1 as [|[k w] d1 IH]; simpl; [reflexivity|].
  rewrite IH, orb_assoc. reflexivity.
Qed.

Lemma dict_mem_keys {V} (key : string) (d : Dict.t V) :
  Dict.mem key d = true <-> In key (Dict.keys d).
Proof.
  induction d as [|[k w] d IH]; simpl; [intuition discriminate|].
  rewrite orb_true_iff, IH, String.eqb_eq. intuition congruence.
Qed.

Lemma section_entry_keys (text : string) (entry : string * Re.regex) :
  Dict.keys (section_entry text entry) = []
  \/ Dict.keys (section_entry text entry) = [fst entry].
Proof.
  unfold section_entry. destruct (map _ _); [left|right]; reflexivity.
Qed.

(** The loop of [detect_rti_sections] over entries with distinct names
    appends the contribution of each entry in turn. *)
Lemma detect_loop_appends (text : string) (entries : list (string * Re.regex))
    (acc : Dict.t (list string)) :
  NoDup (map fst entries) ->
  (forall e, In e entries -> Dict.mem (fst e) acc = false) ->
  fold_left
    (fun section_references entry =>
       let '(section_name, pattern) := entry in
       let excerpts := map (excerpt_of text) (Re.finditer true pattern text) in
       match excerpts with
       | [] => section_references
       | _ :: _ => Dict.set section_name excerpts section_references
       end)
    entries acc
  = acc ++ flat_map (section_entry text) entries.
Proof.
  revert acc. induction entries as [|[name pattern] entries IH];
    intros acc Hnd Hfresh.
  - simpl. rewrite app_nil_r. reflexivity.
  - inversion Hnd as [|? ? Hname Hnd']; subst.
    cbn [fold_left flat_map]. unfold section_entry at 1. cbn [fst snd].
    destruct (map (excerpt_of text) (Re.finditer true pattern text))
      as [|e excerpts] eqn:E.
    + rewrite IH; [reflexivity|exact Hnd'|].
      intros e' He'. apply Hfresh. right. exact He'.
    + rewrite dict_set_fresh by (apply (Hfresh (name, pattern)); left; reflexivity).
      rewrite IH; [rewrite <- app_assoc; reflexivity|exact Hnd'|].
      intros e' He'. rewrite dict_mem_app.
      rewrite (Hfresh e') by (right; exact He').
      cbn [Dict.mem]. rewrite orb_false_r. cbn [orb].
      destruct (String.eqb (fst e') name) eqn:En; [|reflexivity].
      exfalso. apply String.eqb_eq in En. apply Hname. rewrite <- En.
      apply in_map. exact He'.
Qed.

Lemma detect_rti_sections_flat (text : string) :
  detect_rti_sections text = flat_map (section_entry text) Config.RTI_SECTIONS.
Proof.
  unfold detect_rti_sections. rewrite detect_loop_appends; [reflexivity| |].
  - cbn. repeat constructor; simpl; intuition discriminate.
  - reflexivity.
Qed.

Lemma flat_map_keys_subsequence (text : string)
    (entries : list (string * Re.regex)) :
  subsequence (Dict.keys (flat_map (section_entry text) entries))
              (map fst entries).
Proof.
  induction entries as [|e entries IH]; cbn [flat_map map]; [constructor|].
  unfold Dict.keys in *. rewrite map_app.
  destruct (section_entry_keys text e) as [H|H]; unfold Dict.keys in H;
    rewrite H; cbn [app]; constructor; exact IH.
Qed.

Lemma subsequence_In {X} (l1 l2 : list X) (x : X) :
  subsequence l1 l2 -> In x l1 -> In x l2.
Proof.
  induction 1; simpl; intuition.
Qed.

Lemma subsequence_NoDup {X} (l1 l2 : list X) :
  subsequence l1 l2 -> NoDup l2 -> NoDup l1.
Proof.
  induction 1 as [|x l1 l2 Hs IH|x l1 l2 Hs IH]; intros Hnd.
  - constructor.
  - inversion Hnd; auto.
  - inversion Hnd as [|? ? Hx Hl]; subst. constructor; auto.
    intro Hin. apply Hx. eapply subsequence_In; eassumption.
Qed.

Lemma section_entry_mem (text : string) (entry : string * Re.regex)
    (name : string) :
  Dict.mem name (section_entry text entry)
  = String.eqb name (fst entry) && Re.search true (snd entry) text.
Proof.
  unfold section_entry, Re.search.
  destruct (Re.finditer true (snd entry) text); cbn.
  - rewrite andb_false_r. reflexivity.
  - rewrite orb_false_r, andb_true_r. reflexivity.
Qed.

Lemma flat_map_mem (text : string) (entries : list (string * Re.regex))
    (name : string) (pattern : Re.regex) :
  NoDup (map fst entries) ->
  In (name, pattern) entries ->
  Dict.mem name (flat_map (section_entry text) entries)
  = Re.search true pattern text.
Proof.
  induction entries as [|e entries IH]; intros Hnd Hin; [destruct Hin|].
  inversion Hnd as [|? ? Hfresh Hnd']; subst.
  cbn [flat_map]. rewrite dict_mem_app, section_entry_mem.
  destruct Hin as [->|Hin].
  - cbn [fst snd]. rewrite String.eqb_refl. cbn [andb].
    destruct (Dict.mem name (flat_map (section_entry text) entries)) eqn:E;
      [|apply orb_false_r].
    exfalso. apply Hfresh. apply dict_mem_keys in E.
    eapply subsequence_In; [apply flat_map_keys_subsequence|exact E].
  - destruct (String.eqb name (fst e)) eqn:E.
    + exfalso. apply String.eqb_eq in E. apply Hfresh. rewrite <- E.
      apply (in_map fst) in Hin. exact Hin.
    + cbn [andb orb]. apply IH; assumption.
Qed.

(** X5.  The result of [detect_rti_sections] is a sparse map over the five
    section identifiers: its keys are distinct and appear in configuration
    order, a section is a key exactly when its pattern matches somewhere in
    the text, no key has an empty excerpt list, and the excerpts of a key
    are one per match of its pattern. *)
Theorem detect_rti_sections_sparse (text : string) :
  section_ids
  = ["section_8"; "section_9"; "section_11"; "section_19"; "section_7"]
  /\ subsequence (Dict.keys (detect_rti_sections text)) section_ids
  /\ NoDup (Dict.keys (detect_rti_sections text))
  /\ Forall (fun entry => snd entry <> []) (detect_rti_sections text)
  /\ (forall name pattern,
        In (name, pattern) Config.RTI_SECTIONS ->
        Dict.mem name (detect_rti_sections text)
        = Re.search true pattern text)
  /\ (forall name excerpts,
        In (name, excerpts) (detect_rti_sections text) ->
        exists pattern,
          In (name, pattern) Config.RTI_SECTIONS
          /\ excerpts = map (excerpt_of text) (Re.finditer true pattern text)).
Proof.
  rewrite detect_rti_sections_flat.
  split; [reflexivity|].
  assert (Hsub : subsequence
                   (Dict.keys (flat_map (section_entry text)
                                        Config.RTI_SECTIONS))
                   section_ids) by apply flat_map_keys_subsequence.
  split; [exact Hsub|]. split.
  { apply (subsequence_NoDup _ _ Hsub).
    cbn. repeat constructor; simpl; intuition discriminate. }
  split.
  { apply Forall_forall. intros [name excerpts] Hin.
    apply in_flat_map in Hin. destruct Hin as [e [_ Hin]].
    unfold section_entry in Hin.
    destruct (map _ _) eqn:E; [destruct Hin|].
    destruct Hin as [Hin|[]]. inversion Hin; subst. discriminate. }
  split.
  { intros name pattern Hin. apply flat_map_mem; [|exact Hin].
    cbn. repeat constructor; simpl; intuition discriminate. }
  { intros name excerpts Hin.
    apply in_flat_map in Hin. destruct Hin as [[n pattern] [He Hin]].
    unfold section_entry in Hin. cbn [fst snd] in Hin.
    destruct (map _ _) eqn:E; [destruct Hin|].
    destruct Hin as [Hin|[]]. inversion Hin; subst.
    exists pattern. split; [exact He|symmetry; exact E]. }
Qed.

(** ** Statistics and the document-level aggregation *)

Lemma ratio_or_zero_value (n total : nat) :
  n <= total ->
  exists q,
    ratio_or_zero n total = Some q
    /\ (0 <= q)%Q /\ (q <= 1)%Q
    /\ (total = 0 -> q = 0%Q)
    /\ (0 < total -> q = (Z.of_nat n # Pos.of_nat total)%Q)
    /\ ((q == 0)%Q <-> n = 0).
Proof.
  intros Hn. unfold ratio_or_zero. destruct total as [|t].
  - exists 0%Q. cbn. repeat split; try easy; try lia.
  - cbn [Nat.ltb Nat.leb py_truediv].
    destruct (ratio_bounds n t Hn) as (H0 & H1 & Hz).
    eexists. split; [reflexivity|]. repeat split; try assumption; try lia.
    + apply Hz. + apply Hz.
Qed.

Lemma get_stats_facts (self : StructuredRTIResponse) :
  exists stats,
    get_stats self = Some stats
    /\ counts_of self stats
    /\ (0 <= informative_ratio stats)%Q /\ (informative_ratio stats <= 1)%Q
    /\ (0 <= denial_ratio stats)%Q /\ (denial_ratio stats <= 1)%Q
    /\ (total_sentences stats = 0 ->
        informative_ratio stats = 0%Q /\ denial_ratio stats = 0%Q)
    /\ ((informative_ratio stats == 0)%Q <-> informative_count stats = 0)
    /\ ((denial_ratio stats == 0)%Q <-> denial_count stats = 0).
Proof.
  unfold get_stats.
  set (ni := List.length (informative_sentences self)).
  set (nd := List.length (denial_sentences self)).
  set (total := ni + nd + List.length (procedural_sentences self)
                + List.length (evasive_sentences self)
                + List.length (neutral_sentences self)).
  assert (Hi : ni <= total) by (unfold total; lia).
  assert (Hd : nd <= total) by (unfold total; lia).
  destruct (ratio_or_zero_value ni total Hi)
    as (ir & Eir & Hi0 & Hi1 & Hiz & Hiv & Hie).
  destruct (ratio_or_zero_value nd total Hd)
    as (dr & Edr & Hd0 & Hd1 & Hdz & Hdv & Hde).
  rewrite Eir, Edr. cbn [Err.bind Err.ret]. eexists. split; [reflexivity|].
  cbn [informative_ratio denial_ratio total_sentences informative_count
       denial_count].
  split; [unfold counts_of; cbn; repeat split; reflexivity|].
  repeat split; try assumption; try (apply Hie); try (apply Hde).
  - apply Hiz. assumption.
  - apply Hdz. assumption.
Qed.

(** X6.  [get_stats] never divides by zero: it always returns the bucket
    sizes, their sum as total, and two ratios between 0 and 1; both ratios
    are 0 for a response without sentences, and a ratio is 0 exactly when
    its bucket is empty. *)
Theorem get_stats_ratios (self : StructuredRTIResponse) :
  exists stats,
    get_stats self = Some stats
    /\ counts_of self stats
    /\ (0 <= informative_ratio stats)%Q /\ (informative_ratio stats <= 1)%Q
    /\ (0 <= denial_ratio stats)%Q /\ (denial_ratio stats <= 1)%Q
    /\ (total_sentences stats = 0 ->
        informative_ratio stats = 0%Q /\ denial_ratio stats = 0%Q)
    /\ ((informative_ratio stats == 0)%Q <-> informative_count stats = 0)
    /\ ((denial_ratio stats == 0)%Q <-> denial_count stats = 0).
Proof.
  destruct (get_stats_facts self) as [stats H].
  exists stats. exact H.
Qed.

Lemma add_classified_buckets (r : StructuredRTIResponse)
    (c : ClassifiedSentence) :
  original_text (add_classified r c) = original_text r
  /\ document_sections (add_classified r c) = document_sections r
  /\ informative_sentences (add_classified r c)
     = informative_sentences r ++ filter (in_category INFORMATIVE) [c]
  /\ denial_sentences (add_classified r c)
     = denial_sentences r ++ filter (in_category DENIAL) [c]
  /\ procedural_sentences (add_classified r c)
     = procedural_sentences r ++ filter (in_category PROCEDURAL) [c]
  /\ evasive_sentences (add_classified r c)
     = evasive_sentences r ++ filter (in_category EVASIVE) [c]
  /\ neutral_sentences (add_classified r c)
     = neutral_sentences r ++ filter (in_category NEUTRAL) [c].
Proof.
  unfold add_classified, in_category. cbn [filter].
  destruct (category c); cbn; rewrite ?app_nil_r; repeat split; reflexivity.
Qed.

Lemma classify_all_buckets (sentences : list string)
    (r0 : StructuredRTIResponse) :
  exists r cs,
    classify_all r0 sentences = Some r
    /\ Forall2 (fun s c => classify_sentence s = Some c) sentences cs
    /\ original_text r = original_text r0
    /\ document_sections r = document_sections r0
    /\ informative_sentences r
       = informative_sentences r0 ++ filter (in_category INFORMATIVE) cs
    /\ denial_sentences r
       = denial_sentences r0 ++ filter (in_category DENIAL) cs
    /\ procedural_sentences r
       = procedural_sentences r0 ++ filter (in_category PROCEDURAL) cs
    /\ evasive_sentences r
       = evasive_sentences r0 ++ filter (in_category EVASIVE) cs
    /\ neutral_sentences r
       = neutral_sentences r0 ++ filter (in_category NEUTRAL) cs.
Proof.
  revert r0. induction sentences as [|s sentences IH]; intros r0.
  - exists r0, []. cbn. rewrite !app_nil_r. repeat split; constructor.
  - destruct (classify_sentence_with_total Config.DENIAL_KEYWORDS
                Config.INFORMATIVE_KEYWORDS Config.PROCEDURAL_KEYWORDS
                Config.EVASIVE_KEYWORDS s) as [c Hc].
    fold classify_sentence in Hc.
    destruct (IH (add_classified r0 c))
      as (r & cs & Hr & Hcs & Ho & Hs & Hi & Hd & Hp & He & Hn).
    destruct (add_classified_buckets r0 c)
      as (Ho' & Hs' & Hi' & Hd' & Hp' & He' & Hn').
    exists r, (c :: cs). cbn [classify_all]. rewrite Hc. cbn [Err.bind].
    split; [exact Hr|]. split; [constructor; assumption|].
    rewrite Ho, Hs, Hi, Hd, Hp, He, Hn, Ho', Hs', Hi', Hd', Hp', He', Hn'.
    rewrite <- !app_assoc, <- !filter_app. repeat split; reflexivity.
Qed.

Lemma buckets_cover (cs : list ClassifiedSentence) :
  List.length (filter (in_category INFORMATIVE) cs)
  + List.length (filter (in_category DENIAL) cs)
  + List.length (filter (in_category PROCEDURAL) cs)
  + List.length (filter (in_category EVASIVE) cs)
  + List.length (filter (in_category NEUTRAL) cs)
  = List.length cs.
Proof.
  induction cs as [|c cs IH]; [reflexivity|].
  unfold in_category in *. cbn [filter].
  destruct (category c); cbn [SentenceCategory_eqb List.length]; lia.
Qed.

Lemma classified_texts (sentences : list string)
    (cs : list ClassifiedSentence) :
  Forall stripped sentences ->
  Forall2 (fun s c => classify_sentence s = Some c) sentences cs ->
  Forall2 (fun s c => classify_sentence s = Some c /\ RtiSemantic.text c = s)
          sentences cs.
Proof.
  intros Htrim Hcs. induction Hcs as [|s c l l' Hsc Hl IH]; constructor.
  - split; [exact Hsc|]. inversion Htrim as [|? ? Hs' _]; subst.
    rewrite (classify_sentence_keeps_text s c Hsc). exact Hs'.
  - apply IH. inversion Htrim; assumption.
Qed.

(** X7.  [extract_structured_response] always returns a response.  With
    the sentences of the segmenter classified one by one, in order, each
    bucket is the sub-list of the results of its category, so every
    sentence lands in exactly one bucket, in document order and with its
    own text; the total of [get_stats] is the number of sentences; the
    document-level references are those of [detect_rti_sections] on the
    whole text. *)
Theorem extract_structured_response_partition (text : string) :
  exists r cs stats,
    extract_structured_response text = Some r
    /\ Forall2 (fun s c => classify_sentence s = Some c
                           /\ RtiSemantic.text c = s)
               (RtiSemantic.split_into_sentences text) cs
    /\ original_text r = text
    /\ document_sections r = detect_rti_sections text
    /\ informative_sentences r = filter (in_category INFORMATIVE) cs
    /\ denial_sentences r = filter (in_category DENIAL) cs
    /\ procedural_sentences r = filter (in_category PROCEDURAL) cs
    /\ evasive_sentences r = filter (in_category EVASIVE) cs
    /\ neutral_sentences r = filter (in_category NEUTRAL) cs
    /\ get_stats r = Some stats
    /\ total_sentences stats
       = List.length (RtiSemantic.split_into_sentences text).
Proof.
  unfold extract_structured_response.
  match goal with |- context [classify_all ?r0 ?l] =>
    destruct (classify_all_buckets l r0)
      as (r & cs & Hr & Hcs & Ho & Hs & Hi & Hd & Hp & He & Hn) end.
  cbn [original_text document_sections informative_sentences
       denial_sentences procedural_sentences evasive_sentences
       neutral_sentences app] in Ho, Hs, Hi, Hd, Hp, He, Hn.
  destruct (get_stats_total r) as [stats [Hst Hc]].
  exists r, cs, stats. split; [exact Hr|]. split.
  { apply classified_texts; [|exact Hcs].
    eapply Forall_impl; [|apply (trimmed_filter_map 10)].
    intros s [Hs' _]. exact Hs'. }
  repeat (split; [assumption|]).
  destruct Hc as (Hci & Hcd & Hcp & Hce & Hcn & Hct).
  rewrite Hct, Hci, Hcd, Hcp, Hce, Hcn, Hi, Hd, Hp, He, Hn, buckets_cover.
  symmetry. eapply Forall2_length. exact Hcs.
Qed.

(** ** More on fact anchors *)

(** The sorted entries of a text: the list the selection works on. *)
Lemma sorted_entries_facts (sentences : list string) :
  let scored := sort_by_score_desc (map score_sentence sentences) in
  Permutation (map sentence scored) sentences
  /\ Forall well_scored scored
  /\ StronglySorted (fun a b => (score b <= score a)%Q) scored
  /\ List.length scored = List.length sentences.
Proof.
  intros scored. split; [|split; [|split]].
  - apply perm_trans with (map sentence (map score_sentence sentences)).
    + apply Permutation_map. apply sort_perm.
    + rewrite map_sentence_score_sentence. apply Permutation_refl.
  - apply sorted_well_scored.
  - apply sorted_by_score.
  - unfold scored, sort_by_score_desc.
    rewrite (Permutation_length
               (sort_perm (fun y x => Qgtb (score y) (score x))
                          (map score_sentence sentences))).
    apply length_map.
Qed.

Lemma firstn_incl_all {X} (k : nat) (l : list X) : incl (firstn k l) l.
Proof.
  revert l. induction k as [|k IH]; intros [|y l] x Hx; cbn in *; try tauto.
  destruct Hx as [->|Hx]; [left; reflexivity|right; apply IH; exact Hx].
Qed.

Lemma slice_to_incl {X} (n : Z) (l : list X) : incl (PyList.slice_to n l) l.
Proof.
  unfold PyList.slice_to. destruct (0 <=? n)%Z; apply firstn_incl_all.
Qed.

Lemma truthy_map {X Y} (f : X -> Y) (l : list X) :
  PyList.truthy (map f l) = PyList.truthy l.
Proof. destruct l; reflexivity. Qed.

(** X8.  Every fact anchor is one of the sentences of the fact-anchor
    segmenter, and the anchor list is empty only when the text has no such
    sentence: the fallback returns something whenever there is a sentence,
    whatever the requested count. *)
Theorem extract_fact_anchors_from_text (text : string) (top_n : Z) :
  incl (extract_fact_anchors text top_n)
       (FactExtractor.split_into_sentences text)
  /\ (extract_fact_anchors text top_n = []
      <-> FactExtractor.split_into_sentences text = []).
Proof.
  unfold extract_fact_anchors.
  destruct (FactExtractor.split_into_sentences text) as [|s0 sentences] eqn:Es.
  - cbn. split; [apply incl_refl|tauto].
  - cbn [PyList.truthy negb].
    destruct (sorted_entries_facts (s0 :: sentences)) as (Hp & _ & _ & Hl).
    set (scored := sort_by_score_desc (map score_sentence (s0 :: sentences)))
      in *.
    assert (Hincl : forall l, incl l scored ->
                              incl (map sentence l) (s0 :: sentences)).
    { intros l Hl' x Hx. apply in_map_iff in Hx. destruct Hx as [it [<- Hit]].
      apply (Permutation_in _ Hp). apply in_map. apply Hl'. exact Hit. }
    destruct scored as [|h t] eqn:Esc; [discriminate Hl|].
    rewrite truthy_map. cbn [PyList.truthy andb].
    destruct (filter _ (PyList.slice_to top_n (h :: t))) as [|a kept] eqn:Ef.
    + cbn [PyList.truthy negb andb]. split.
      * apply Hincl. apply slice_to_incl.
      * split; discriminate.
    + cbn [PyList.truthy negb andb]. split.
      * apply Hincl. intros x Hx. rewrite <- Ef in Hx.
        apply filter_In in Hx. eapply slice_to_incl. apply Hx.
      * split; discriminate.
Qed.

Lemma sorted_head_max (h : Scored) (t : list Scored) (sentences : list string) :
  Permutation (map sentence (h :: t)) sentences ->
  Forall well_scored (h :: t) ->
  StronglySorted (fun a b => (score b <= score a)%Q) (h :: t) ->
  Forall (fun s => (fact_density s <= fact_density (sentence h))%Q) sentences.
Proof.
  intros Hp Hw Hs. apply Forall_forall. intros s Hin.
  apply (Permutation_in _ (Permutation_sym Hp)) in Hin.
  apply in_map_iff in Hin. destruct Hin as [it [<- Hit]].
  rewrite Forall_forall in Hw.
  rewrite <- (Hw it Hit), <- (Hw h (or_introl eq_refl)).
  destruct Hit as [->|Hit]; [apply Qle_refl|].
  inversion Hs as [|? ? _ Hall]; subst. rewrite Forall_forall in Hall. auto.
Qed.

Lemma filter_below_head (min_score : Q) (h : Scored) (t : list Scored) :
  StronglySorted (fun a b => (score b <= score a)%Q) (h :: t) ->
  Qgeb (score h) min_score = false ->
  filter (fun item => Qgeb (score item) min_score) (h :: t) = [].
Proof.
  intros Hs Hh. inversion Hs as [|? ? _ Hall]; subst.
  cbn [filter]. rewrite Hh.
  induction t as [|x t IH]; [reflexivity|].
  inversion Hall as [|? ? Hx Ht]; subst. cbn [filter].
  destruct (Qgeb (score x) min_score) eqn:Ex.
  - exfalso. unfold Qgeb in *. apply Qle_bool_iff in Ex.
    assert (Hle : Qle_bool min_score (score h) = true).
    { apply Qle_bool_iff. eapply Qle_trans; eassumption. }
    congruence.
  - apply IH; [|exact Ht].
    constructor; [|exact Ht].
    inversion Hs as [|? ? Hst _]; subst. inversion Hst; assumption.
Qed.

Lemma slice_to_head {X} (n : Z) (h : X) (t : list X) :
  PyList.slice_to n (h :: t) = [] \/
  exists t', PyList.slice_to n (h :: t) = h :: t'.
Proof.
  unfold PyList.slice_to.
  destruct (0 <=? n)%Z;
    match goal with |- context [firstn ?k _] => destruct k end;
    cbn [firstn]; eauto.
Qed.

(** X9.  When anchors are returned, the first one has the highest
    fact-density score of all the sentences of the text, for every
    requested count. *)
Theorem extract_fact_anchors_head_is_best (text : string) (top_n : Z) :
  match extract_fact_anchors text top_n with
  | [] => FactExtractor.split_into_sentences text = []
  | best :: _ =>
      Forall (fun s => (fact_density s <= fact_density best)%Q)
             (FactExtractor.split_into_sentences text)
  end.
Proof.
  unfold extract_fact_anchors.
  destruct (FactExtractor.split_into_sentences text) as [|s0 sentences] eqn:Es.
  - reflexivity.
  - cbn [PyList.truthy negb].
    destruct (sorted_entries_facts (s0 :: sentences)) as (Hp & Hw & Hs & Hl).
    set (scored := sort_by_score_desc (map score_sentence (s0 :: sentences)))
      in *.
    destruct scored as [|h t] eqn:Esc; [discriminate Hl|].
    pose proof (sorted_head_max h t _ Hp Hw Hs) as Hmax.
    rewrite truthy_map. cbn [PyList.truthy andb].
    destruct (filter _ (PyList.slice_to top_n (h :: t))) as [|a kept] eqn:Ef.
    + cbn [PyList.truthy negb andb]. exact Hmax.
    + cbn [PyList.truthy negb andb map].
      destruct (slice_to_head top_n h t) as [E|[t' E]];
        rewrite E in Ef; [discriminate Ef|].
      destruct (Qgeb (score h) 1.0) eqn:Eh.
      * cbn [filter] in Ef. rewrite Eh in Ef. inversion Ef; subst. exact Hmax.
      * pose proof (StronglySorted_slice_to _ top_n _ Hs) as Hss.
        rewrite E in Hss.
        rewrite (filter_below_head 1.0 h t' Hss Eh) in Ef. discriminate Ef.
Qed.


Lemma entry_density (scored : list Scored) (item : Scored) :
  Forall well_scored scored -> In item scored ->
  score item = fact_density (sentence item).
Proof.
  intros Hw Hin. rewrite Forall_forall in Hw. apply Hw. exact Hin.
Qed.

(** X10.  If at least one sentence of the text reaches the threshold 1.0
    and at least one anchor is requested, then every returned anchor
    reaches the threshold: the fallback is not used. *)
Theorem extract_fact_anchors_above_threshold (text : string) (top_n : Z) :
  (1 <= top_n)%Z ->
  Exists (fun s => (1.0 <= fact_density s)%Q)
         (FactExtractor.split_into_sentences text) ->
  Forall (fun a => (1.0 <= fact_density a)%Q)
         (extract_fact_anchors text top_n).
Proof.
  intros Hn Hex. unfold extract_fact_anchors.
  destruct (FactExtractor.split_into_sentences text) as [|s0 sentences] eqn:Es.
  - constructor.
  - cbn [PyList.truthy negb].
    destruct (sorted_entries_facts (s0 :: sentences)) as (Hp & Hw & Hs & Hl).
    set (scored := sort_by_score_desc (map score_sentence (s0 :: sentences)))
      in *.
    destruct scored as [|h t] eqn:Esc; [discriminate Hl|].
    pose proof (sorted_head_max h t _ Hp Hw Hs) as Hmax.
    assert (Hh : Qgeb (score h) 1.0 = true).
    { apply Exists_exists in Hex. destruct Hex as [s [Hin Hs1]].
      rewrite Forall_forall in Hmax. specialize (Hmax s Hin).
      unfold Qgeb. apply Qle_bool_iff.
      rewrite (entry_density (h :: t) h Hw (or_introl eq_refl)).
      eapply Qle_trans; eassumption. }
    assert (Hslice : exists t', PyList.slice_to top_n (h :: t) = h :: t').
    { unfold PyList.slice_to. replace (0 <=? top_n)%Z with true
        by (symmetry; apply Z.leb_le; lia).
      destruct (Z.to_nat top_n) as [|k] eqn:Ek; [lia|].
      cbn [firstn]. eauto. }
    destruct Hslice as [t' Et'].
    assert (Hin : incl (h :: t') (h :: t)).
    { rewrite <- Et'. apply slice_to_incl. }
    rewrite Et'. cbn [filter]. rewrite Hh.
    cbn [map PyList.truthy negb andb].
    constructor.
    + rewrite <- (entry_density (h :: t) h Hw (or_introl eq_refl)).
      apply Qle_bool_iff. exact Hh.
    + apply Forall_forall. intros a Ha.
      apply in_map_iff in Ha. destruct Ha as [it [<- Hit]].
      apply filter_In in Hit. destruct Hit as [Hit Hsc].
      rewrite <- (entry_density (h :: t) it Hw).
      * apply Qle_bool_iff. exact Hsc.
      * apply Hin. right. exact Hit.
Qed.

Lemma extract_fact_anchors_above_threshold_witness :
  (1 <= 5)%Z
  /\ Exists (fun s => (1.0 <= fact_density s)%Q)
            (FactExtractor.split_into_sentences repeated_document)
  /\ Forall (fun a => (1.0 <= fact_density a)%Q)
            (extract_fact_anchors repeated_document 5).
Proof.
  assert (H : Exists (fun s => (1.0 <= fact_density s)%Q)
                     (FactExtractor.split_into_sentences repeated_document)).
  { apply Exists_exists.
    exists "The amount of Rs. 500 was credited.". split.
    - vm_compute. left. reflexivity.
    - vm_compute. discriminate. }
  split; [lia|]. split; [exact H|].
  apply (extract_fact_anchors_above_threshold repeated_document 5);
    [lia|exact H].
Defined.

Lemma filter_none {X} (p : X -> bool) (l : list X) :
  (forall x, In x l -> p x = false) -> filter p l = [].
Proof.
  induction l as [|x l IH]; intros H; [reflexivity|].
  cbn [filter]. rewrite (H x (or_introl eq_refl)).
  apply IH. intros y Hy. apply H. right. exact Hy.
Qed.

(** X11.  If no sentence of the text reaches the threshold 1.0, the
    requested count plays no part: the result is the fallback, the best
    sentence and the runner-up (one sentence if the text has only one). *)
Theorem extract_fact_anchors_fallback (text : string) (top_n : Z) :
  Forall (fun s => (fact_density s < 1.0)%Q)
         (FactExtractor.split_into_sentences text) ->
  extract_fact_anchors text top_n = extract_fact_anchors text 2
  /\ List.length (extract_fact_anchors text top_n)
     = Nat.min 2 (List.length (FactExtractor.split_into_sentences text)).
Proof.
  intros Hlow.
  assert (Hgen : forall n,
             extract_fact_anchors text n
             = map sentence
                   (firstn 2 (sort_by_score_desc
                                (map score_sentence
                                   (FactExtractor.split_into_sentences text))))).
  { intros n. unfold extract_fact_anchors.
    destruct (FactExtractor.split_into_sentences text) as [|s0 sentences] eqn:Es;
      [reflexivity|].
    cbn [PyList.truthy negb].
    destruct (sorted_entries_facts (s0 :: sentences)) as (Hp & Hw & Hs & Hl).
    set (scored := sort_by_score_desc (map score_sentence (s0 :: sentences)))
      in *.
    assert (Hnone : filter (fun item => Qgeb (score item) 1.0)
                           (PyList.slice_to n scored) = []).
    { apply filter_none. intros it Hit.
      apply slice_to_incl in Hit.
      rewrite (entry_density scored it Hw Hit).
      assert (Hin : In (sentence it) (s0 :: sentences)).
      { apply (Permutation_in _ Hp). apply in_map. exact Hit. }
      rewrite Forall_forall in Hlow. specialize (Hlow _ Hin).
      unfold Qgeb. destruct (Qle_bool 1.0 (fact_density (sentence it))) eqn:E;
        [|reflexivity].
      apply Qle_bool_iff in E. exfalso. exact (Qlt_not_le _ _ Hlow E). }
    rewrite Hnone. cbn [map PyList.truthy negb andb].
    destruct scored as [|h t]; [discriminate Hl|]. reflexivity. }
  split.
  - rewrite (Hgen top_n), (Hgen 2%Z). reflexivity.
  - rewrite (Hgen top_n), length_map, length_firstn.
    destruct (sorted_entries_facts (FactExtractor.split_into_sentences text))
      as (_ & _ & _ & Hl).
    cbv zeta in Hl. rewrite Hl. reflexivity.
Qed.

Lemma extract_fact_anchors_fallback_witness :
  Forall (fun s => (fact_density s < 1.0)%Q)
         (FactExtractor.split_into_sentences plain_document)
  /\ extract_fact_anchors plain_document 7 = extract_fact_anchors plain_document 2
  /\ List.length (extract_fact_anchors plain_document 7)
     = Nat.min 2 (List.length (FactExtractor.split_into_sentences
                                 plain_document)).
Proof.
  assert (H : Forall (fun s => (fact_density s < 1.0)%Q)
                     (FactExtractor.split_into_sentences plain_document)).
  { assert (E : FactExtractor.split_into_sentences plain_document
                = ["The sky was very blue today.";
                   "The grass was very green today."])
      by (vm_compute; reflexivity).
    rewrite E. repeat constructor; vm_compute; reflexivity. }
  split; [exact H|].
  apply (extract_fact_anchors_fallback plain_document 7). exact H.
Defined.

(** X12.  For a non-negative count, [extract_fact_anchors_with_scores]
    returns at most [top_n] entries, best score first; every entry is a
    sentence of the text with its own score.  [extract_fact_anchors]
    returns the sentences of those entries that reach 1.0, or, when there
    is none, the sentences of the two best entries. *)
Theorem extract_fact_anchors_with_scores_facts (text : string) (top_n : Z) :
  (0 <= top_n)%Z ->
  (Z.of_nat (List.length (extract_fact_anchors_with_scores text top_n))
   <= top_n)%Z
  /\ StronglySorted (fun a b => (score b <= score a)%Q)
                    (extract_fact_anchors_with_scores text top_n)
  /\ Forall (fun item =>
               In (sentence item) (FactExtractor.split_into_sentences text)
               /\ score item = fact_density (sentence item))
            (extract_fact_anchors_with_scores text top_n)
  /\ extract_fact_anchors text top_n
     = match filter (fun item => Qgeb (score item) 1.0)
                    (extract_fact_anchors_with_scores text top_n) with
       | [] => map sentence (extract_fact_anchors_with_scores text 2)
       | kept => map sentence kept
       end.
Proof.
  intros Hn.
  unfold extract_fact_anchors_with_scores, extract_fact_anchors.
  destruct (FactExtractor.split_into_sentences text) as [|s0 sentences] eqn:Es.
  - cbn. repeat split; try constructor. exact Hn.
  - cbn [PyList.truthy negb].
    destruct (sorted_entries_facts (s0 :: sentences)) as (Hp & Hw & Hs & Hl).
    set (scored := sort_by_score_desc (map score_sentence (s0 :: sentences)))
      in *.
    split; [|split; [|split]].
    + unfold PyList.slice_to.
      replace (0 <=? top_n)%Z with true by (symmetry; apply Z.leb_le; lia).
      pose proof (firstn_le_length (Z.to_nat top_n) scored). lia.
    + apply StronglySorted_slice_to. exact Hs.
    + apply Forall_forall. intros it Hit. apply slice_to_incl in Hit. split.
      * apply (Permutation_in _ Hp). apply in_map. exact Hit.
      * apply (entry_density scored it Hw Hit).
    + rewrite truthy_map.
      destruct (filter _ (PyList.slice_to top_n scored)) as [|a kept];
        cbn [PyList.truthy negb andb]; [|reflexivity].
      destruct scored; [discriminate Hl|]. reflexivity.
Qed.

Lemma extract_fact_anchors_with_scores_facts_witness :
  (0 <= 1)%Z
  /\ (Z.of_nat (List.length
                  (extract_fact_anchors_with_scores repeated_document 1))
      <= 1)%Z
  /\ StronglySorted (fun a b => (score b <= score a)%Q)
                    (extract_fact_anchors_with_scores repeated_document 1)
  /\ Forall (fun item =>
               In (sentence item)
                  (FactExtractor.split_into_sentences repeated_document)
               /\ score item = fact_density (sentence item))
            (extract_fact_anchors_with_scores repeated_document 1)
  /\ extract_fact_anchors repeated_document 1
     = match filter (fun item => Qgeb (score item) 1.0)
                    (extract_fact_anchors_with_scores repeated_document 1)
       with
       | [] => map sentence
                   (extract_fact_anchors_with_scores repeated_document 2)
       | kept => map sentence kept
       end.
Proof.
  split; [lia|].
  apply (extract_fact_anchors_with_scores_facts repeated_document 1). lia.
Defined.

(** ** The closed form of the fact-density score *)

Lemma of_len_cons {X} (x : X) (l : list X) :
  (of_len (x :: l) == 1 + of_len l)%Q.
Proof.
  unfold of_len. cbn [List.length]. rewrite Nat2Z.inj_succ.
  unfold Z.succ. rewrite inject_Z_plus. ring.
Qed.

Lemma of_len_app {X} (l1 l2 : list X) :
  (of_len (l1 ++ l2) == of_len l1 + of_len l2)%Q.
Proof.
  induction l1 as [|x l1 IH]; cbn [app].
  - unfold of_len at 2. cbn. ring.
  - rewrite !of_len_cons, IH. ring.
Qed.

Lemma of_len_nonneg {X} (l : list X) : (0 <= of_len l)%Q.
Proof.
  unfold of_len, Qle. cbn. lia.
Qed.

Lemma score_keywords_fold (weight : Q) (keywords : list string)
    (sentence_lower : string) (score0 : Q) (found0 : list string) :
  exists score1,
    fold_left
      (fun acc keyword =>
         let '(score, found) := acc in
         if PyStr.contains keyword sentence_lower
         then ((score + weight)%Q, found ++ [keyword])
         else acc)
      keywords (score0, found0)
    = (score1,
       found0 ++ filter (fun k => PyStr.contains k sentence_lower) keywords)
    /\ (score1
        == score0
           + weight * of_len (filter (fun k => PyStr.contains k sentence_lower)
                                     keywords))%Q.
Proof.
  revert score0 found0.
  induction keywords as [|k keywords IH]; intros score0 found0.
  - exists score0. cbn. rewrite app_nil_r. split; [reflexivity|].
    unfold of_len. cbn. ring.
  - cbn [fold_left filter]. destruct (PyStr.contains k sentence_lower).
    + destruct (IH (score0 + weight)%Q (found0 ++ [k])) as [s1 [E H]].
      exists s1. rewrite E, <- app_assoc. split; [reflexivity|].
      rewrite H, of_len_cons. ring.
    + apply IH.
Qed.

Lemma score_patterns_fold (weight : Q) (patterns : list Re.regex)
    (sentence : string) (score0 : Q) (found0 : list string) :
  exists score1,
    fold_left
      (fun acc pattern =>
         let '(score, found) := acc in
         let matches := Re.findall true pattern sentence in
         if PyList.truthy matches
         then ((score + weight * of_len matches)%Q, found ++ matches)
         else acc)
      patterns (score0, found0)
    = (score1,
       found0 ++ flat_map (fun p => Re.findall true p sentence) patterns)
    /\ (score1
        == score0
           + weight * of_len (flat_map (fun p => Re.findall true p sentence)
                                       patterns))%Q.
Proof.
  revert score0 found0.
  induction patterns as [|p patterns IH]; intros score0 found0.
  - exists score0. cbn. rewrite app_nil_r. split; [reflexivity|].
    unfold of_len. cbn. ring.
  - cbn [fold_left flat_map].
    destruct (Re.findall true p sentence) as [|m matches] eqn:Em.
    + cbn [PyList.truthy app]. apply IH.
    + cbn [PyList.truthy].
      destruct (IH (score0 + weight * of_len (m :: matches))%Q
                   (found0 ++ m :: matches)) as [s1 [E H]].
      exists s1. split; [rewrite <- app_assoc in E; exact E|].
      rewrite H, of_len_app. ring.
Qed.

Lemma Qadd_nonneg (a b : Q) : (0 <= a)%Q -> (0 <= b)%Q -> (0 <= a + b)%Q.
Proof.
  intros Ha Hb. apply (Qplus_le_compat 0 a 0 b); assumption.
Qed.

Ltac q_nonneg :=
  repeat first [ assumption
               | apply Qadd_nonneg
               | apply Qmult_le_0_compat
               | discriminate ].

Lemma score_keywords_value (weight : Q) (keywords : list string)
    (sentence_lower : string) (score0 : Q) :
  exists score1,
    score_keywords weight keywords sentence_lower score0
    = (score1, filter (fun k => PyStr.contains k sentence_lower) keywords)
    /\ (score1
        == score0
           + weight * of_len (filter (fun k => PyStr.contains k sentence_lower)
                                     keywords))%Q.
Proof.
  exact (score_keywords_fold weight keywords sentence_lower score0 []).
Qed.

Lemma score_patterns_value (weight : Q) (patterns : list Re.regex)
    (sentence : string) (score0 : Q) :
  exists score1,
    score_patterns weight patterns sentence score0
    = (score1, flat_map (fun p => Re.findall true p sentence) patterns)
    /\ (score1
        == score0
           + weight * of_len (flat_map (fun p => Re.findall true p sentence)
                                       patterns))%Q.
Proof.
  exact (score_patterns_fold weight patterns sentence score0 []).
Qed.

(** X13.  The details returned by [calculate_sentence_score] list the
    action, denial and authority keywords found in the lower-cased
    sentence and every match of the amount and date patterns; the score is
    2 per action, 2.5 per denial, 3 per amount, 2.5 per date and 1 per
    authority, plus the length bonus, the whole halved for sentences under
    five words; it is never negative. *)
Theorem calculate_sentence_score_formula (sentence : string) :
  let d := snd (calculate_sentence_score sentence) in
  let words := PyStr.word_count sentence in
  actions d
  = filter (fun k => PyStr.contains k (PyStr.lower sentence))
           FACT_KEYWORDS_actions
  /\ denials d
     = filter (fun k => PyStr.contains k (PyStr.lower sentence))
              FACT_KEYWORDS_denials
  /\ amounts d
     = flat_map (fun p => Re.findall true p sentence) FACT_KEYWORDS_amounts
  /\ dates d
     = flat_map (fun p => Re.findall true p sentence) FACT_KEYWORDS_dates
  /\ authorities d
     = filter (fun k => PyStr.contains k (PyStr.lower sentence))
              FACT_KEYWORDS_authorities
  /\ (fact_density sentence
      == (2 * of_len (actions d) + 2.5 * of_len (denials d)
          + 3 * of_len (amounts d) + 2.5 * of_len (dates d)
          + of_len (authorities d) + length_bonus words)
         * short_factor words)%Q
  /\ (0 <= fact_density sentence)%Q.
Proof.
  unfold fact_density, calculate_sentence_score.
  destruct (score_keywords_value 2.0 FACT_KEYWORDS_actions
              (PyStr.lower sentence) 0.0) as [s1 [E1 H1]].
  rewrite E1.
  destruct (score_keywords_value 2.5 FACT_KEYWORDS_denials
              (PyStr.lower sentence) s1) as [s2 [E2 H2]].
  rewrite E2.
  destruct (score_patterns_value 3.0 FACT_KEYWORDS_amounts sentence s2)
    as [s3 [E3 H3]].
  rewrite E3.
  destruct (score_patterns_value 2.5 FACT_KEYWORDS_dates sentence s3)
    as [s4 [E4 H4]].
  rewrite E4.
  destruct (score_keywords_value 1.0 FACT_KEYWORDS_authorities
              (PyStr.lower sentence) s4) as [s5 [E5 H5]].
  rewrite E5.
  cbn [app fst snd actions denials amounts dates authorities].
  set (fa := filter _ FACT_KEYWORDS_actions) in *.
  set (fd := filter _ FACT_KEYWORDS_denials) in *.
  set (fm := flat_map _ FACT_KEYWORDS_amounts) in *.
  set (ft := flat_map _ FACT_KEYWORDS_dates) in *.
  set (fu := filter _ FACT_KEYWORDS_authorities) in *.
  set (words := PyStr.word_count sentence).
  repeat (split; [reflexivity|]).
  assert (Hs5 : (s5 == 2 * of_len fa + 2.5 * of_len fd + 3 * of_len fm
                       + 2.5 * of_len ft + of_len fu)%Q).
  { rewrite H5, H4, H3, H2, H1. ring. }
  assert (Hs5pos : (0 <= s5)%Q).
  { rewrite Hs5.
    pose proof (of_len_nonneg fa). pose proof (of_len_nonneg fd).
    pose proof (of_len_nonneg fm). pose proof (of_len_nonneg ft).
    pose proof (of_len_nonneg fu).
    q_nonneg. }
  unfold length_bonus, short_factor.
  destruct ((15 <=? words) && (words <=? 50)), (50 <? words),
    (words <? 5); split;
    try (rewrite Hs5; ring); q_nonneg.
Qed.

(** ** How the parts of the action report fit together *)

Lemma get_stats_unique (self : StructuredRTIResponse) (stats : Stats) :
  get_stats self = Some stats ->
  counts_of self stats
  /\ ((denial_ratio stats == 0)%Q <-> denial_count stats = 0)
  /\ ((informative_ratio stats == 0)%Q <-> informative_count stats = 0).
Proof.
  intros H. destruct (get_stats_facts self) as [stats' [H' Hf]].
  rewrite H in H'. inversion H'; subst stats'. tauto.
Qed.

Lemma rule1_needs_denial (self : StructuredRTIResponse) (stats : Stats) :
  get_stats self = Some stats ->
  rule1_fires stats = true -> 0 < denial_count stats.
Proof.
  intros Hs H. destruct (get_stats_unique self stats Hs) as (_ & Hd & _).
  unfold rule1_fires in H. apply orb_true_iff in H. destruct H as [H|H].
  - apply Qgtb_true in H.
    destruct (denial_count stats) eqn:E; [|lia].
    exfalso. assert (Hz : (denial_ratio stats == 0)%Q) by (apply Hd; reflexivity).
    rewrite Hz in H. revert H. apply Qle_not_lt. discriminate.
  - apply Nat.leb_le in H. lia.
Qed.

Lemma rule2_needs_evasive (stats : Stats) :
  rule2_fires stats = true -> 0 < evasive_count stats.
Proof.
  unfold rule2_fires. intros H. apply orb_true_iff in H. destruct H as [H|H].
  - apply Nat.leb_le in H. lia.
  - apply andb_true_iff in H. destruct H as [H _]. apply Nat.ltb_lt in H. lia.
Qed.

Lemma high_priority_fired (structured : StructuredRTIResponse) (stats : Stats)
    (x : ActionSuggestion) :
  In x (sort_by_priority (unsorted_suggestions structured stats)) ->
  priority x = "high" ->
  rule1_fires stats = true \/ rule2_fires stats = true
  \/ rule3_fires structured = true.
Proof.
  intros Hin Hp. apply (proj1 (In_sort_by_priority _ _)) in Hin.
  unfold unsorted_suggestions in Hin. apply (proj1 (In_append_if _ _ _ _)) in Hin.
  rewrite In_fired_suggestions in Hin.
  destruct Hin as [[[H ->]|[[H ->]|[[H ->]|[[H ->]|[[H ->]|[H ->]]]]]]|[H ->]];
    auto; discriminate Hp.
Qed.

(** X14.  Whenever [suggest_next_steps] proposes a high-priority action,
    [check_appeal_eligibility] declares the response eligible for appeal. *)
Theorem high_priority_implies_eligible (structured : StructuredRTIResponse) :
  exists result verdict,
    suggest_next_steps structured = Some result
    /\ check_appeal_eligibility structured = Some verdict
    /\ (Exists (fun s => priority s = "high") result ->
        eligible verdict = true).
Proof.
  destruct (get_stats_total structured) as [stats [Hs Hc]].
  unfold suggest_next_steps, check_appeal_eligibility. rewrite Hs.
  cbn [Err.bind Err.ret]. eexists. eexists.
  split; [reflexivity|]. split; [reflexivity|].
  cbn [eligible]. intros Hex. apply Exists_exists in Hex.
  destruct Hex as [x [Hin Hp]].
  destruct (high_priority_fired structured stats x Hin Hp) as [H|[H|H]].
  - apply (rule1_needs_denial structured stats Hs) in H.
    apply Nat.ltb_lt in H. rewrite H. unfold append_if.
    repeat match goal with |- context [if ?c then _ else _] =>
      destruct c end; rewrite ?length_app; cbn; try reflexivity;
      apply Nat.ltb_lt; lia.
  - apply rule2_needs_evasive in H.
    apply Nat.ltb_lt in H. rewrite H. unfold append_if.
    repeat match goal with |- context [if ?c then _ else _] =>
      destruct c end; rewrite ?length_app; cbn; try reflexivity;
      apply Nat.ltb_lt; lia.
  - unfold rule3_fires in H. rewrite H. unfold append_if.
    repeat match goal with |- context [if ?c then _ else _] =>
      destruct c end; rewrite ?length_app; cbn; try reflexivity;
      apply Nat.ltb_lt; lia.
Qed.

Lemma In_result_unsorted (structured : StructuredRTIResponse) (stats : Stats)
    (x : ActionSuggestion) :
  In x (sort_by_priority (unsorted_suggestions structured stats)) <->
  In x (fired_suggestions structured stats)
  \/ (fired_suggestions structured stats = [] /\ x = review_suggestion).
Proof.
  rewrite In_sort_by_priority. unfold unsorted_suggestions.
  rewrite In_append_if.
  destruct (fired_suggestions structured stats); cbn; intuition congruence.
Qed.

(** X15.  The overall assessment is one of the four labels and agrees with
    the suggestions: UNSATISFACTORY comes with "File First Appeal",
    INADEQUATE with "Request Clarification", and "Response Complete" is
    only suggested when the assessment is SATISFACTORY. *)
Theorem assessment_agrees_with_suggestions
    (structured : StructuredRTIResponse) :
  exists result assessment,
    suggest_next_steps structured = Some result
    /\ _get_overall_assessment structured = Some assessment
    /\ In assessment [SATISFACTORY; UNSATISFACTORY; INADEQUATE; PARTIAL]
    /\ (assessment = UNSATISFACTORY -> In first_appeal_suggestion result)
    /\ (assessment = INADEQUATE -> In clarification_suggestion result)
    /\ (In response_complete_suggestion result ->
        assessment = SATISFACTORY).
Proof.
  destruct (get_stats_total structured) as [stats [Hs Hc]].
  unfold suggest_next_steps, _get_overall_assessment. rewrite Hs.
  cbn [Err.bind Err.ret]. eexists. eexists.
  split; [reflexivity|]. split; [reflexivity|].
  destruct (Qgtb (informative_ratio stats) 0.6) eqn:Ei.
  { split; [left; reflexivity|]. split; [discriminate|].
    split; [discriminate|]. reflexivity. }
  assert (Hnot5 : ~ In response_complete_suggestion
                       (sort_by_priority
                          (unsorted_suggestions structured stats))).
  { rewrite In_result_unsorted, In_fired_suggestions.
    intros [[[_ H]|[[_ H]|[[_ H]|[[_ H]|[[_ H]|[H _]]]]]]|[_ H]];
      try discriminate H.
    unfold rule5_fires in H. rewrite Ei in H. discriminate H. }
  destruct (Qgtb (denial_ratio stats) 0.4) eqn:Ed.
  { split; [right; left; reflexivity|]. split.
    - intros _. apply In_result_unsorted. left.
      apply In_fired_suggestions. left. split; [|reflexivity].
      unfold rule1_fires. apply orb_true_iff. left.
      apply Qgtb_true. apply Qgtb_true in Ed.
      eapply Qlt_trans; [|exact Ed]. reflexivity.
    - split; [discriminate|]. intros H. exfalso. exact (Hnot5 H). }
  destruct (informative_count stats <? evasive_count stats) eqn:Ee.
  { split; [right; right; left; reflexivity|]. split; [discriminate|].
    split.
    - intros _. apply In_result_unsorted. left.
      apply In_fired_suggestions. right. left. split; [|reflexivity].
      unfold rule2_fires. apply Nat.ltb_lt in Ee.
      destruct (2 <=? evasive_count stats) eqn:E2; [reflexivity|].
      apply Nat.leb_gt in E2. cbn [orb]. apply andb_true_iff. split.
      + apply Nat.ltb_lt. lia.
      + apply Nat.eqb_eq. lia.
    - intros H. exfalso. exact (Hnot5 H). }
  split; [right; right; right; left; reflexivity|].
  split; [discriminate|]. split; [discriminate|].
  intros H. exfalso. exact (Hnot5 H).
Qed.

(** X16.  "Response Complete" is only suggested for a response without
    any Denial sentence, and then neither "File First Appeal" nor the
    catch-all "Review Response Carefully" is suggested. *)
Theorem response_complete_excludes_appeal
    (structured : StructuredRTIResponse) :
  exists result,
    suggest_next_steps structured = Some result
    /\ (In response_complete_suggestion result ->
        denial_sentences structured = []
        /\ ~ In first_appeal_suggestion result
        /\ ~ In review_suggestion result).
Proof.
  destruct (get_stats_total structured) as [stats [Hs Hc]].
  unfold suggest_next_steps. rewrite Hs. cbn [Err.bind Err.ret].
  eexists. split; [reflexivity|]. intros Hin.
  assert (Hfired : In response_complete_suggestion
                      (fired_suggestions structured stats)).
  { apply In_result_unsorted in Hin. destruct Hin as [H|[_ H]];
      [exact H|discriminate H]. }
  assert (H5 : rule5_fires stats = true).
  { apply In_fired_suggestions in Hfired.
    destruct Hfired as [[_ H]|[[_ H]|[[_ H]|[[_ H]|[[_ H]|[H _]]]]]];
      try discriminate H. exact H. }
  unfold rule5_fires in H5. apply andb_true_iff in H5.
  destruct H5 as [_ Hd0]. apply Nat.eqb_eq in Hd0.
  split; [|split].
  - destruct Hc as (_ & Hcd & _). rewrite Hd0 in Hcd.
    destruct (denial_sentences structured); [reflexivity|discriminate Hcd].
  - intros H1. apply In_result_unsorted in H1.
    destruct H1 as [H1|[_ H1]]; [|discriminate H1].
    apply In_fired_suggestions in H1.
    destruct H1 as [[H1 _]|[[_ H]|[[_ H]|[[_ H]|[[_ H]|[_ H]]]]]];
      try discriminate H.
    apply (rule1_needs_denial structured stats Hs) in H1. lia.
  - intros Hr. apply In_result_unsorted in Hr.
    destruct Hr as [Hr|[Hr _]].
    + exact (review_not_fired _ _ Hr).
    + rewrite Hr in Hfired. destruct Hfired.
Qed.

Lemma subsequence_app_tail {X} (l1 l2 : list X) (c : bool) (x : X) :
  subsequence l1 l2 -> subsequence (append_if c x l1) (l2 ++ [x]).
Proof.
  intros H. unfold append_if.
  induction H as [|y l1 l2 H IH|y l1 l2 H IH]; cbn [app].
  - destruct c; cbn [app].
    + apply subsequence_keep. apply subsequence_nil.
    + apply subsequence_skip. apply subsequence_nil.
  - destruct c; apply subsequence_skip; exact IH.
  - destruct c; cbn [app] in *; apply subsequence_keep; exact IH.
Qed.

Lemma subsequence_map {X Y} (f : X -> Y) (l1 l2 : list X) :
  subsequence l1 l2 -> subsequence (map f l1) (map f l2).
Proof.
  induction 1; cbn [map]; constructor; assumption.
Qed.

Lemma subsequence_length {X} (l1 l2 : list X) :
  subsequence l1 l2 -> List.length l1 <= List.length l2.
Proof.
  induction 1; cbn [List.length]; lia.
Qed.

(** X17.  [suggest_next_steps] returns between one and six suggestions
    with pairwise distinct titles: no rule contributes twice. *)
Theorem suggest_next_steps_distinct (structured : StructuredRTIResponse) :
  exists result,
    suggest_next_steps structured = Some result
    /\ NoDup (map title result)
    /\ 1 <= List.length result <= 6.
Proof.
  destruct (get_stats_total structured) as [stats [Hs Hc]].
  unfold suggest_next_steps. rewrite Hs. cbn [Err.bind Err.ret].
  eexists. split; [reflexivity|].
  assert (Hsub : subsequence (fired_suggestions structured stats)
                   [first_appeal_suggestion; clarification_suggestion;
                    challenge_exemption_suggestion; pay_fee_suggestion;
                    transferred_suggestion; response_complete_suggestion]).
  { unfold fired_suggestions.
    change [first_appeal_suggestion; clarification_suggestion;
            challenge_exemption_suggestion; pay_fee_suggestion;
            transferred_suggestion; response_complete_suggestion]
      with (((((([] ++ [first_appeal_suggestion])
                ++ [clarification_suggestion])
               ++ [challenge_exemption_suggestion])
              ++ [pay_fee_suggestion])
             ++ [transferred_suggestion])
            ++ [response_complete_suggestion]).
    repeat apply subsequence_app_tail. apply subsequence_nil. }
  assert (Hperm : Permutation
                    (sort_by_priority (unsorted_suggestions structured stats))
                    (unsorted_suggestions structured stats))
    by apply sort_perm.
  assert (Hun : NoDup (map title (unsorted_suggestions structured stats))
                /\ 1 <= List.length (unsorted_suggestions structured stats)
                   <= 6).
  { unfold unsorted_suggestions, append_if.
    destruct (fired_suggestions structured stats) as [|x l] eqn:E;
      cbn [PyList.truthy negb app].
    - split; [repeat constructor; intros []|cbn; lia].
    - split.
      + apply (subsequence_NoDup _ _ (subsequence_map title _ _ Hsub)).
        cbn. repeat constructor; cbn; intuition discriminate.
      + apply subsequence_length in Hsub. cbn in *. lia. }
  destruct Hun as [Hnd Hlen]. split.
  - apply (Permutation_NoDup (l := map title
                                 (unsorted_suggestions structured stats)));
      [|exact Hnd].
    apply Permutation_map. apply Permutation_sym. exact Hperm.
  - rewrite (Permutation_length Hperm). exact Hlen.
Qed.

(** ** Flags and the report of a response without sentences *)

(** X18.  [flag_evasive_responses] raises one medium flag per Evasive
    sentence, followed by one high flag per Denial sentence whose text does
    not contain "section" in any letter case; there are at most as many
    flags as Evasive and Denial sentences, and none exactly when there is
    no Evasive sentence and every Denial sentence mentions a section. *)
Theorem flag_evasive_responses_count (structured : StructuredRTIResponse) :
  let unjustified :=
    filter (fun s => negb (PyStr.contains "section" (PyStr.lower (text s))))
           (denial_sentences structured) in
  map flag_text (flag_evasive_responses structured)
  = map text (evasive_sentences structured) ++ map text unjustified
  /\ map severity (flag_evasive_responses structured)
     = repeat "medium" (List.length (evasive_sentences structured))
       ++ repeat "high" (List.length unjustified)
  /\ List.length (flag_evasive_responses structured)
     <= List.length (evasive_sentences structured)
        + List.length (denial_sentences structured)
  /\ (flag_evasive_responses structured = [] <->
      evasive_sentences structured = []
      /\ Forall (fun s => PyStr.contains "section" (PyStr.lower (text s))
                          = true)
                (denial_sentences structured)).
Proof.
  intros unjustified. unfold flag_evasive_responses. fold unjustified.
  split; [|split; [|split]].
  - rewrite map_app, !map_map. reflexivity.
  - rewrite map_app, !map_map.
    f_equal; [generalize (evasive_sentences structured)|generalize unjustified];
      intros l; induction l as [|x l IH]; cbn; [reflexivity|f_equal; exact IH
                                                |reflexivity|f_equal; exact IH].
  - rewrite length_app, !length_map.
    pose proof (filter_length_bound
                  (fun s => negb (PyStr.contains "section"
                                    (PyStr.lower (text s))))
                  (denial_sentences structured)).
    fold unjustified in H. lia.
  - split.
    + intros H. apply app_eq_nil in H. destruct H as [He Hd].
      split.
      * destruct (evasive_sentences structured); [reflexivity|discriminate He].
      * apply Forall_forall. intros s Hs.
        destruct (PyStr.contains "section" (PyStr.lower (text s))) eqn:E;
          [reflexivity|].
        exfalso. assert (Hin : In s unjustified).
        { apply filter_In. split; [exact Hs|]. rewrite E. reflexivity. }
        destruct unjustified; [destruct Hin|discriminate Hd].
    + intros [He Hd]. rewrite He. cbn [map app].
      replace unjustified with (@nil ClassifiedSentence); [reflexivity|].
      symmetry. apply filter_none. intros s Hs.
      rewrite Forall_forall in Hd. rewrite (Hd s Hs). reflexivity.
Qed.

(** X19.  For a response whose five buckets are empty and whose document
    does not mention the exemption section, the report holds the single
    suggestion "Review Response Carefully", is not eligible for appeal,
    has no reasons and no flags, and is assessed PARTIAL. *)
Theorem report_of_empty_response (structured : StructuredRTIResponse) :
  informative_sentences structured = [] ->
  denial_sentences structured = [] ->
  procedural_sentences structured = [] ->
  evasive_sentences structured = [] ->
  neutral_sentences structured = [] ->
  Dict.mem "section_8" (document_sections structured) = false ->
  exists report,
    generate_action_report structured = Some report
    /\ suggestions report = [entry_of review_suggestion]
    /\ eligible (appeal_eligibility report) = false
    /\ reasons (appeal_eligibility report) = []
    /\ flags report = []
    /\ overall_assessment report = PARTIAL.
Proof.
  intros Hi Hd Hp He Hn H8.
  assert (Hs : get_stats structured
               = Some {| total_sentences := 0; informative_count := 0;
                         denial_count := 0; procedural_count := 0;
                         evasive_count := 0; neutral_count := 0;
                         informative_ratio := 0%Q; denial_ratio := 0%Q |}).
  { unfold get_stats. rewrite Hi, Hd, Hp, He, Hn. reflexivity. }
  unfold generate_action_report, suggest_next_steps, check_appeal_eligibility,
    _get_overall_assessment, flag_evasive_responses.
  rewrite Hs, He, Hd. cbn [Err.bind Err.ret].
  unfold unsorted_suggestions, fired_suggestions, rule1_fires, rule2_fires,
    rule3_fires, rule4_fee_fires, rule4_transfer_fires, rule5_fires.
  rewrite H8.
  cbn [denial_ratio informative_ratio denial_count evasive_count
       informative_count procedural_count neutral_count].
  eexists. split; [reflexivity|].
  repeat split; reflexivity.
Qed.

Lemma report_of_empty_response_witness :
  exists structured,
    extract_structured_response "   " = Some structured
    /\ exists report,
         generate_action_report structured = Some report
         /\ suggestions report = [entry_of review_suggestion]
         /\ eligible (appeal_eligibility report) = false
         /\ reasons (appeal_eligibility report) = []
         /\ flags report = []
         /\ overall_assessment report = PARTIAL.
Proof.
  eexists. split; [vm_compute; reflexivity|].
  apply report_of_empty_response; reflexivity.
Defined.

(** ** Blank documents *)

Ltac by_space_char c H :=
  destruct c as [[] [] [] [] [] [] [] []];
  vm_compute in H; try discriminate H; reflexivity.

Lemma space_not_terminator (c : ascii) :
  PyStr.is_space c = true -> is_terminator c = false.
Proof. intros H. by_space_char c H. Qed.

Lemma string_of_rev_cons (c : ascii) (cur : list ascii) (s : string) :
  (string_of_list_ascii (rev (c :: cur)) ++ s
   = string_of_list_ascii (rev cur) ++ String c s)%string.
Proof.
  cbn [rev]. generalize (rev cur). intros l.
  induction l as [|x l IH]; cbn; [reflexivity|]. rewrite IH. reflexivity.
Qed.

Lemma split_after_blank (cur : list ascii) (s : string) :
  blank s = true ->
  Re.split_from is_terminator PyStr.is_space false false cur s
  = [(string_of_list_ascii (rev cur) ++ s)%string].
Proof.
  revert cur. induction s as [|c s IH]; intros cur H.
  - cbn. f_equal. generalize (string_of_list_ascii (rev cur)). intros t.
    induction t as [|x t IHt]; cbn; [reflexivity|]. rewrite <- IHt. reflexivity.
  - cbn [blank] in H. apply andb_true_iff in H. destruct H as [Hc Hs].
    cbn [Re.split_from]. rewrite Hc. cbn [andb].
    rewrite (space_not_terminator c Hc), (IH (c :: cur) Hs).
    rewrite string_of_rev_cons. reflexivity.
Qed.

Lemma sub_blank (group tail : Re.regex) (repl : string -> string) (s : string) :
  (forall c s', PyStr.is_space c = true ->
                Re.match_k false group (String c s')
                  (fun s1 => Re.match_k false tail s1
                               (fun s2 => Some (s1, s2))) = None) ->
  blank s = true ->
  Re.sub group tail repl s = s.
Proof.
  intros Hno. unfold Re.sub. induction s as [|c s IH]; intros H;
    [reflexivity|].
  cbn [blank] in H. apply andb_true_iff in H. destruct H as [Hc Hs].
  cbn [Re.sub_from]. rewrite (Hno c s Hc), (IH Hs). reflexivity.
Qed.

Lemma replace_dot_blank (s : string) :
  blank s = true -> PyStr.replace "<DOT>" "." s = s.
Proof.
  unfold PyStr.replace. induction s as [|c s IH]; intros H; [reflexivity|].
  cbn [blank] in H. apply andb_true_iff in H. destruct H as [Hc Hs].
  cbn [PyStr.replace_from]. cbn [prefix].
  destruct (ascii_dec "<" c) as [<-|_]; [discriminate Hc|].
  rewrite (IH Hs). reflexivity.
Qed.

Lemma title_abbreviations_need_letter (tail : Re.regex) (c : ascii)
    (s' : string) :
  PyStr.is_space c = true ->
  Re.match_k false title_abbreviations (String c s')
    (fun s1 => Re.match_k false tail s1 (fun s2 => Some (s1, s2))) = None.
Proof. intros H. by_space_char c H. Qed.

Lemma sec_no_abbreviations_need_letter (tail : Re.regex) (c : ascii)
    (s' : string) :
  PyStr.is_space c = true ->
  Re.match_k false sec_no_abbreviations (String c s')
    (fun s1 => Re.match_k false tail s1 (fun s2 => Some (s1, s2))) = None.
Proof. intros H. by_space_char c H. Qed.

Lemma rupee_needs_letter (c : ascii) (s' : string) :
  PyStr.is_space c = true ->
  Re.match_k false Re.Eps (String c s')
    (fun s1 => Re.match_k false (Re.Lit "Rs.") s1 (fun s2 => Some (s1, s2)))
  = None.
Proof. intros H. by_space_char c H. Qed.

Lemma finditer_blank (r : Re.regex) (pos : nat) (s : string) :
  (forall c s', PyStr.is_space c = true ->
                Re.match_at true r (String c s') = None) ->
  blank s = true ->
  Re.finditer_from true r pos 0 s = [].
Proof.
  intros Hno. revert pos. induction s as [|c s IH]; intros pos H;
    [reflexivity|].
  cbn [blank] in H. apply andb_true_iff in H. destruct H as [Hc Hs].
  cbn [Re.finditer_from]. rewrite (Hno c s Hc). apply IH. exact Hs.
Qed.

Lemma section_patterns_need_letter :
  Forall (fun entry =>
            forall c s', PyStr.is_space c = true ->
                         Re.match_at true (snd entry) (String c s') = None)
         Config.RTI_SECTIONS.
Proof.
  repeat constructor; intros c s' H; by_space_char c H.
Qed.

Lemma detect_rti_sections_blank (text : string) :
  blank text = true -> detect_rti_sections text = [].
Proof.
  intros H. rewrite detect_rti_sections_flat.
  pose proof section_patterns_need_letter as Hp.
  induction Config.RTI_SECTIONS as [|e entries IH]; [reflexivity|].
  inversion Hp as [|? ? He Hes]; subst. cbn [flat_map].
  rewrite (IH Hes), app_nil_r. unfold section_entry, Re.finditer.
  rewrite (finditer_blank (snd e) 0 text He H). reflexivity.
Qed.

Lemma segmenters_blank (text : string) :
  blank text = true ->
  RtiSemantic.split_into_sentences text = []
  /\ FactExtractor.split_into_sentences text = []
  /\ Helpers.split_into_sentences text = [].
Proof.
  intros H. pose proof (strip_blank text H) as Hstrip.
  unfold RtiSemantic.split_into_sentences, FactExtractor.split_into_sentences,
    Helpers.split_into_sentences.
  rewrite !(sub_blank title_abbreviations _ _ text
              (title_abbreviations_need_letter _) H).
  rewrite !(sub_blank sec_no_abbreviations _ _ text
              (sec_no_abbreviations_need_letter _) H).
  rewrite (sub_blank Re.Eps _ _ text rupee_needs_letter H).
  unfold Re.split_after. rewrite (split_after_blank [] text H).
  cbn [rev string_of_list_ascii append map filter].
  rewrite (replace_dot_blank text H), Hstrip. repeat split; reflexivity.
Qed.

(** X20.  A text made of blanks only (the empty text included) has no
    sentence for any of the segmenters and no section reference; it has no
    fact anchor; its structured response has five empty buckets, and the
    report on it consists of the catch-all suggestion alone, without
    eligibility for appeal or flags, assessed PARTIAL. *)
Theorem blank_document (text : string) (top_n : Z) :
  blank text = true ->
  RtiSemantic.split_into_sentences text = []
  /\ FactExtractor.split_into_sentences text = []
  /\ Helpers.split_into_sentences text = []
  /\ detect_rti_sections text = []
  /\ extract_fact_anchors text top_n = []
  /\ extract_fact_anchors_with_scores text top_n = []
  /\ format_fact_anchors (extract_fact_anchors text top_n)
     = "No specific facts extracted."
  /\ exists structured report,
       extract_structured_response text = Some structured
       /\ structured
          = {| original_text := text;
               informative_sentences := []; denial_sentences := [];
               procedural_sentences := []; evasive_sentences := [];
               neutral_sentences := []; document_sections := [] |}
       /\ generate_action_report structured = Some report
       /\ suggestions report = [entry_of review_suggestion]
       /\ eligible (appeal_eligibility report) = false
       /\ flags report = []
       /\ overall_assessment report = PARTIAL.
Proof.
  intros H. destruct (segmenters_blank text H) as (H1 & H2 & H3).
  pose proof (detect_rti_sections_blank text H) as H4.
  assert (H5 : extract_fact_anchors text top_n = []).
  { unfold extract_fact_anchors. rewrite H2. reflexivity. }
  repeat (split; [assumption|]).
  split; [unfold extract_fact_anchors_with_scores; rewrite H2; reflexivity|].
  split; [rewrite H5; reflexivity|].
  eexists. eexists. split.
  { unfold extract_structured_response. rewrite H1, H4. reflexivity. }
  split; [reflexivity|]. split; [reflexivity|].
  repeat split; reflexivity.
Qed.

Lemma blank_document_witness :
  blank "    " = true
  /\ RtiSemantic.split_into_sentences "    " = []
  /\ FactExtractor.split_into_sentences "    " = []
  /\ Helpers.split_into_sentences "    " = []
  /\ detect_rti_sections "    " = []
  /\ extract_fact_anchors "    " 5 = []
  /\ extract_fact_anchors_with_scores "    " 5 = []
  /\ format_fact_anchors (extract_fact_anchors "    " 5)
     = "No specific facts extracted."
  /\ exists structured report,
       extract_structured_response "    " = Some structured
       /\ structured
          = {| original_text := "    ";
               informative_sentences := []; denial_sentences := [];
               procedural_sentences := []; evasive_sentences := [];
               neutral_sentences := []; document_sections := [] |}
       /\ generate_action_report structured = Some report
       /\ suggestions report = [entry_of review_suggestion]
       /\ eligible (appeal_eligibility report) = false
       /\ flags report = []
       /\ overall_assessment report = PARTIAL.
Proof.
  split; [reflexivity|].
  apply (blank_document "    " 5). reflexivity.
Defined.

(** ** Classification does not depend on letter case *)


Section CaseFolding.

Context {A B : Type}.
Variable g : A -> B.

(** Below, the continuations [k1] and [k2] agree up to lower-casing of
    the remaining text. *)



End CaseFolding.
















(** ** Section and transfer bonuses keep a sentence out of Neutral *)

Lemma fold_best_dominates
    (scores : list (SentenceCategory * (Q * list string)))
    (best : SentenceCategory * Q * list string) :
  Forall (fun e => (fst (snd e) <= snd (fst (fold_left best_step scores best)))%Q)
         scores.
Proof.
  revert best. induction scores as [|[c [s k]] scores IH]; intros best;
    constructor.
  - cbn [fold_left fst snd].
    eapply Qle_trans; [|apply fold_best_score_ge].
    destruct best as [[bc bs] bk]. unfold best_step.
    destruct (Qgtb s bs) eqn:E; cbn [fst snd].
    + apply Qle_refl.
    + apply Qgtb_false. exact E.
  - cbn [fold_left]. apply IH.
Qed.

Lemma keyword_score_nonneg (text : string) (keywords : list string)
    (score : Q) (found : list string) :
  keyword_score text keywords = Some (score, found) -> (0 <= score)%Q.
Proof.
  unfold keyword_score. destruct keywords as [|k keywords].
  - cbn. intros H. inversion H. discriminate.
  - cbn [List.length py_truediv Err.bind Err.ret]. intros H. inversion H.
    unfold Qle. cbn. lia.
Qed.

(** X22.  A sentence in which the exemption section is detected is never
    classified Neutral and gets a confidence of at least 0.3; a sentence in
    which the time-limit section is detected, or which contains "transfer"
    or "forward" in any letter case, is never Neutral either and gets a
    confidence of at least 0.2. *)
Theorem bonus_excludes_neutral (sentence : string) (bonus : Q) :
  (Dict.mem "section_8" (detect_rti_sections (PyStr.strip sentence)) = true
   /\ bonus = 0.3%Q)
  \/ ((Dict.mem "section_7" (detect_rti_sections (PyStr.strip sentence))
       || Re.search true (Re.Alt (Re.Lit "transfer") (Re.Lit "forward"))
                    (PyStr.strip sentence)) = true
      /\ bonus = 0.2%Q) ->
  exists c,
    classify_sentence sentence = Some c
    /\ category c <> NEUTRAL
    /\ (bonus <= confidence c)%Q.
Proof.
  intros Hb.
  assert (Hne : PyStr.strip sentence <> "").
  { intros E. rewrite E in Hb.
    destruct Hb as [[H _]|[H _]]; vm_compute in H; discriminate H. }
  destruct (score_table (PyStr.strip sentence)) as [scores|] eqn:Ht.
  2:{ destruct (adjusted_scores_total Config.DENIAL_KEYWORDS
                  Config.INFORMATIVE_KEYWORDS Config.PROCEDURAL_KEYWORDS
                  Config.EVASIVE_KEYWORDS (PyStr.strip sentence))
        as [scores [E _]].
      unfold score_table in Ht. congruence. }
  destruct (find_best scores) as [[bc bs] bk] eqn:Hbest.
  rewrite (classify_sentence_unfold sentence scores bc bs bk Hne Ht Hbest).
  assert (Hdom : Exists (fun e => (bonus <= fst (snd e))%Q) scores).
  { unfold score_table, adjusted_scores in Ht.
    destruct (keyword_score (PyStr.strip sentence) Config.DENIAL_KEYWORDS)
      as [[s1 k1]|] eqn:E1; [|discriminate Ht].
    destruct (keyword_score (PyStr.strip sentence) Config.INFORMATIVE_KEYWORDS)
      as [[s2 k2]|] eqn:E2; [|discriminate Ht].
    destruct (keyword_score (PyStr.strip sentence) Config.PROCEDURAL_KEYWORDS)
      as [[s3 k3]|] eqn:E3; [|discriminate Ht].
    destruct (keyword_score (PyStr.strip sentence) Config.EVASIVE_KEYWORDS)
      as [[s4 k4]|] eqn:E4; [|discriminate Ht].
    unfold Err.bind, Err.ret in Ht. inversion Ht; subst scores. clear Ht.
    apply keyword_score_nonneg in E1, E3.
    destruct Hb as [[H ->]|[H ->]]; cbn [Re.Lit] in H; rewrite H.
    - apply Exists_cons_hd. cbn [fst snd].
      rewrite <- (Qplus_0_l 0.3) at 1. apply Qplus_le_compat;
        [exact E1|apply Qle_refl].
    - apply Exists_cons_tl, Exists_cons_tl, Exists_cons_hd. cbn [fst snd].
      rewrite <- (Qplus_0_l 0.2) at 1. apply Qplus_le_compat;
        [exact E3|apply Qle_refl]. }
  assert (Hbs : (bonus <= bs)%Q).
  { apply Exists_exists in Hdom. destruct Hdom as [e [He Hle]].
    pose proof (fold_best_dominates scores (NEUTRAL, 0%Q, [])) as Hall.
    unfold find_best in Hbest. rewrite Hbest in Hall.
    rewrite Forall_forall in Hall. eapply Qle_trans; [exact Hle|].
    apply (Hall e He). }
  assert (Hfloor : (0.1 <= bs)%Q).
  { eapply Qle_trans; [|exact Hbs].
    destruct Hb as [[_ ->]|[_ ->]]; discriminate. }
  apply Qltb_false in Hfloor. rewrite Hfloor.
  eexists. split; [reflexivity|].
  cbn [category confidence]. split.
  - unfold find_best in Hbest. apply fold_best_origin in Hbest.
    destruct Hbest as [Hbest|Hbest].
    + inversion Hbest; subst. exfalso. apply Qltb_false in Hfloor.
      revert Hfloor. apply Qlt_not_le. reflexivity.
    + destruct (adjusted_scores_total Config.DENIAL_KEYWORDS
                  Config.INFORMATIVE_KEYWORDS Config.PROCEDURAL_KEYWORDS
                  Config.EVASIVE_KEYWORDS (PyStr.strip sentence))
        as [scores' [E Ho]].
      unfold score_table in Ht. rewrite Ht in E. inversion E; subst scores'.
      apply (in_map fst) in Hbest. rewrite Ho in Hbest. cbn in Hbest.
      intuition congruence.
  - apply Q.min_glb; [exact Hbs|].
    destruct Hb as [[_ ->]|[_ ->]]; discriminate.
Qed.

Lemma bonus_excludes_neutral_witness :
  ((Dict.mem "section_8"
      (detect_rti_sections (PyStr.strip "This falls under Section  8 here."))
    = true /\ 0.3%Q = 0.3%Q)
   \/ ((Dict.mem "section_7"
          (detect_rti_sections
             (PyStr.strip "This falls under Section  8 here."))
        || Re.search true (Re.Alt (Re.Lit "transfer") (Re.Lit "forward"))
                     (PyStr.strip "This falls under Section  8 here."))
       = true /\ 0.3%Q = 0.2%Q))
  /\ exists c,
       classify_sentence "This falls under Section  8 here." = Some c
       /\ category c <> NEUTRAL
       /\ (0.3 <= confidence c)%Q.
Proof.
  assert (H : Dict.mem "section_8"
                (detect_rti_sections
                   (PyStr.strip "This falls under Section  8 here."))
              = true /\ 0.3%Q = 0.3%Q)
    by (split; [vm_compute; reflexivity|reflexivity]).
  split; [left; exact H|].
  apply (bonus_excludes_neutral "This falls under Section  8 here." 0.3).
  left. exact H.
Defined.

(** ** The rule table, read off the returned suggestions *)

(** X23.  Through the final sort, each suggestion is returned exactly
    when its rule holds: "File First Appeal" when the denial ratio exceeds
    0.3 or at least two sentences are Denial; "Request Clarification" when
    at least two sentences are Evasive, or one is and none is Informative;
    "Challenge Exemption Claim" when the document references the exemption
    section; "Response Complete" when the informative ratio exceeds 0.6 and
    no sentence is Denial; the fee and transfer suggestions only when some
    sentence is Procedural. *)
Theorem suggest_next_steps_rule_table (structured : StructuredRTIResponse) :
  exists stats result,
    get_stats structured = Some stats
    /\ suggest_next_steps structured = Some result
    /\ (In first_appeal_suggestion result <->
        (0.3 < denial_ratio stats)%Q \/ 2 <= denial_count stats)
    /\ (In clarification_suggestion result <->
        2 <= evasive_count stats
        \/ (0 < evasive_count stats /\ informative_count stats = 0))
    /\ (In challenge_exemption_suggestion result <->
        Dict.mem "section_8" (document_sections structured) = true)
    /\ (In response_complete_suggestion result <->
        (0.6 < informative_ratio stats)%Q /\ denial_count stats = 0)
    /\ (In pay_fee_suggestion result \/ In transferred_suggestion result ->
        procedural_sentences structured <> []).
Proof.
  destruct (get_stats_total structured) as [stats [Hs Hc]].
  exists stats. unfold suggest_next_steps. rewrite Hs. cbn [Err.bind Err.ret].
  eexists. split; [reflexivity|]. split; [reflexivity|].
  assert (Hin : forall x, x <> review_suggestion ->
                  (In x (sort_by_priority
                           (unsorted_suggestions structured stats))
                   <-> In x (fired_suggestions structured stats))).
  { intros x Hx. rewrite In_result_unsorted. tauto. }
  split; [|split; [|split; [|split]]].
  - rewrite Hin by discriminate. rewrite In_fired_suggestions.
    unfold rule1_fires. rewrite <- Qgtb_true, <- Nat.leb_le, <- orb_true_iff.
    split; [intros [[H _]|[[_ H]|[[_ H]|[[_ H]|[[_ H]|[_ H]]]]]];
            try discriminate H; exact H|].
    intros H. left. split; [exact H|reflexivity].
  - rewrite Hin by discriminate. rewrite In_fired_suggestions.
    unfold rule2_fires.
    rewrite <- Nat.leb_le, <- Nat.ltb_lt, <- Nat.eqb_eq, <- andb_true_iff,
      <- orb_true_iff.
    split; [intros [[_ H]|[[H _]|[[_ H]|[[_ H]|[[_ H]|[_ H]]]]]];
            try discriminate H; exact H|].
    intros H. right. left. split; [exact H|reflexivity].
  - rewrite Hin by discriminate. rewrite In_fired_suggestions.
    unfold rule3_fires.
    split; [intros [[_ H]|[[_ H]|[[H _]|[[_ H]|[[_ H]|[_ H]]]]]];
            try discriminate H; exact H|].
    intros H. right. right. left. split; [exact H|reflexivity].
  - rewrite Hin by discriminate. rewrite In_fired_suggestions.
    unfold rule5_fires.
    rewrite <- Qgtb_true, <- Nat.eqb_eq, <- andb_true_iff.
    split; [intros [[_ H]|[[_ H]|[[_ H]|[[_ H]|[[_ H]|[H _]]]]]];
            try discriminate H; exact H|].
    intros H. do 5 right. split; [exact H|reflexivity].
  - intros H.
    assert (Hp : 0 < procedural_count stats).
    { destruct H as [H|H]; apply Hin in H; try discriminate;
        apply In_fired_suggestions in H;
        destruct H as [[_ H]|[[_ H]|[[_ H]|[[H H']|[[H H']|[_ H]]]]]];
        try discriminate H; try discriminate H';
        unfold rule4_fee_fires, rule4_transfer_fires in H;
        apply andb_true_iff in H; destruct H as [H _];
        apply Nat.ltb_lt in H; exact H. }
    destruct Hc as (_ & _ & Hcp & _). rewrite Hcp in Hp.
    destruct (procedural_sentences structured); [cbn in Hp; lia|discriminate].
Qed.

(** X24.  A response on which [flag_evasive_responses] raises any flag is
    eligible for appeal. *)
Theorem flags_imply_eligible (structured : StructuredRTIResponse) :
  exists verdict,
    check_appeal_eligibility structured = Some verdict
    /\ (flag_evasive_responses structured <> [] -> eligible verdict = true).
Proof.
  destruct (get_stats_total structured) as [stats [Hs Hc]].
  unfold check_appeal_eligibility. rewrite Hs. cbn [Err.bind Err.ret].
  eexists. split; [reflexivity|]. cbn [eligible]. intros Hf.
  destruct Hc as (_ & Hcd & _ & Hce & _).
  assert (Hpos : 0 < denial_count stats \/ 0 < evasive_count stats).
  { rewrite Hcd, Hce. unfold flag_evasive_responses in Hf.
    destruct (evasive_sentences structured) as [|e es];
      [|right; cbn; lia].
    destruct (denial_sentences structured) as [|d ds];
      [exfalso; apply Hf; reflexivity|left; cbn; lia]. }
  unfold append_if.
  destruct Hpos as [H|H]; apply Nat.ltb_lt in H; rewrite H;
    repeat match goal with |- context [if ?c then _ else _] =>
      destruct c end; rewrite ?length_app; cbn; try reflexivity;
    apply Nat.ltb_lt; lia.
Qed.

(** ** Chunking and truncation *)

Lemma string_length_app (a b : string) :
  String.length (a ++ b) = String.length a + String.length b.
Proof.
  induction a as [|c a IH]; cbn; [reflexivity|]. rewrite IH. reflexivity.
Qed.

Lemma chunk_fold_fits (max_size : Z) (paragraphs chunks : list string)
    (current_chunk : string) :
  Forall (fun p => (Z.of_nat (String.length p) + 2 <= max_size)%Z) paragraphs ->
  Forall (fun c => (Z.of_nat (String.length c) <= max_size)%Z) chunks ->
  (Z.of_nat (String.length current_chunk) <= max_size)%Z ->
  Forall (fun c => (Z.of_nat (String.length c) <= max_size)%Z)
         (fst (fold_left (Summarizer.chunk_step max_size) paragraphs
                         (chunks, current_chunk)))
  /\ (Z.of_nat (String.length
                  (snd (fold_left (Summarizer.chunk_step max_size) paragraphs
                                  (chunks, current_chunk))))
      <= max_size)%Z.
Proof.
  intros Hp. revert chunks current_chunk.
  induction Hp as [|p paragraphs Hp0 _ IH]; intros chunks cur Hc Hcur.
  - cbn. split; assumption.
  - cbn [fold_left].
    destruct (Summarizer.chunk_step max_size (chunks, cur) p)
      as [chunks' cur'] eqn:Estep.
    unfold Summarizer.chunk_step in Estep.
    destruct (Z.of_nat (String.length cur) + Z.of_nat (String.length p) + 2
              <=? max_size)%Z eqn:E; inversion Estep; subst chunks' cur'.
    + apply IH; [exact Hc|]. apply Z.leb_le in E.
      rewrite !string_length_app. cbn [PyStr.newline String.length]. lia.
    + apply IH.
      * destruct (PyStr.truthy cur); [|exact Hc].
        apply Forall_app. split; [exact Hc|]. constructor; [|constructor].
        pose proof (strip_length cur). lia.
      * rewrite !string_length_app. cbn [PyStr.newline String.length]. lia.
Qed.

(** X25.  If no paragraph of the text, counted with the two line feeds
    that follow it, is longer than [max_size], then no chunk returned by
    [chunk_text] is longer than [max_size].  A text that fits is returned
    as its only chunk. *)
Theorem chunk_text_fits (text : string) (max_size : Z) :
  Forall (fun p => (Z.of_nat (String.length p) + 2 <= max_size)%Z)
         (PyStr.split (PyStr.newline ++ PyStr.newline) text) ->
  Forall (fun c => (Z.of_nat (String.length c) <= max_size)%Z)
         (Summarizer.chunk_text text max_size)
  /\ ((Z.of_nat (String.length text) <= max_size)%Z ->
      Summarizer.chunk_text text max_size = [text]).
Proof.
  intros Hp. unfold Summarizer.chunk_text.
  destruct (Z.of_nat (String.length text) <=? max_size)%Z eqn:E.
  - apply Z.leb_le in E. split; [repeat constructor; exact E|reflexivity].
  - apply Z.leb_gt in E. split; [|lia].
    destruct (PyStr.split (PyStr.newline ++ PyStr.newline) text)
      as [|p paragraphs] eqn:Es; [constructor|].
    assert (H0 : (0 <= max_size)%Z) by (inversion Hp; subst; lia).
    destruct (chunk_fold_fits max_size _ [] "" Hp (Forall_nil _) H0)
      as [Hchunks Hcur].
    destruct (fold_left _ _ _) as [chunks cur]. cbn [fst snd] in *.
    destruct (PyStr.truthy cur); [|exact Hchunks].
    apply Forall_app. split; [exact Hchunks|]. constructor; [|constructor].
    pose proof (strip_length cur). lia.
Qed.

Lemma chunk_text_fits_witness :
  Forall (fun p => (Z.of_nat (String.length p) + 2 <= 10)%Z)
         (PyStr.split (PyStr.newline ++ PyStr.newline) paragraphs_document)
  /\ Forall (fun c => (Z.of_nat (String.length c) <= 10)%Z)
            (Summarizer.chunk_text paragraphs_document 10)
  /\ ((Z.of_nat (String.length paragraphs_document) <= 10)%Z ->
      Summarizer.chunk_text paragraphs_document 10 = [paragraphs_document]).
Proof.
  assert (H : Forall (fun p => (Z.of_nat (String.length p) + 2 <= 10)%Z)
                     (PyStr.split (PyStr.newline ++ PyStr.newline)
                                  paragraphs_document)).
  { assert (E : PyStr.split (PyStr.newline ++ PyStr.newline)
                            paragraphs_document
                = ["aaaa"; "bb"; "cccccc"; "d"]) by (vm_compute; reflexivity).
    rewrite E. repeat constructor; cbn; lia. }
  split; [exact H|].
  apply (chunk_text_fits paragraphs_document 10). exact H.
Defined.

Lemma substring_prefix (n : nat) (s : string) :
  exists rest, s = (substring 0 n s ++ rest)%string
               /\ String.length (substring 0 n s) <= n.
Proof.
  revert s. induction n as [|n IH]; intros s.
  - exists s. destruct s; cbn; split; (reflexivity || lia).
  - destruct s as [|c s]; [exists ""; cbn; split; [reflexivity|lia]|].
    destruct (IH s) as [rest [E L]]. exists rest. cbn [substring].
    cbn [append String.length]. split; [f_equal; exact E|lia].
Qed.

Lemma rsplit1_head_prefix (sep : ascii) (s h : string) :
  PyStr.rsplit1_head sep s = Some h ->
  exists rest, s = (h ++ String sep rest)%string.
Proof.
  revert h. induction s as [|c s IH]; intros h H; [discriminate H|].
  cbn [PyStr.rsplit1_head] in H.
  destruct (PyStr.rsplit1_head sep s) as [h'|].
  - inversion H; subst h. destruct (IH h' eq_refl) as [rest E].
    exists rest. cbn [append]. f_equal. exact E.
  - destruct (Ascii.eqb c sep) eqn:Ec; [|discriminate H].
    inversion H; subst h. apply Ascii.eqb_eq in Ec. subst c.
    exists s. reflexivity.
Qed.

Lemma rsplit1_prefix (sep : ascii) (s : string) :
  exists rest, s = (PyStr.rsplit1 sep s ++ rest)%string
               /\ (rest = "" \/ exists rest', rest = String sep rest').
Proof.
  unfold PyStr.rsplit1. destruct (PyStr.rsplit1_head sep s) as [h|] eqn:E.
  - destruct (rsplit1_head_prefix sep s h E) as [rest Hr].
    exists (String sep rest). split; [exact Hr|right; eauto].
  - exists "". split; [|left; reflexivity].
    clear E. induction s as [|c s IH]; cbn; [reflexivity|f_equal; exact IH].
Qed.

Lemma string_app_assoc (a b c : string) :
  ((a ++ b) ++ c = a ++ (b ++ c))%string.
Proof.
  induction a as [|x a IH]; cbn; [reflexivity|]. rewrite IH. reflexivity.
Qed.

(** X26.  [truncate_text] returns a text that fits unchanged.  Otherwise
    it returns a prefix of the text followed by "...": the prefix is cut
    before the last space of the first [max_length] characters (or is those
    characters when they hold no space), so for a non-negative limit the
    result is at most three characters longer than the limit. *)
Theorem truncate_text_prefix (text : string) (max_length : Z) :
  if (Z.of_nat (String.length text) <=? max_length)%Z
  then Helpers.truncate_text text max_length = text
  else
    exists kept rest,
      Helpers.truncate_text text max_length = (kept ++ "...")%string
      /\ text = (kept ++ rest)%string
      /\ ((0 <= max_length)%Z ->
          (Z.of_nat (String.length kept) <= max_length)%Z
          /\ (Z.of_nat (String.length
                          (Helpers.truncate_text text max_length))
              <= max_length + 3)%Z).
Proof.
  unfold Helpers.truncate_text.
  destruct (Z.of_nat (String.length text) <=? max_length)%Z eqn:E;
    [reflexivity|].
  set (head := PyStr.slice_to max_length text).
  assert (Hhead : exists rest, text = (head ++ rest)%string
                  /\ ((0 <= max_length)%Z ->
                      (Z.of_nat (String.length head) <= max_length)%Z)).
  { unfold head, PyStr.slice_to.
    destruct (0 <=? max_length)%Z eqn:E0.
    - destruct (substring_prefix (Z.to_nat max_length) text) as [rest [H L]].
      exists rest. split; [exact H|]. intros; lia.
    - apply Z.leb_gt in E0.
      match goal with |- context [substring 0 ?n text] =>
        destruct (substring_prefix n text) as [rest [H L]] end.
      exists rest. split; [exact H|]. intros; lia. }
  destruct Hhead as [rest1 [H1 L1]].
  destruct (rsplit1_prefix " " head) as [rest2 [H2 _]].
  exists (PyStr.rsplit1 " " head), (rest2 ++ rest1)%string.
  split; [reflexivity|]. split.
  - rewrite <- string_app_assoc, <- H2. exact H1.
  - intros H0. specialize (L1 H0).
    assert (Hk : String.length (PyStr.rsplit1 " " head)
                 <= String.length head).
    { rewrite H2 at 2. rewrite string_length_app. lia. }
    split; [lia|]. rewrite string_length_app. cbn [String.length]. lia.
Qed.

(** ** The numbered list of fact anchors *)

Lemma one_line_app (a b : string) :
  one_line (a ++ b) = one_line a && one_line b.
Proof.
  induction a as [|c a IH]; cbn; [reflexivity|].
  rewrite IH, andb_assoc. reflexivity.
Qed.

Lemma one_line_uint (d : Decimal.uint) :
  one_line (NilEmpty.string_of_uint d) = true.
Proof.
  induction d; cbn; try exact IHd; reflexivity.
Qed.

Lemma one_line_numbered (i : nat) (anchors : list string) :
  Forall (fun a => one_line a = true) anchors ->
  Forall (fun l => one_line l = true) (numbered_from i anchors).
Proof.
  intros H. revert i. induction H as [|a anchors Ha _ IH]; intros i;
    cbn [numbered_from]; constructor; [|apply IH].
  rewrite !one_line_app. unfold PyStr.of_nat. rewrite one_line_uint, Ha.
  reflexivity.
Qed.

Lemma split_line_prefix (line rest : string) (cur : list ascii) :
  one_line line = true ->
  PyStr.split_from PyStr.newline 0 cur (line ++ rest)
  = PyStr.split_from PyStr.newline 0
      (rev (list_ascii_of_string line) ++ cur) rest.
Proof.
  revert cur. induction line as [|c line IH]; intros cur H; [reflexivity|].
  cbn [one_line] in H. apply andb_true_iff in H. destruct H as [Hc Hl].
  cbn [append PyStr.split_from]. unfold PyStr.newline at 1. cbn [prefix].
  destruct (ascii_dec (ascii_of_nat 10) c) as [<-|_].
  - cbn in Hc. discriminate Hc.
  - rewrite (IH (c :: cur) Hl). cbn [list_ascii_of_string rev].
    rewrite <- app_assoc. reflexivity.
Qed.

Lemma string_of_rev_rev (line : string) :
  string_of_list_ascii (rev (rev (list_ascii_of_string line) ++ [])) = line.
Proof.
  rewrite app_nil_r, rev_involutive. apply string_of_list_ascii_of_string.
Qed.

Lemma string_app_nil_r (a : string) : (a ++ "")%string = a.
Proof.
  induction a as [|c a IH]; cbn; [reflexivity|]. rewrite IH. reflexivity.
Qed.

Lemma split_joined_lines (line : string) (lines : list string) :
  Forall (fun l => one_line l = true) (line :: lines) ->
  PyStr.split PyStr.newline (PyStr.join PyStr.newline (line :: lines))
  = line :: lines.
Proof.
  unfold PyStr.split, PyStr.join. revert line.
  induction lines as [|l lines IH]; intros line H;
    inversion H as [|? ? Hline Hrest]; subst.
  - cbn [String.concat].
    rewrite <- (string_app_nil_r line) at 1.
    rewrite (split_line_prefix line "" [] Hline). cbn [PyStr.split_from].
    rewrite string_of_rev_rev. reflexivity.
  - change (String.concat PyStr.newline (line :: l :: lines))
      with (line ++ PyStr.newline
            ++ String.concat PyStr.newline (l :: lines))%string.
    specialize (IH l Hrest).
    remember (String.concat PyStr.newline (l :: lines)) as joined.
    rewrite (split_line_prefix line _ [] Hline).
    change (PyStr.newline ++ joined)%string
      with (String (ascii_of_nat 10) joined).
    cbn [PyStr.split_from]. unfold PyStr.newline at 1. cbn [prefix].
    destruct (ascii_dec (ascii_of_nat 10) (ascii_of_nat 10)) as [_|N];
      [|exfalso; apply N; reflexivity].
    cbn [PyStr.newline String.length Nat.sub].
    replace (prefix "" joined) with true by (destruct joined; reflexivity).
    rewrite string_of_rev_rev. f_equal. exact IH.
Qed.

Lemma numbered_from_combine (i : nat) (anchors : list string) :
  numbered_from i anchors
  = map (fun entry => (PyStr.of_nat (fst entry) ++ ". " ++ snd entry)%string)
        (combine (seq i (List.length anchors)) anchors).
Proof.
  revert i. induction anchors as [|a anchors IH]; intros i; [reflexivity|].
  cbn [numbered_from List.length seq combine map fst snd].
  rewrite IH. reflexivity.
Qed.

(** X27.  For a non-empty list of anchors none of which contains a line
    feed, [format_fact_anchors] writes one line per anchor: cutting its
    result at the line feeds gives back, in order, each anchor preceded by
    its number from 1 (in decimal), a full stop and a space. *)
Theorem format_fact_anchors_lines (anchors : list string) :
  anchors <> [] ->
  Forall (fun a => one_line a = true) anchors ->
  PyStr.split PyStr.newline (format_fact_anchors anchors)
  = map (fun entry => (PyStr.of_nat (fst entry) ++ ". " ++ snd entry)%string)
        (combine (seq 1 (List.length anchors)) anchors)
  /\ List.length (PyStr.split PyStr.newline (format_fact_anchors anchors))
     = List.length anchors.
Proof.
  intros Hne Hlines.
  assert (E : PyStr.split PyStr.newline (format_fact_anchors anchors)
              = numbered_from 1 anchors).
  { unfold format_fact_anchors.
    destruct anchors as [|a anchors]; [exfalso; apply Hne; reflexivity|].
    cbn [PyList.truthy negb].
    pose proof (one_line_numbered 1 (a :: anchors) Hlines) as Hn.
    cbn [numbered_from] in *. apply split_joined_lines. exact Hn. }
  rewrite E, numbered_from_combine. split; [reflexivity|].
  rewrite length_map, length_combine, length_seq. apply Nat.min_id.
Qed.

Lemma format_fact_anchors_lines_witness :
  ["First fact."; "Second fact."] <> @nil string
  /\ Forall (fun a => one_line a = true) ["First fact."; "Second fact."]
  /\ PyStr.split PyStr.newline
       (format_fact_anchors ["First fact."; "Second fact."])
     = map (fun entry =>
              (PyStr.of_nat (fst entry) ++ ". " ++ snd entry)%string)
           (combine (seq 1 (List.length ["First fact."; "Second fact."]))
                    ["First fact."; "Second fact."])
  /\ List.length
       (PyStr.split PyStr.newline
          (format_fact_anchors ["First fact."; "Second fact."]))
     = List.length ["First fact."; "Second fact."].
Proof.
  assert (H1 : ["First fact."; "Second fact."] <> @nil string)
    by discriminate.
  assert (H2 : Forall (fun a => one_line a = true)
                      ["First fact."; "Second fact."])
    by (repeat constructor).
  split; [exact H1|]. split; [exact H2|].
  apply (format_fact_anchors_lines ["First fact."; "Second fact."] H1 H2).
Defined.

(** ** Worked examples of the added operations *)

Example split_example :
  PyStr.split "ab" "xxabyyabab" = ["xx"; "yy"; ""; ""].
Proof. reflexivity. Qed.

Example rsplit1_example :
  PyStr.rsplit1 " " "hello big world" = "hello big"
  /\ PyStr.rsplit1 " " "hello" = "hello".
Proof. split; reflexivity. Qed.

Example of_nat_example : PyStr.of_nat 10 = "10".
Proof. reflexivity. Qed.

Example truncate_text_example :
  Helpers.truncate_text "hello big world" 12 = "hello big..."
  /\ Helpers.truncate_text "abcd" 3 = "abc...".
Proof. split; reflexivity. Qed.

Example chunk_text_example :
  Summarizer.chunk_text paragraphs_document 10
  = [("aaaa" ++ PyStr.newline ++ PyStr.newline ++ "bb")%string;
     "cccccc"; "d"].
Proof. vm_compute. reflexivity. Qed.
